(** * Stock screener: metrics, analysis, screening engine, custom strategies
      and the criteria filter

    A shallow embedding of [stock_screener/core.py], of the strategy classes
    of [stock_screener/strategies.py], and of [_apply_criteria],
    [screen_stocks], [analyze_stock] and [get_rules_of_thumb_evaluation] of
    [StockScreener] in [stock_screener/data_provider.py].

    Python [float] is IEEE 754 binary64, which is exactly Rocq's primitive
    [float]; [float('inf')] is [infinity].  Python [int] is [Z].  A [dict]
    with string keys is a [gmap string _]; a [dict] whose iteration order
    matters is an association list.  Exceptions are an explicit [result]. *)

From Stdlib Require Import ZArith Floats Lia Ascii.
From stdpp Require Import gmap strings list fin_maps sorting pretty.

#[local] Set Warnings "-inexact-float".

Local Open Scope string_scope.
Local Open Scope list_scope.
Local Open Scope Z_scope.

(** ** Python values used by the code *)

#[global] Instance float_inhabited : Inhabited float := populate 0%float.

(** [float(z)] for a Python [int]; exact whenever [|z| < 2^53], which covers
    every integer score (0..100) and every rule count used below. *)
Definition float_of_Z (z : Z) : float :=
  if (z <? 0)%Z then (- PrimFloat.of_uint63 (Uint63.of_Z (- z)))%float
  else PrimFloat.of_uint63 (Uint63.of_Z z).

Inductive exn : Type :=
  | ValueError (msg : string)
  | ZeroDivisionError
  | TypeError.

Inductive result (A : Type) : Type :=
  | Ok (a : A)
  | Raise (e : exn).
Arguments Ok {A} a.
Arguments Raise {A} e.

Definition bind {A B} (r : result A) (k : A → result B) : result B :=
  match r with
  | Ok a => k a
  | Raise e => Raise e
  end.

Notation "x ←! r ; k" := (bind r (λ x, k))
  (at level 20, r at level 100, k at level 200, right associativity,
   format "x  ←!  r ;  '/' k").

(** ** Data model *)

Inductive ScreeningStrategy : Type :=
  | VALUE_INVESTING
  | GROWTH_INVESTING
  | DIVIDEND_INVESTING
  | MOMENTUM_INVESTING
  | QUALITY_INVESTING
  | CONTRARIAN.

(** What a caller can pass as [strategy]: a member of the enumeration, or any
    other hashable Python value (a string, [None], a number, ...), which is
    then identified by its [str()] rendering. *)
Inductive strategy_arg : Type :=
  | Member (kind : ScreeningStrategy)
  | Other (rendering : string).

Record StockData : Type := {
  symbol : string;
  price : float;
  eps : float;
  revenue : float;
  net_income : float;
  total_assets : float;
  total_liabilities : float;
  cash : float;
  debt : float;
  shares_outstanding : Z;
  market_cap : float;
  dividend_per_share : float;
  book_value_per_share : float;
  revenue_growth : float;
  earnings_growth : float;
  dividend_yield : float;
  pe_ratio : option float;
  pb_ratio : option float;
  peg_ratio : option float;
  roe : option float;
  roa : option float;
  debt_to_equity : option float;
  current_ratio : option float;
  quick_ratio : option float;
  debt_to_assets : option float;
  interest_coverage : option float
}.

(** [ScreeningResult.score] holds a Python [int] when it comes from a built-in
    scorer and a [float] when it comes from a custom strategy, hence the
    parameter [S].  [strategy] holds whatever object the constructor was
    given.  [timestamp] is a reading of the clock.  The fields [symbol],
    [metrics] and [signals] carry the prefix [res_] to keep them apart from
    those of [StockData] and of the analysis. *)
Record ScreeningResult (S : Type) : Type := {
  res_symbol : string;
  score : S;
  strategy : strategy_arg;
  res_metrics : gmap string float;
  res_signals : list string;
  timestamp : Z
}.
Arguments res_symbol {S} _.
Arguments score {S} _.
Arguments strategy {S} _.
Arguments res_metrics {S} _.
Arguments res_signals {S} _.
Arguments timestamp {S} _.

(** ** MetricsCalculator *)

Definition _calculate_pe_ratio (stock : StockData) : float :=
  if (eps stock <=? 0)%float then infinity
  else (price stock / eps stock)%float.

Definition _calculate_pb_ratio (stock : StockData) : float :=
  if (book_value_per_share stock <=? 0)%float then infinity
  else (price stock / book_value_per_share stock)%float.

Definition _calculate_peg_ratio (stock : StockData) : float :=
  let pe_ratio :=
    if (0 <? eps stock)%float then (price stock / eps stock)%float
    else infinity in
  if (earnings_growth stock <=? 0)%float then infinity
  else (pe_ratio / earnings_growth stock)%float.

Definition _calculate_price_to_sales (stock : StockData) : float :=
  if (revenue stock <=? 0)%float then infinity
  else (market_cap stock / revenue stock)%float.

Definition _calculate_roe (stock : StockData) : float :=
  let equity := (total_assets stock - total_liabilities stock)%float in
  if (equity <=? 0)%float then 0%float
  else ((net_income stock / equity) * 100)%float.

Definition _calculate_roa (stock : StockData) : float :=
  if (total_assets stock <=? 0)%float then 0%float
  else ((net_income stock / total_assets stock) * 100)%float.

Definition _calculate_net_margin (stock : StockData) : float :=
  if (revenue stock <=? 0)%float then 0%float
  else ((net_income stock / revenue stock) * 100)%float.

Definition _calculate_gross_margin (stock : StockData) : float :=
  if (revenue stock <=? 0)%float then 0%float
  else ((net_income stock / revenue stock) * 100)%float.

Definition _calculate_operating_margin (stock : StockData) : float :=
  if (revenue stock <=? 0)%float then 0%float
  else ((net_income stock / revenue stock) * 100)%float.

Definition _calculate_roic (stock : StockData) : float :=
  let invested_capital :=
    (total_assets stock
     - (total_assets stock - total_liabilities stock - cash stock))%float in
  if (invested_capital <=? 0)%float then 0%float
  else ((net_income stock / invested_capital) * 100)%float.

Definition _calculate_asset_turnover (stock : StockData) : float :=
  if (total_assets stock <=? 0)%float then 0%float
  else (revenue stock / total_assets stock)%float.

Definition _calculate_equity_multiplier (stock : StockData) : float :=
  let equity := (total_assets stock - total_liabilities stock)%float in
  if (equity <=? 0)%float then 0%float
  else (total_assets stock / equity)%float.

Definition _calculate_current_ratio (stock : StockData) : float :=
  if (total_liabilities stock <=? 0)%float then infinity
  else (cash stock / total_liabilities stock)%float.

Definition _calculate_quick_ratio (stock : StockData) : float :=
  if (total_liabilities stock <=? 0)%float then infinity
  else (cash stock / total_liabilities stock)%float.

Definition _calculate_cash_ratio (stock : StockData) : float :=
  if (total_liabilities stock <=? 0)%float then infinity
  else (cash stock / total_liabilities stock)%float.

Definition _calculate_debt_to_equity (stock : StockData) : float :=
  let equity := (total_assets stock - total_liabilities stock)%float in
  if (equity <=? 0)%float then infinity
  else (debt stock / equity)%float.

Definition _calculate_debt_to_assets (stock : StockData) : float :=
  if (total_assets stock <=? 0)%float then 0%float
  else (debt stock / total_assets stock)%float.

Definition _calculate_equity_ratio (stock : StockData) : float :=
  if (total_assets stock <=? 0)%float then 0%float
  else
    let equity := (total_assets stock - total_liabilities stock)%float in
    ((equity / total_assets stock) * 100)%float.

Definition _calculate_interest_coverage (stock : StockData) : float :=
  if (debt stock <=? 0)%float then infinity
  else
    let interest_expense := (debt stock * 0.05)%float in
    if (interest_expense <=? 0)%float then infinity
    else (net_income stock / interest_expense)%float.

(** [metrics = {}] followed by the twenty-five assignments, first one
    innermost. *)
Definition calculate_all_metrics (stock : StockData) : gmap string float :=
  let metrics : gmap string float := ∅ in
  let metrics := <["pe_ratio" := _calculate_pe_ratio stock]> metrics in
  let metrics := <["pb_ratio" := _calculate_pb_ratio stock]> metrics in
  let metrics := <["peg_ratio" := _calculate_peg_ratio stock]> metrics in
  let metrics := <["price_to_sales" := _calculate_price_to_sales stock]> metrics in
  let metrics := <["roe" := _calculate_roe stock]> metrics in
  let metrics := <["roa" := _calculate_roa stock]> metrics in
  let metrics := <["net_margin" := _calculate_net_margin stock]> metrics in
  let metrics := <["gross_margin" := _calculate_gross_margin stock]> metrics in
  let metrics := <["operating_margin" := _calculate_operating_margin stock]> metrics in
  let metrics := <["roic" := _calculate_roic stock]> metrics in
  let metrics := <["asset_turnover" := _calculate_asset_turnover stock]> metrics in
  let metrics := <["equity_multiplier" := _calculate_equity_multiplier stock]> metrics in
  let metrics := <["current_ratio" := _calculate_current_ratio stock]> metrics in
  let metrics := <["quick_ratio" := _calculate_quick_ratio stock]> metrics in
  let metrics := <["cash_ratio" := _calculate_cash_ratio stock]> metrics in
  let metrics := <["debt_to_equity" := _calculate_debt_to_equity stock]> metrics in
  let metrics := <["debt_to_assets" := _calculate_debt_to_assets stock]> metrics in
  let metrics := <["equity_ratio" := _calculate_equity_ratio stock]> metrics in
  let metrics := <["interest_coverage" := _calculate_interest_coverage stock]> metrics in
  let metrics := <["revenue_growth" := revenue_growth stock]> metrics in
  let metrics := <["earnings_growth" := earnings_growth stock]> metrics in
  let metrics := <["dividend_yield" := dividend_yield stock]> metrics in
  let metrics := <["eps" := eps stock]> metrics in
  let metrics := <["book_value_per_share" := book_value_per_share stock]> metrics in
  let metrics := <["dividend_per_share" := dividend_per_share stock]> metrics in
  metrics.

(** ** StockAnalyzer *)

(** The dictionary [analyze] returns, as a record ([a_symbol] is its
    ['symbol'] entry).  A read [metrics['k']] is [metrics !!! "k"]: every
    dictionary the functions below receive from the code comes from
    [calculate_all_metrics] and holds all its keys; a missing key, for which
    Python raises [KeyError], reads as 0 here. *)

Record Analysis : Type := {
  a_symbol : string;
  metrics : gmap string float;
  signals : list string;
  risk_score : Z;
  fundamental_strength : string;
  valuation_score : Z;
  quality_score : Z;
  growth_score : Z;
  momentum_score : Z
}.

Definition _generate_signals (stock : StockData) (metrics : gmap string float)
  : list string :=
  let signals : list string := [] in
  (* Valuation signals *)
  let signals :=
    if (metrics !!! "pe_ratio" <? 15)%float then signals ++ ["UNDERVALUED_PE"]
    else if (30 <? metrics !!! "pe_ratio")%float then signals ++ ["OVERVALUED_PE"]
    else signals in
  let signals :=
    if (metrics !!! "pb_ratio" <? 1)%float then signals ++ ["UNDERVALUED_BOOK"]
    else if (3 <? metrics !!! "pb_ratio")%float then signals ++ ["OVERVALUED_BOOK"]
    else signals in
  (* Profitability signals *)
  let signals :=
    if (15 <? metrics !!! "roe")%float then signals ++ ["HIGH_ROE"] else signals in
  let signals :=
    if (10 <? metrics !!! "roa")%float then signals ++ ["HIGH_ROA"] else signals in
  let signals :=
    if (20 <? metrics !!! "net_margin")%float then signals ++ ["HIGH_MARGIN"]
    else signals in
  (* Growth signals *)
  let signals :=
    if (20 <? revenue_growth stock)%float then signals ++ ["HIGH_REVENUE_GROWTH"]
    else signals in
  let signals :=
    if (20 <? earnings_growth stock)%float then signals ++ ["HIGH_EARNINGS_GROWTH"]
    else signals in
  (* Dividend signals *)
  let signals :=
    if (3 <? dividend_yield stock)%float then signals ++ ["HIGH_DIVIDEND_YIELD"]
    else if (0 <? dividend_yield stock)%float then signals ++ ["PAYS_DIVIDEND"]
    else signals in
  (* Liquidity signals *)
  let signals :=
    if (2 <? metrics !!! "current_ratio")%float then signals ++ ["STRONG_LIQUIDITY"]
    else if (metrics !!! "current_ratio" <? 1)%float then signals ++ ["WEAK_LIQUIDITY"]
    else signals in
  (* Debt signals *)
  let signals :=
    if (metrics !!! "debt_to_equity" <? 0.5)%float then signals ++ ["LOW_DEBT"]
    else if (2 <? metrics !!! "debt_to_equity")%float then signals ++ ["HIGH_DEBT"]
    else signals in
  signals.

Definition _calculate_risk_score (stock : StockData)
  (metrics : gmap string float) : Z :=
  let risk_score := 0 in
  (* Liquidity risk *)
  let risk_score :=
    if (metrics !!! "current_ratio" <? 1)%float then risk_score + 25
    else if (metrics !!! "current_ratio" <? 1.5)%float then risk_score + 10
    else risk_score in
  (* Debt risk *)
  let risk_score :=
    if (2 <? metrics !!! "debt_to_equity")%float then risk_score + 25
    else if (1 <? metrics !!! "debt_to_equity")%float then risk_score + 10
    else risk_score in
  (* Profitability risk *)
  let risk_score :=
    if (metrics !!! "roe" <? 5)%float then risk_score + 20
    else if (metrics !!! "roe" <? 10)%float then risk_score + 10
    else risk_score in
  (* Growth risk *)
  let risk_score :=
    if (revenue_growth stock <? -10)%float then risk_score + 15
    else if (revenue_growth stock <? 0)%float then risk_score + 5
    else risk_score in
  Z.min 100 (Z.max 0 risk_score).

(** The additive part of [_assess_fundamental_strength]: its local variable
    [strength_score] just before the label is chosen. *)
Definition strength_score (stock : StockData)
  (metrics : gmap string float) : Z :=
  let roe := metrics !!! "roe" in
  let debt_to_equity := metrics !!! "debt_to_equity" in
  let current_ratio := metrics !!! "current_ratio" in
  let revenue_growth := revenue_growth stock in
  let strength_score := 0 in
  let strength_score :=
    if (15 <? roe)%float then strength_score + 25
    else if (10 <? roe)%float then strength_score + 15
    else if (5 <? roe)%float then strength_score + 5
    else strength_score in
  let strength_score :=
    if (debt_to_equity <? 0.5)%float then strength_score + 25
    else if (debt_to_equity <? 1)%float then strength_score + 15
    else if (debt_to_equity <? 2)%float then strength_score + 5
    else strength_score in
  let strength_score :=
    if (1.5 <? current_ratio)%float then strength_score + 25
    else if (1 <? current_ratio)%float then strength_score + 15
    else strength_score in
  let strength_score :=
    if (10 <? revenue_growth)%float then strength_score + 25
    else if (5 <? revenue_growth)%float then strength_score + 15
    else if (0 <? revenue_growth)%float then strength_score + 5
    else strength_score in
  strength_score.

Definition _assess_fundamental_strength (stock : StockData)
  (metrics : gmap string float) : string :=
  let strength_score := strength_score stock metrics in
  if 80 <=? strength_score then "VERY_STRONG"
  else if 60 <=? strength_score then "STRONG"
  else if 40 <=? strength_score then "MODERATE"
  else if 20 <=? strength_score then "WEAK"
  else "VERY_WEAK".

Definition _calculate_valuation_score (metrics : gmap string float) : Z :=
  let score := 50 in
  let pe_ratio := metrics !!! "pe_ratio" in
  let pb_ratio := metrics !!! "pb_ratio" in
  let ps_ratio := metrics !!! "price_to_sales" in
  (* P/E ratio scoring *)
  let score :=
    if (pe_ratio <? 10)%float then score + 20
    else if (pe_ratio <? 15)%float then score + 15
    else if (pe_ratio <? 20)%float then score + 10
    else if (pe_ratio <? 30)%float then score + 5
    else score - 20 in
  (* P/B ratio scoring *)
  let score :=
    if (pb_ratio <? 1)%float then score + 20
    else if (pb_ratio <? 1.5)%float then score + 10
    else if (pb_ratio <? 2.5)%float then score + 5
    else score - 10 in
  (* P/S ratio scoring *)
  let score :=
    if (ps_ratio <? 1)%float then score + 10
    else if (ps_ratio <? 2)%float then score + 5
    else score in
  Z.min 100 (Z.max 0 score).

Definition _calculate_quality_score (metrics : gmap string float) : Z :=
  let score := 50 in
  (* ROE scoring *)
  let score :=
    if (20 <? metrics !!! "roe")%float then score + 20
    else if (15 <? metrics !!! "roe")%float then score + 15
    else if (10 <? metrics !!! "roe")%float then score + 10
    else score in
  (* ROA scoring *)
  let score :=
    if (10 <? metrics !!! "roa")%float then score + 15
    else if (5 <? metrics !!! "roa")%float then score + 10
    else score in
  (* Net margin scoring *)
  let score :=
    if (20 <? metrics !!! "net_margin")%float then score + 15
    else if (10 <? metrics !!! "net_margin")%float then score + 10
    else score in
  (* Debt scoring *)
  let score :=
    if (metrics !!! "debt_to_equity" <? 0.5)%float then score + 20
    else if (metrics !!! "debt_to_equity" <? 1)%float then score + 10
    else if (2 <? metrics !!! "debt_to_equity")%float then score - 15
    else score in
  (* Current ratio scoring *)
  let score :=
    if (2 <? metrics !!! "current_ratio")%float then score + 10
    else if (metrics !!! "current_ratio" <? 1)%float then score - 20
    else score in
  Z.min 100 (Z.max 0 score).

Definition _calculate_growth_score (stock : StockData)
  (metrics : gmap string float) : Z :=
  let score := 50 in
  (* Revenue growth scoring *)
  let score :=
    if (30 <? revenue_growth stock)%float then score + 25
    else if (20 <? revenue_growth stock)%float then score + 20
    else if (10 <? revenue_growth stock)%float then score + 15
    else if (5 <? revenue_growth stock)%float then score + 10
    else if (revenue_growth stock <? 0)%float then score - 25
    else score in
  (* Earnings growth scoring *)
  let score :=
    if (30 <? earnings_growth stock)%float then score + 25
    else if (20 <? earnings_growth stock)%float then score + 20
    else if (10 <? earnings_growth stock)%float then score + 15
    else if (5 <? earnings_growth stock)%float then score + 10
    else if (earnings_growth stock <? 0)%float then score - 25
    else score in
  (* PEG ratio scoring *)
  let peg := metrics !!! "peg_ratio" in
  let score :=
    if (peg <? 1)%float && (0 <? earnings_growth stock)%float then score + 20
    else if (peg <? 2)%float && (0 <? earnings_growth stock)%float then score + 10
    else score in
  Z.min 100 (Z.max 0 score).

Definition _calculate_momentum_score (stock : StockData) : Z :=
  let score := 50 in
  let score :=
    if (15 <? revenue_growth stock)%float then score + 25 else score in
  let score :=
    if (15 <? earnings_growth stock)%float then score + 25 else score in
  Z.min 100 (Z.max 0 score).

Definition analyze (stock : StockData) : Analysis :=
  let metrics := calculate_all_metrics stock in
  {| a_symbol := symbol stock;
     metrics := metrics;
     signals := _generate_signals stock metrics;
     risk_score := _calculate_risk_score stock metrics;
     fundamental_strength := _assess_fundamental_strength stock metrics;
     valuation_score := _calculate_valuation_score metrics;
     quality_score := _calculate_quality_score metrics;
     growth_score := _calculate_growth_score stock metrics;
     momentum_score := _calculate_momentum_score stock |}.

(** ** ScreeningEngine: the six built-in scorers *)

Definition scorer : Type := StockData → Analysis → Z * list string.

Definition _screen_value : scorer := λ stock analysis,
  let score := 0 in
  let signals : list string := [] in
  let pe_ratio := metrics analysis !!! "pe_ratio" in
  let pb_ratio := metrics analysis !!! "pb_ratio" in
  let ps_ratio := metrics analysis !!! "price_to_sales" in
  let roe := metrics analysis !!! "roe" in
  (* Low P/E ratio *)
  let '(score, signals) :=
    if (pe_ratio <? 10)%float then (score + 30, signals ++ ["VERY_LOW_PE"])
    else if (pe_ratio <? 15)%float then (score + 20, signals ++ ["LOW_PE"])
    else if (pe_ratio <? 20)%float then (score + 10, signals)
    else (score, signals) in
  (* Low P/B ratio *)
  let '(score, signals) :=
    if (pb_ratio <? 1)%float then (score + 25, signals ++ ["LOW_PB"])
    else if (pb_ratio <? 1.5)%float then (score + 15, signals)
    else (score, signals) in
  (* Low P/S ratio *)
  let '(score, signals) :=
    if (ps_ratio <? 1)%float then (score + 15, signals ++ ["LOW_PS"])
    else if (ps_ratio <? 2)%float then (score + 10, signals)
    else (score, signals) in
  (* Decent ROE *)
  let '(score, signals) :=
    if (10 <? roe)%float then (score + 20, signals ++ ["DECENT_ROE"])
    else (score, signals) in
  (* Stable earnings *)
  let score :=
    if (0 <=? earnings_growth stock)%float then score + 10 else score in
  (Z.min 100 score, signals).

Definition _screen_growth : scorer := λ stock analysis,
  let score := 0 in
  let signals : list string := [] in
  let revenue_growth := revenue_growth stock in
  let earnings_growth := earnings_growth stock in
  let peg_ratio := metrics analysis !!! "peg_ratio" in
  let roe := metrics analysis !!! "roe" in
  (* High revenue growth *)
  let '(score, signals) :=
    if (30 <? revenue_growth)%float
    then (score + 30, signals ++ ["VERY_HIGH_REVENUE_GROWTH"])
    else if (20 <? revenue_growth)%float
    then (score + 25, signals ++ ["HIGH_REVENUE_GROWTH"])
    else if (10 <? revenue_growth)%float then (score + 15, signals)
    else (score, signals) in
  (* High earnings growth *)
  let '(score, signals) :=
    if (30 <? earnings_growth)%float
    then (score + 30, signals ++ ["VERY_HIGH_EARNINGS_GROWTH"])
    else if (20 <? earnings_growth)%float
    then (score + 25, signals ++ ["HIGH_EARNINGS_GROWTH"])
    else if (10 <? earnings_growth)%float then (score + 15, signals)
    else (score, signals) in
  (* Good PEG ratio *)
  let '(score, signals) :=
    if (peg_ratio <? 1)%float then (score + 20, signals ++ ["GOOD_PEG"])
    else if (peg_ratio <? 2)%float then (score + 10, signals)
    else (score, signals) in
  (* Decent ROE *)
  let score := if (15 <? roe)%float then score + 15 else score in
  (Z.min 100 score, signals).

Definition _screen_dividend : scorer := λ stock analysis,
  let score := 0 in
  let signals : list string := [] in
  let dividend_yield := dividend_yield stock in
  let dps := dividend_per_share stock in
  let roe := metrics analysis !!! "roe" in
  let debt_to_equity := metrics analysis !!! "debt_to_equity" in
  (* Dividend yield *)
  let '(score, signals) :=
    if (5 <=? dividend_yield)%float
    then (score + 30, signals ++ ["VERY_HIGH_YIELD"])
    else if (3 <=? dividend_yield)%float
    then (score + 25, signals ++ ["HIGH_YIELD"])
    else if (2 <=? dividend_yield)%float
    then (score + 15, signals ++ ["MODERATE_YIELD"])
    else if (0 <? dps)%float then (score + 5, signals ++ ["PAYS_DIVIDEND"])
    else (score, signals) in
  (* Sustainable dividends (decent ROE) *)
  let '(score, signals) :=
    if (10 <? roe)%float then (score + 20, signals ++ ["SUSTAINABLE_DIVIDEND"])
    else (score, signals) in
  (* Low debt *)
  let score :=
    if (debt_to_equity <? 1)%float then score + 15
    else if (debt_to_equity <? 2)%float then score + 10
    else score in
  (* Stable earnings *)
  let score :=
    if (-5 <=? earnings_growth stock)%float then score + 10 else score in
  (Z.min 100 score, signals).

Definition _screen_momentum : scorer := λ stock analysis,
  let score := 0 in
  let signals : list string := [] in
  let revenue_growth := revenue_growth stock in
  let earnings_growth := earnings_growth stock in
  let momentum_score := momentum_score analysis in
  (* High growth rates indicate momentum *)
  let '(score, signals) :=
    if (25 <? earnings_growth)%float
    then (score + 35, signals ++ ["STRONG_MOMENTUM"])
    else if (15 <? earnings_growth)%float
    then (score + 25, signals ++ ["MODERATE_MOMENTUM"])
    else if (5 <? earnings_growth)%float then (score + 15, signals)
    else (score, signals) in
  (* Revenue growth supports momentum *)
  let score := if (20 <? revenue_growth)%float then score + 20 else score in
  (* Use analyzer's momentum score *)
  let score := if 70 <? momentum_score then score + 15 else score in
  (Z.min 100 score, signals).

Definition _screen_quality : scorer := λ stock analysis,
  let score := 0 in
  let signals : list string := [] in
  let quality_score := quality_score analysis in
  let roe := metrics analysis !!! "roe" in
  let roa := metrics analysis !!! "roa" in
  let debt_to_equity := metrics analysis !!! "debt_to_equity" in
  let current_ratio := metrics analysis !!! "current_ratio" in
  let net_margin := metrics analysis !!! "net_margin" in
  (* High quality score *)
  let '(score, signals) :=
    if 80 <? quality_score then (score + 30, signals ++ ["HIGH_QUALITY"])
    else if 70 <? quality_score then (score + 20, signals ++ ["GOOD_QUALITY"])
    else (score, signals) in
  (* Strong profitability *)
  let '(score, signals) :=
    if (20 <? roe)%float then (score + 20, signals ++ ["EXCELLENT_ROE"])
    else if (15 <? roe)%float then (score + 15, signals)
    else (score, signals) in
  let score := if (10 <? roa)%float then score + 15 else score in
  (* Low debt *)
  let '(score, signals) :=
    if (debt_to_equity <? 0.5)%float
    then (score + 20, signals ++ ["VERY_LOW_DEBT"])
    else if (debt_to_equity <? 1)%float then (score + 10, signals)
    else (score, signals) in
  (* Strong liquidity *)
  let '(score, signals) :=
    if (2 <? current_ratio)%float
    then (score + 10, signals ++ ["STRONG_LIQUIDITY"])
    else (score, signals) in
  (* Good margins *)
  let score := if (15 <? net_margin)%float then score + 10 else score in
  (Z.min 100 score, signals).

Definition _screen_contrarian : scorer := λ stock analysis,
  let score := 0 in
  let signals : list string := [] in
  let pe_ratio := metrics analysis !!! "pe_ratio" in
  let pb_ratio := metrics analysis !!! "pb_ratio" in
  let valuation_score := valuation_score analysis in
  let revenue_growth := revenue_growth stock in
  let roe := metrics analysis !!! "roe" in
  (* Very low valuation (market pessimism) *)
  let '(score, signals) :=
    if (pe_ratio <? 8)%float
    then (score + 30, signals ++ ["EXTREMELY_UNDERVALUED"])
    else if (pe_ratio <? 12)%float
    then (score + 20, signals ++ ["SIGNIFICANTLY_UNDERVALUED"])
    else (score, signals) in
  let score := if (pb_ratio <? 0.8)%float then score + 20 else score in
  (* Low valuation score means market undervalues it *)
  let '(score, signals) :=
    if 70 <? valuation_score
    then (score + 25, signals ++ ["MARKET_UNDERVALUATION"])
    else (score, signals) in
  (* But with hidden quality *)
  let '(score, signals) :=
    if (10 <? roe)%float && (0 <=? revenue_growth)%float
    then (score + 20, signals ++ ["HIDDEN_VALUE"])
    else (score, signals) in
  (Z.min 100 score, signals).

(** ** ScreeningEngine.screen *)

(** [self.strategies.get(strategy)]: the dictionary built in [__init__] has
    exactly the six enumeration members as keys. *)
Definition strategies_get (strategy : strategy_arg) : option scorer :=
  match strategy with
  | Member VALUE_INVESTING => Some _screen_value
  | Member GROWTH_INVESTING => Some _screen_growth
  | Member DIVIDEND_INVESTING => Some _screen_dividend
  | Member MOMENTUM_INVESTING => Some _screen_momentum
  | Member QUALITY_INVESTING => Some _screen_quality
  | Member CONTRARIAN => Some _screen_contrarian
  | Other _ => None
  end.

Definition strategy_str (strategy : strategy_arg) : string :=
  match strategy with
  | Member VALUE_INVESTING => "ScreeningStrategy.VALUE_INVESTING"
  | Member GROWTH_INVESTING => "ScreeningStrategy.GROWTH_INVESTING"
  | Member DIVIDEND_INVESTING => "ScreeningStrategy.DIVIDEND_INVESTING"
  | Member MOMENTUM_INVESTING => "ScreeningStrategy.MOMENTUM_INVESTING"
  | Member QUALITY_INVESTING => "ScreeningStrategy.QUALITY_INVESTING"
  | Member CONTRARIAN => "ScreeningStrategy.CONTRARIAN"
  | Other rendering => rendering
  end.

(** [sorted(results, key=..., reverse=True)] for the order [R] "the key of
    the first is at least the key of the second": larger keys first, and
    results with equal keys in the order they had in [results], for Python's
    sort is stable, with [reverse=True] too.  Each result, from the last to
    the first, is put in front of the first result whose key is not
    larger. *)
Fixpoint insert_by {A} (R : A → A → Prop) `{∀ a b, Decision (R a b)}
    (x : A) (l : list A) : list A :=
  match l with
  | [] => [x]
  | y :: rest =>
      if decide (R x y) then x :: y :: rest else y :: insert_by R x rest
  end.

Definition sorted_reverse {A} (R : A → A → Prop) `{∀ a b, Decision (R a b)}
    (l : list A) : list A :=
  foldr (insert_by R) [] l.

(** The order [key=lambda x: x.score, reverse=True] puts results in. *)
Definition score_ge (a b : ScreeningResult Z) : Prop := score b ≤ score a.

#[global] Instance score_ge_dec a b : Decision (score_ge a b).
Proof. unfold score_ge. apply _. Defined.

Section screening.
(** [datetime.utcnow()] while the stock at position [i] of the input is
    being processed. *)
Variable utcnow : nat → Z.

(** The [for stock in stocks] loop of [screen]; [i] is the position of the
    head of [stocks] in the original input.  The Python [int] score is
    compared with the [float] threshold by value. *)
Fixpoint screen_loop (screening_func : scorer) (strategy : strategy_arg)
    (threshold : float) (i : nat) (stocks : list StockData)
  : list (ScreeningResult Z) :=
  match stocks with
  | [] => []
  | stock :: rest =>
      let analysis := analyze stock in
      let '(score, signals) := screening_func stock analysis in
      let results :=
        screen_loop screening_func strategy threshold (S i) rest in
      if (threshold <=? float_of_Z score)%float then
        {| res_symbol := symbol stock;
           score := score;
           strategy := strategy;
           res_metrics := metrics analysis;
           res_signals := signals;
           timestamp := utcnow i |} :: results
      else results
  end.

Definition screen (stocks : list StockData) (strategy : strategy_arg)
    (threshold : float) : result (list (ScreeningResult Z)) :=
  match strategies_get strategy with
  | None => Raise (ValueError ("Unknown strategy: " +:+ strategy_str strategy))
  | Some screening_func =>
      Ok (sorted_reverse score_ge
            (screen_loop screening_func strategy threshold 0 stocks))
  end.
End screening.

(** ** StrategyBuilder *)

(** What calling a rule does: it returns a value, of which only the
    truthiness is used, or it raises an [Exception] with a message. *)
Inductive rule_outcome : Type :=
  | Returns (truthy : bool)
  | Throws (message : string).

Definition rule : Type := StockData → Analysis → rule_outcome.

Record CustomStrategy : Type := {
  name : string;
  rules : list rule;
  created_at : Z
}.

Record StrategyBuilder : Type := {
  custom_strategies : gmap string CustomStrategy
}.

Definition create_strategy (self : StrategyBuilder) (name : string)
    (rules : list rule) (now : Z) : string * StrategyBuilder :=
  let strategy_id :=
    "custom_" +:+ name +:+ "_" +:+ pretty (size (custom_strategies self)) in
  (strategy_id,
   {| custom_strategies :=
        <[strategy_id := {| name := name; rules := rules; created_at := now |}]>
          (custom_strategies self) |}).

Definition score_ge_float (a b : ScreeningResult float) : Prop :=
  (score b <=? score a)%float = true.

#[global] Instance score_ge_float_dec a b : Decision (score_ge_float a b).
Proof. unfold score_ge_float. apply _. Defined.

(** [match_count / len(rules)] on two Python [int]s. *)
Definition py_truediv (a b : Z) : result float :=
  if b =? 0 then Raise ZeroDivisionError
  else Ok (float_of_Z a / float_of_Z b)%float.

(** The [for i, rule in enumerate(strategy['rules'])] loop with its
    [try]/[except]; [out] is what has been printed so far. *)
Fixpoint eval_rules (rules : list rule) (i : nat) (stock : StockData)
    (analysis : Analysis) (match_count : Z) (matching_signals : list string)
    (out : list string) : Z * list string * list string :=
  match rules with
  | [] => (match_count, matching_signals, out)
  | rule :: rest =>
      match rule stock analysis with
      | Returns true =>
          eval_rules rest (S i) stock analysis (match_count + 1)
            (matching_signals ++ ["RULE_" +:+ pretty i]) out
      | Returns false =>
          eval_rules rest (S i) stock analysis match_count matching_signals out
      | Throws e =>
          eval_rules rest (S i) stock analysis match_count matching_signals
            (out ++ ["Error evaluating rule " +:+ pretty i +:+ ": " +:+ e])
      end
  end.

Section custom_screening.
Variable utcnow : nat → Z.

(** The [for stock in stocks] loop of [screen_with_custom_strategy]. *)
Fixpoint custom_loop (rules : list rule) (threshold : float) (i : nat)
    (stocks : list StockData) (out : list string)
  : list string * result (list (ScreeningResult float)) :=
  match stocks with
  | [] => (out, Ok [])
  | stock :: rest =>
      let analysis := analyze stock in
      let '(match_count, matching_signals, out) :=
        eval_rules rules 0 stock analysis 0 [] out in
      match py_truediv match_count (Z.of_nat (length rules)) with
      | Raise e => (out, Raise e)
      | Ok quotient =>
          let score := (quotient * 100)%float in
          let '(out, results) := custom_loop rules threshold (S i) rest out in
          (out,
           results ←! results;
           Ok (if (threshold <=? score)%float then
                 {| res_symbol := symbol stock;
                    score := score;
                    strategy := Member VALUE_INVESTING;
                    res_metrics := metrics analysis;
                    res_signals := matching_signals;
                    timestamp := utcnow i |} :: results
               else results))
      end
  end.

Definition screen_with_custom_strategy (self : StrategyBuilder)
    (stocks : list StockData) (strategy_id : string) (threshold : float)
    (out : list string)
  : list string * result (list (ScreeningResult float)) :=
  match custom_strategies self !! strategy_id with
  | None => (out, Raise (ValueError ("Unknown strategy ID: " +:+ strategy_id)))
  | Some strategy =>
      let '(out, results) :=
        custom_loop (rules strategy) threshold 0 stocks out in
      (out, results ←! results; Ok (sorted_reverse score_ge_float results))
  end.
End custom_screening.

(** ** The criteria filter, [StockScreener._apply_criteria] *)

(** The values an attribute of a [StockData] object can hold: a number, a
    string, [None], or some other object (a bound method, a dictionary, a
    tuple, ...). *)
Inductive pyval : Type :=
  | VFloat (f : float)
  | VInt (z : Z)
  | VStr (s : string)
  | VNone
  | VObject.

Definition optional (o : option float) : pyval :=
  match o with
  | Some f => VFloat f
  | None => VNone
  end.

(** The dataclass fields of a [StockData] object by name. *)
Definition stock_fields (stock : StockData) : gmap string pyval :=
  list_to_map
    [ ("symbol", VStr (symbol stock));
      ("price", VFloat (price stock));
      ("eps", VFloat (eps stock));
      ("revenue", VFloat (revenue stock));
      ("net_income", VFloat (net_income stock));
      ("total_assets", VFloat (total_assets stock));
      ("total_liabilities", VFloat (total_liabilities stock));
      ("cash", VFloat (cash stock));
      ("debt", VFloat (debt stock));
      ("shares_outstanding", VInt (shares_outstanding stock));
      ("market_cap", VFloat (market_cap stock));
      ("dividend_per_share", VFloat (dividend_per_share stock));
      ("book_value_per_share", VFloat (book_value_per_share stock));
      ("revenue_growth", VFloat (revenue_growth stock));
      ("earnings_growth", VFloat (earnings_growth stock));
      ("dividend_yield", VFloat (dividend_yield stock));
      ("pe_ratio", optional (pe_ratio stock));
      ("pb_ratio", optional (pb_ratio stock));
      ("peg_ratio", optional (peg_ratio stock));
      ("roe", optional (roe stock));
      ("roa", optional (roa stock));
      ("debt_to_equity", optional (debt_to_equity stock));
      ("current_ratio", optional (current_ratio stock));
      ("quick_ratio", optional (quick_ratio stock));
      ("debt_to_assets", optional (debt_to_assets stock));
      ("interest_coverage", optional (interest_coverage stock)) ].

(** The bounds of one criterion: ['min' in bounds] and ['max' in bounds]. *)
Record Bounds : Type := {
  bmin : option float;
  bmax : option float
}.

(** [criteria.items()], in the dictionary's insertion order. *)
Definition Criteria : Type := list (string * Bounds).

Definition metric_map : gmap string string :=
  list_to_map
    [ ("pe_ratio", "pe_ratio");
      ("pb_ratio", "pb_ratio");
      ("roe", "roe");
      ("roa", "roa");
      ("debt_to_equity", "debt_to_equity");
      ("current_ratio", "current_ratio");
      ("dividend_yield", "dividend_yield");
      ("revenue_growth", "revenue_growth");
      ("earnings_growth", "earnings_growth");
      ("payout_ratio", "payout_ratio");
      ("interest_coverage", "interest_coverage");
      ("debt_to_assets", "debt_to_assets");
      ("free_cash_flow", "free_cash_flow");
      ("years_of_dividends", "years_of_dividends") ].

(** [z < f] and [f < z] for a Python [int] and a [float].  Python compares
    the two by their exact values, without converting the [int]: a finite
    float is [n * 2^e] for integers [n] and [e], every [int] is below
    [+inf] and above [-inf], and nothing is below or above a NaN. *)
Definition int_lt_float (z : Z) (f : float) : bool :=
  match Prim2SF f with
  | S754_zero _ => z <? 0
  | S754_infinity negative => negb negative
  | S754_nan => false
  | S754_finite negative m e =>
      let n := if negative then Z.neg m else Z.pos m in
      if 0 <=? e then z <? n * 2 ^ e else z * 2 ^ (- e) <? n
  end.

Definition float_lt_int (f : float) (z : Z) : bool :=
  match Prim2SF f with
  | S754_zero _ => 0 <? z
  | S754_infinity negative => negative
  | S754_nan => false
  | S754_finite negative m e =>
      let n := if negative then Z.neg m else Z.pos m in
      if 0 <=? e then n * 2 ^ e <? z else n <? z * 2 ^ (- e)
  end.

(** [value < bound] and [value > bound] against a numeric bound: numbers
    compare by value, anything else raises [TypeError]. *)
Definition py_lt (value : pyval) (bound : float) : result bool :=
  match value with
  | VFloat f => Ok (f <? bound)%float
  | VInt z => Ok (int_lt_float z bound)
  | VStr _ | VNone | VObject => Raise TypeError
  end.

Definition py_gt (value : pyval) (bound : float) : result bool :=
  match value with
  | VFloat f => Ok (bound <? f)%float
  | VInt z => Ok (float_lt_int bound z)
  | VStr _ | VNone | VObject => Raise TypeError
  end.

Section criteria_filter.
(** [hasattr(stock, name)] for a name that is not a dataclass field: the
    methods and class attributes every [StockData] object has ([__class__],
    [__eq__], [__doc__], ...).  None of them holds a number. *)
Variable has_other_attribute : string → bool.

(** [hasattr(stock, name)] and [getattr(stock, name)]. *)
Definition getattr_stock (stock : StockData) (name : string) : option pyval :=
  match stock_fields stock !! name with
  | Some value => Some value
  | None => if has_other_attribute name then Some VObject else None
  end.

(** The value a criterion is checked against: the metrics dictionary first,
    then the attributes of the stock, else nothing ([continue]). *)
Definition resolve (stock : StockData) (metrics : gmap string float)
    (metric : string) : option pyval :=
  let actual_metric := default metric (metric_map !! metric) in
  match metrics !! actual_metric with
  | Some value => Some (VFloat value)
  | None => getattr_stock stock actual_metric
  end.

(** The inner [for metric, bounds in criteria.items()] loop; the result is
    the final value of [passes]. *)
Fixpoint check_criteria (stock : StockData) (metrics : gmap string float)
    (criteria : Criteria) : result bool :=
  match criteria with
  | [] => Ok true
  | (metric, bounds) :: rest =>
      match resolve stock metrics metric with
      | None => check_criteria stock metrics rest
      | Some value =>
          below ←! match bmin bounds with
                   | Some lo => py_lt value lo
                   | None => Ok false
                   end;
          if below then Ok false
          else
            above ←! match bmax bounds with
                     | Some hi => py_gt value hi
                     | None => Ok false
                     end;
            if above then Ok false
            else check_criteria stock metrics rest
      end
  end.

Fixpoint _apply_criteria (stocks : list StockData) (criteria : Criteria)
  : result (list StockData) :=
  match stocks with
  | [] => Ok []
  | stock :: rest =>
      let analysis := analyze stock in
      let metrics := metrics analysis in
      passes ←! check_criteria stock metrics criteria;
      filtered ←! _apply_criteria rest criteria;
      Ok (if passes : bool then stock :: filtered else filtered)
  end.
End criteria_filter.

(** ** MetricsCalculator with Python's raising division *)

(** [a / b] on two Python [float]s: a zero divisor raises
    [ZeroDivisionError] instead of giving an infinity or a NaN. *)
Definition py_fdiv (a b : float) : result float :=
  if (b =? 0)%float then Raise ZeroDivisionError else Ok (a / b)%float.

(** The calculator once more, every division written with [py_fdiv]. *)
Module Raising.
Definition _calculate_pe_ratio (stock : StockData) : result float :=
  if (eps stock <=? 0)%float then Ok infinity
  else py_fdiv (price stock) (eps stock).

Definition _calculate_pb_ratio (stock : StockData) : result float :=
  if (book_value_per_share stock <=? 0)%float then Ok infinity
  else py_fdiv (price stock) (book_value_per_share stock).

Definition _calculate_peg_ratio (stock : StockData) : result float :=
  pe_ratio ←! (if (0 <? eps stock)%float
               then py_fdiv (price stock) (eps stock)
               else Ok infinity);
  if (earnings_growth stock <=? 0)%float then Ok infinity
  else py_fdiv pe_ratio (earnings_growth stock).

Definition _calculate_price_to_sales (stock : StockData) : result float :=
  if (revenue stock <=? 0)%float then Ok infinity
  else py_fdiv (market_cap stock) (revenue stock).

Definition _calculate_roe (stock : StockData) : result float :=
  let equity := (total_assets stock - total_liabilities stock)%float in
  if (equity <=? 0)%float then Ok 0%float
  else quotient ←! py_fdiv (net_income stock) equity;
       Ok (quotient * 100)%float.

Definition _calculate_roa (stock : StockData) : result float :=
  if (total_assets stock <=? 0)%float then Ok 0%float
  else quotient ←! py_fdiv (net_income stock) (total_assets stock);
       Ok (quotient * 100)%float.

Definition _calculate_net_margin (stock : StockData) : result float :=
  if (revenue stock <=? 0)%float then Ok 0%float
  else quotient ←! py_fdiv (net_income stock) (revenue stock);
       Ok (quotient * 100)%float.

Definition _calculate_gross_margin (stock : StockData) : result float :=
  if (revenue stock <=? 0)%float then Ok 0%float
  else quotient ←! py_fdiv (net_income stock) (revenue stock);
       Ok (quotient * 100)%float.

Definition _calculate_operating_margin (stock : StockData) : result float :=
  if (revenue stock <=? 0)%float then Ok 0%float
  else quotient ←! py_fdiv (net_income stock) (revenue stock);
       Ok (quotient * 100)%float.

Definition _calculate_roic (stock : StockData) : result float :=
  let invested_capital :=
    (total_assets stock
     - (total_assets stock - total_liabilities stock - cash stock))%float in
  if (invested_capital <=? 0)%float then Ok 0%float
  else quotient ←! py_fdiv (net_income stock) invested_capital;
       Ok (quotient * 100)%float.

Definition _calculate_asset_turnover (stock : StockData) : result float :=
  if (total_assets stock <=? 0)%float then Ok 0%float
  else py_fdiv (revenue stock) (total_assets stock).

Definition _calculate_equity_multiplier (stock : StockData) : result float :=
  let equity := (total_assets stock - total_liabilities stock)%float in
  if (equity <=? 0)%float then Ok 0%float
  else py_fdiv (total_assets stock) equity.

Definition _calculate_current_ratio (stock : StockData) : result float :=
  if (total_liabilities stock <=? 0)%float then Ok infinity
  else py_fdiv (cash stock) (total_liabilities stock).

Definition _calculate_quick_ratio (stock : StockData) : result float :=
  if (total_liabilities stock <=? 0)%float then Ok infinity
  else py_fdiv (cash stock) (total_liabilities stock).

Definition _calculate_cash_ratio (stock : StockData) : result float :=
  if (total_liabilities stock <=? 0)%float then Ok infinity
  else py_fdiv (cash stock) (total_liabilities stock).

Definition _calculate_debt_to_equity (stock : StockData) : result float :=
  let equity := (total_assets stock - total_liabilities stock)%float in
  if (equity <=? 0)%float then Ok infinity
  else py_fdiv (debt stock) equity.

Definition _calculate_debt_to_assets (stock : StockData) : result float :=
  if (total_assets stock <=? 0)%float then Ok 0%float
  else py_fdiv (debt stock) (total_assets stock).

Definition _calculate_equity_ratio (stock : StockData) : result float :=
  if (total_assets stock <=? 0)%float then Ok 0%float
  else
    let equity := (total_assets stock - total_liabilities stock)%float in
    quotient ←! py_fdiv equity (total_assets stock);
    Ok (quotient * 100)%float.

Definition _calculate_interest_coverage (stock : StockData) : result float :=
  if (debt stock <=? 0)%float then Ok infinity
  else
    let interest_expense := (debt stock * 0.05)%float in
    if (interest_expense <=? 0)%float then Ok infinity
    else py_fdiv (net_income stock) interest_expense.

Definition calculate_all_metrics (stock : StockData)
  : result (gmap string float) :=
  let metrics : gmap string float := ∅ in
  v ←! _calculate_pe_ratio stock;
  let metrics := <["pe_ratio" := v]> metrics in
  v ←! _calculate_pb_ratio stock;
  let metrics := <["pb_ratio" := v]> metrics in
  v ←! _calculate_peg_ratio stock;
  let metrics := <["peg_ratio" := v]> metrics in
  v ←! _calculate_price_to_sales stock;
  let metrics := <["price_to_sales" := v]> metrics in
  v ←! _calculate_roe stock;
  let metrics := <["roe" := v]> metrics in
  v ←! _calculate_roa stock;
  let metrics := <["roa" := v]> metrics in
  v ←! _calculate_net_margin stock;
  let metrics := <["net_margin" := v]> metrics in
  v ←! _calculate_gross_margin stock;
  let metrics := <["gross_margin" := v]> metrics in
  v ←! _calculate_operating_margin stock;
  let metrics := <["operating_margin" := v]> metrics in
  v ←! _calculate_roic stock;
  let metrics := <["roic" := v]> metrics in
  v ←! _calculate_asset_turnover stock;
  let metrics := <["asset_turnover" := v]> metrics in
  v ←! _calculate_equity_multiplier stock;
  let metrics := <["equity_multiplier" := v]> metrics in
  v ←! _calculate_current_ratio stock;
  let metrics := <["current_ratio" := v]> metrics in
  v ←! _calculate_quick_ratio stock;
  let metrics := <["quick_ratio" := v]> metrics in
  v ←! _calculate_cash_ratio stock;
  let metrics := <["cash_ratio" := v]> metrics in
  v ←! _calculate_debt_to_equity stock;
  let metrics := <["debt_to_equity" := v]> metrics in
  v ←! _calculate_debt_to_assets stock;
  let metrics := <["debt_to_assets" := v]> metrics in
  v ←! _calculate_equity_ratio stock;
  let metrics := <["equity_ratio" := v]> metrics in
  v ←! _calculate_interest_coverage stock;
  let metrics := <["interest_coverage" := v]> metrics in
  let metrics := <["revenue_growth" := revenue_growth stock]> metrics in
  let metrics := <["earnings_growth" := earnings_growth stock]> metrics in
  let metrics := <["dividend_yield" := dividend_yield stock]> metrics in
  let metrics := <["eps" := eps stock]> metrics in
  let metrics := <["book_value_per_share" := book_value_per_share stock]> metrics in
  let metrics := <["dividend_per_share" := dividend_per_share stock]> metrics in
  Ok metrics.
End Raising.

(** ** [batch_screen] *)

(** [strategy.value] of an enumeration member. *)
Definition value (kind : ScreeningStrategy) : string :=
  match kind with
  | VALUE_INVESTING => "value_investing"
  | GROWTH_INVESTING => "growth_investing"
  | DIVIDEND_INVESTING => "dividend_investing"
  | MOMENTUM_INVESTING => "momentum_investing"
  | QUALITY_INVESTING => "quality_investing"
  | CONTRARIAN => "contrarian"
  end.

Section batch_screening.
(** [datetime.utcnow()] while the strategy at position [j] screens the stock
    at position [i]. *)
Variable utcnow : nat → nat → Z.

(** The [for strategy in strategies] loop; [j] is the position of the head
    of [strategies] and [results] the dictionary filled so far.  The right
    side of [results[strategy.value] = engine.screen(...)] is evaluated
    first, so an argument that is no member has made [screen] raise before
    its [value] is asked for. *)
Fixpoint batch_loop (stocks : list StockData) (threshold : float) (j : nat)
    (strategies : list strategy_arg)
    (results : gmap string (list (ScreeningResult Z)))
  : result (gmap string (list (ScreeningResult Z))) :=
  match strategies with
  | [] => Ok results
  | strategy :: rest =>
      screened ←! screen (utcnow j) stocks strategy threshold;
      match strategy with
      | Member kind =>
          batch_loop stocks threshold (S j) rest
            (<[value kind := screened]> results)
      | Other _ => Raise TypeError (* not reached *)
      end
  end.

Definition batch_screen (stocks : list StockData)
    (strategies : list strategy_arg) (threshold : float)
  : result (gmap string (list (ScreeningResult Z))) :=
  batch_loop stocks threshold 0 strategies ∅.
End batch_screening.

(** ** StrategyBuilder: looking a strategy up, and the four ready-made
    strategies *)

Definition get_strategy_info (self : StrategyBuilder) (strategy_id : string)
  : result CustomStrategy :=
  match custom_strategies self !! strategy_id with
  | None => Raise (ValueError ("Unknown strategy ID: " +:+ strategy_id))
  | Some strategy => Ok strategy
  end.

(** The rule closures of the four [create_*_strategy] methods.  They read
    keys that [calculate_all_metrics] always sets, so none of them raises. *)
Definition pe_rule (pe_min pe_max : float) : rule := λ stock analysis,
  let pe := metrics analysis !!! "pe_ratio" in
  Returns ((pe_min <=? pe)%float && (pe <=? pe_max)%float).

Definition roe_rule (min_roe : float) : rule := λ stock analysis,
  Returns (min_roe <=? metrics analysis !!! "roe")%float.

Definition debt_rule (max_debt_to_equity : float) : rule := λ stock analysis,
  Returns (metrics analysis !!! "debt_to_equity" <=? max_debt_to_equity)%float.

Definition liquidity_rule : rule := λ stock analysis,
  Returns (1.5 <=? metrics analysis !!! "current_ratio")%float.

Definition revenue_rule (min_revenue_growth : float) : rule :=
  λ stock analysis, Returns (min_revenue_growth <=? revenue_growth stock)%float.

Definition earnings_rule (min_earnings_growth : float) : rule :=
  λ stock analysis,
    Returns (min_earnings_growth <=? earnings_growth stock)%float.

Definition peg_rule : rule := λ stock analysis,
  let peg := metrics analysis !!! "peg_ratio" in
  Returns ((peg <? 2)%float && negb (peg =? infinity)%float).

Definition yield_rule (min_yield : float) : rule := λ stock analysis,
  Returns (min_yield <=? dividend_yield stock)%float.

Definition sustainability_rule : rule := λ stock analysis,
  Returns ((10 <=? metrics analysis !!! "roe")%float
           && (metrics analysis !!! "debt_to_equity" <? 1)%float).

Section ready_made_strategies.
(** How an f-string renders the number it is given ([10] as ["10"], [10.0]
    as ["10.0"], ...). *)
Variable str : float → string.

Definition create_pe_based_strategy (self : StrategyBuilder)
    (pe_min pe_max : float) (now : Z) : string * StrategyBuilder :=
  create_strategy self ("pe_" +:+ str pe_min +:+ "_" +:+ str pe_max)
    [pe_rule pe_min pe_max] now.
End ready_made_strategies.

Definition create_quality_screen_strategy (self : StrategyBuilder)
    (min_roe max_debt_to_equity : float) (now : Z)
  : string * StrategyBuilder :=
  create_strategy self "quality_screen"
    [roe_rule min_roe; debt_rule max_debt_to_equity; liquidity_rule] now.

Definition create_growth_screen_strategy (self : StrategyBuilder)
    (min_revenue_growth min_earnings_growth : float) (now : Z)
  : string * StrategyBuilder :=
  create_strategy self "growth_screen"
    [revenue_rule min_revenue_growth; earnings_rule min_earnings_growth;
     peg_rule] now.

Definition create_dividend_screen_strategy (self : StrategyBuilder)
    (min_yield : float) (now : Z) : string * StrategyBuilder :=
  create_strategy self "dividend_screen"
    [yield_rule min_yield; sustainability_rule] now.

(** ** Strategy classes, [strategies.py] *)

(** [d[key] = value] and [d.update(other)] on a dictionary held in insertion
    order: a key already present keeps its place and takes the new value, a
    new key goes last. *)
Fixpoint dict_setitem {V} (d : list (string * V)) (key : string) (v : V)
  : list (string * V) :=
  match d with
  | [] => [(key, v)]
  | (k, old) :: rest =>
      if decide (k = key) then (k, v) :: rest
      else (k, old) :: dict_setitem rest key v
  end.

Definition dict_update {V} (d other : list (string * V))
  : list (string * V) :=
  foldl (λ d item, dict_setitem d item.1 item.2) d other.

(** A strategy object; the fields [name], [criteria] and [description] carry
    the prefix [bs_].  An argument [criteria: Dict = None] is an optional
    dictionary, false when it is [None] or empty. *)
Record BaseStrategy : Type := {
  bs_name : string;
  bs_criteria : Criteria;
  bs_description : string
}.

Definition BaseStrategy_init (name : string) (criteria : option Criteria)
    (description : string) : BaseStrategy :=
  {| bs_name := name;
     bs_criteria := match criteria with
                    | Some ((_ :: _) as criteria) => criteria
                    | Some [] | None => []
                    end;
     bs_description := description |}.

(** [if criteria: default_criteria.update(criteria)] *)
Definition update_defaults (default_criteria : Criteria)
    (criteria : option Criteria) : Criteria :=
  match criteria with
  | Some ((_ :: _) as criteria) => dict_update default_criteria criteria
  | Some [] | None => default_criteria
  end.

Definition ValueStrategy (criteria : option Criteria) : BaseStrategy :=
  let default_criteria :=
    [ ("pe_ratio", {| bmin := None; bmax := Some 15%float |});
      ("pb_ratio", {| bmin := None; bmax := Some 1.5%float |});
      ("roe", {| bmin := Some 0.10%float; bmax := None |});
      ("debt_to_equity", {| bmin := None; bmax := Some 1.0%float |});
      ("current_ratio", {| bmin := Some 1.5%float; bmax := None |}) ] in
  let default_criteria := update_defaults default_criteria criteria in
  BaseStrategy_init "Value Investing" (Some default_criteria)
    "Find undervalued stocks with strong fundamentals".

Definition GrowthStrategy (criteria : option Criteria) : BaseStrategy :=
  let default_criteria :=
    [ ("revenue_growth", {| bmin := Some 0.15%float; bmax := None |});
      ("earnings_growth", {| bmin := Some 0.15%float; bmax := None |});
      ("pe_ratio", {| bmin := Some 15%float; bmax := Some 50%float |});
      ("roe", {| bmin := Some 0.15%float; bmax := None |}) ] in
  let default_criteria := update_defaults default_criteria criteria in
  BaseStrategy_init "Growth Investing" (Some default_criteria)
    "Find companies with high growth potential".

Definition DividendStrategy (criteria : option Criteria) : BaseStrategy :=
  let default_criteria :=
    [ ("dividend_yield", {| bmin := Some 0.03%float; bmax := None |});
      ("payout_ratio", {| bmin := None; bmax := Some 0.70%float |});
      ("debt_to_equity", {| bmin := None; bmax := Some 1.0%float |});
      ("current_ratio", {| bmin := Some 1.0%float; bmax := None |}) ] in
  let default_criteria := update_defaults default_criteria criteria in
  BaseStrategy_init "Dividend Investing" (Some default_criteria)
    "Find stocks with attractive and sustainable dividends".

Definition QualityStrategy (criteria : option Criteria) : BaseStrategy :=
  let default_criteria :=
    [ ("roe", {| bmin := Some 0.15%float; bmax := None |});
      ("roa", {| bmin := Some 0.10%float; bmax := None |});
      ("debt_to_equity", {| bmin := None; bmax := Some 1.0%float |});
      ("current_ratio", {| bmin := Some 2.0%float; bmax := None |});
      ("interest_coverage", {| bmin := Some 5.0%float; bmax := None |}) ] in
  let default_criteria := update_defaults default_criteria criteria in
  BaseStrategy_init "Quality Investing" (Some default_criteria)
    "Find high-quality companies with strong fundamentals".

Definition MomentumStrategy (criteria : option Criteria) : BaseStrategy :=
  let default_criteria :=
    [ ("earnings_growth", {| bmin := Some 0.20%float; bmax := None |});
      ("revenue_growth", {| bmin := Some 0.15%float; bmax := None |}) ] in
  let default_criteria := update_defaults default_criteria criteria in
  BaseStrategy_init "Momentum Investing" (Some default_criteria)
    "Find stocks with strong price and earnings momentum".

Definition GARPStrategy (criteria : option Criteria) : BaseStrategy :=
  let default_criteria :=
    [ ("pe_ratio", {| bmin := Some 10%float; bmax := Some 25%float |});
      ("earnings_growth", {| bmin := Some 0.10%float; bmax := None |});
      ("revenue_growth", {| bmin := Some 0.10%float; bmax := None |});
      ("roe", {| bmin := Some 0.12%float; bmax := None |});
      ("debt_to_equity", {| bmin := None; bmax := Some 1.5%float |}) ] in
  let default_criteria := update_defaults default_criteria criteria in
  BaseStrategy_init "GARP" (Some default_criteria)
    "Find growth stocks at reasonable prices".

Definition create_custom_strategy (name : string) (criteria : Criteria)
    (description : string) : BaseStrategy :=
  BaseStrategy_init name (Some criteria) description.

Definition SCREENING_PROFILES : list (string * Criteria) :=
  [ ("conservative",
     [ ("pe_ratio", {| bmin := None; bmax := Some 15%float |});
       ("debt_to_equity", {| bmin := None; bmax := Some 0.5%float |});
       ("current_ratio", {| bmin := Some 2.0%float; bmax := None |});
       ("roe", {| bmin := Some 0.12%float; bmax := None |});
       ("dividend_yield", {| bmin := Some 0.02%float; bmax := None |}) ]);
    ("aggressive",
     [ ("revenue_growth", {| bmin := Some 0.25%float; bmax := None |});
       ("earnings_growth", {| bmin := Some 0.25%float; bmax := None |});
       ("roe", {| bmin := Some 0.15%float; bmax := None |}) ]);
    ("income",
     [ ("dividend_yield", {| bmin := Some 0.04%float; bmax := None |});
       ("payout_ratio", {| bmin := None; bmax := Some 0.60%float |});
       ("debt_to_equity", {| bmin := None; bmax := Some 1.0%float |}) ]);
    ("balanced",
     [ ("pe_ratio", {| bmin := Some 10%float; bmax := Some 25%float |});
       ("debt_to_equity", {| bmin := None; bmax := Some 1.0%float |});
       ("current_ratio", {| bmin := Some 1.5%float; bmax := None |});
       ("roe", {| bmin := Some 0.10%float; bmax := None |}) ]) ].

(** ** [StockScreener.screen_stocks] *)

(** [metrics.get(key, 0)] and [metrics.get(key, 0) / 100]. *)
Definition get_or_zero (metrics : gmap string float) (key : string) : pyval :=
  match metrics !! key with
  | Some x => VFloat x
  | None => VInt 0
  end.

Definition get_percent (metrics : gmap string float) (key : string) : pyval :=
  match metrics !! key with
  | Some x => VFloat (x / 100)
  | None => VFloat (0 / 100)
  end.

(** The dictionary built for one stock that passed, one row of the frame. *)
Definition screen_row (stock : StockData) : list (string * pyval) :=
  let analysis := analyze stock in
  [ ("symbol", VStr (symbol stock));
    ("current_price", VFloat (price stock));
    ("pe_ratio", get_or_zero (metrics analysis) "pe_ratio");
    ("pb_ratio", get_or_zero (metrics analysis) "pb_ratio");
    ("roe", get_percent (metrics analysis) "roe");
    ("roa", get_percent (metrics analysis) "roa");
    ("dividend_yield", VFloat (dividend_yield stock / 100));
    ("debt_to_equity", get_or_zero (metrics analysis) "debt_to_equity");
    ("current_ratio", get_or_zero (metrics analysis) "current_ratio");
    ("revenue_growth", VFloat (revenue_growth stock / 100));
    ("earnings_growth", VFloat (earnings_growth stock / 100));
    ("payout_ratio", VInt 0);
    ("fundamental_strength", VStr (fundamental_strength analysis));
    ("quality_score", VInt (quality_score analysis));
    ("valuation_score", VInt (valuation_score analysis)) ].

Section stock_screener.
Variable has_other_attribute : string → bool.

(** [screen_stocks] from the list [stocks] that the data provider returned
    for the symbols.  [strategy] is [None] or an object of one of the
    strategy classes; the frame returned is the list of its rows. *)
Definition screen_stocks (stocks : list StockData)
    (strategy : option BaseStrategy) (criteria : option Criteria)
  : result (list (list (string * pyval))) :=
  match stocks with
  | [] => Ok []
  | _ :: _ =>
      let criteria := match strategy with
                      | Some strategy => Some (bs_criteria strategy)
                      | None => criteria
                      end in
      filtered_stocks ←! match criteria with
                         | Some ((_ :: _) as criteria) =>
                             _apply_criteria has_other_attribute stocks
                               criteria
                         | Some [] | None => Ok stocks
                         end;
      Ok (screen_row <$> filtered_stocks)
  end.
End stock_screener.

(** ** [StockScreener.analyze_stock] and [get_rules_of_thumb_evaluation] *)

(** The entries of the dictionary [analyze_stock] returns that the rules of
    thumb read, under the prefix [sa_]; the other entries are read by no
    code modelled here. *)
Record StockAnalysis : Type := {
  sa_pe_ratio : float;
  sa_pb_ratio : float;
  sa_roe : float;
  sa_revenue_growth : float;
  sa_earnings_growth : float;
  sa_current_ratio : float;
  sa_debt_to_equity : float;
  sa_payout_ratio : float;
  sa_free_cash_flow : float
}.

(** [info.get(key, 0) or 0] for a key of the provider's [info] dictionary
    that holds a number, [None], or is missing: a zero, [None] and a missing
    key all give 0. *)
Definition get_or_0 (entry : option float) : float :=
  match entry with
  | Some x => if (x =? 0)%float then 0%float else x
  | None => 0%float
  end.

(** [stock_data] is what [get_stock_data] returned, [None] after a failed
    fetch; [payout_ratio] and [free_cash_flow] are the entries of [info]. *)
Definition analyze_stock (symbol : string) (stock_data : option StockData)
    (payout_ratio free_cash_flow : option float) : result StockAnalysis :=
  match stock_data with
  | None => Raise (ValueError ("Could not fetch data for " +:+ symbol))
  | Some stock_data =>
      let analysis := analyze stock_data in
      Ok {| sa_pe_ratio := metrics analysis !!! "pe_ratio";
            sa_pb_ratio := metrics analysis !!! "pb_ratio";
            sa_roe := (metrics analysis !!! "roe" / 100)%float;
            sa_revenue_growth := (revenue_growth stock_data / 100)%float;
            sa_earnings_growth := (earnings_growth stock_data / 100)%float;
            sa_current_ratio := metrics analysis !!! "current_ratio";
            sa_debt_to_equity := metrics analysis !!! "debt_to_equity";
            sa_payout_ratio := get_or_0 payout_ratio;
            sa_free_cash_flow := get_or_0 free_cash_flow |}
  end.

(** One evaluation, with its keys under the prefix [ev_]. *)
Record Evaluation : Type := {
  ev_metric : string;
  ev_value : string;
  ev_rule : string;
  ev_status : string;
  ev_score : Z;
  ev_tip : string
}.

(** The dictionary [get_rules_of_thumb_evaluation] returns. *)
Record RulesOfThumb : Type := {
  rt_symbol : string;
  evaluations : list Evaluation;
  overall_score : Z;
  max_score : Z;
  percentage : float;
  recommendation : string
}.

(** The truth value of a float: false for a zero. *)
Definition truthy (x : float) : bool := negb (x =? 0)%float.

Section rules_of_thumb.
(** The renderings [f"{x:.2f}"] and [f"{x:.1f}"]. *)
Variable format_2f : float → string.
Variable format_1f : float → string.

Definition pe_eval (pe : float) : Evaluation :=
  {| ev_metric := "P/E Ratio";
     ev_value := if negb (pe =? infinity)%float then format_2f pe else "N/A";
     ev_rule := "15-20 is reasonable";
     ev_status := if (15 <=? pe)%float && (pe <=? 20)%float then "GOOD"
                  else if (pe <? 15)%float then "UNDERVALUED"
                  else "OVERVALUED";
     ev_score := if (15 <=? pe)%float && (pe <=? 20)%float then 10
                 else if (10 <=? pe)%float && (pe <? 15)%float then 8
                 else if (pe <? 30)%float then 5
                 else 0;
     ev_tip := "Compare to peers and the industry average." |}.

Definition de_eval (de : float) : Evaluation :=
  {| ev_metric := "Debt-to-Equity";
     ev_value := format_2f de;
     ev_rule := "<1 is safer";
     ev_status := if truthy de && (de <? 1)%float then "HEALTHY" else "HIGH";
     ev_score := if truthy de && (de <? 1)%float then 10
                 else if truthy de && (de <? 2)%float then 5
                 else 0;
     ev_tip := "Ensure company's cash flow can service debt." |}.

Definition cr_eval (cr : float) : Evaluation :=
  {| ev_metric := "Current Ratio";
     ev_value := if truthy cr then format_2f cr else "N/A";
     ev_rule := "2:1 is healthy";
     ev_status := if (1.5 <=? cr)%float && (cr <=? 3)%float then "HEALTHY"
                  else if (cr <? 1.5)%float then "LOW"
                  else "INEFFICIENT";
     ev_score := if (1.8 <=? cr)%float && (cr <=? 2.5)%float then 10
                 else if (1.5 <=? cr)%float && (cr <=? 3)%float then 7
                 else 0;
     ev_tip := "Too high might suggest inefficient asset use." |}.

Definition rev_eval (rev_growth : float) : Evaluation :=
  {| ev_metric := "Revenue Growth (YoY)";
     ev_value := format_1f rev_growth +:+ "%";
     ev_rule := "Look for consistent growth";
     ev_status := if (5 <? rev_growth)%float then "STABLE" else "VOLATILE";
     ev_score := if (10 <? rev_growth)%float then 10
                 else if (0 <? rev_growth)%float then 5
                 else 0;
     ev_tip := "Sudden jumps or declines may suggest market disruption." |}.

Definition eps_eval (eps_growth : float) : Evaluation :=
  {| ev_metric := "EPS Growth (YoY)";
     ev_value := format_1f eps_growth +:+ "%";
     ev_rule := "Steady or rising";
     ev_status := if (0 <? eps_growth)%float then "GROWING" else "DECLINING";
     ev_score := if (10 <? eps_growth)%float then 10
                 else if (0 <? eps_growth)%float then 5
                 else 0;
     ev_tip := "EPS should grow in tandem with revenue." |}.

Definition roe_eval (roe : float) : Evaluation :=
  {| ev_metric := "ROE";
     ev_value := format_1f roe +:+ "%";
     ev_rule := "15%+ is good";
     ev_status := if (15 <=? roe)%float then "EXCELLENT" else "POOR";
     ev_score := if (15 <=? roe)%float then 10
                 else if (10 <=? roe)%float then 5
                 else 0;
     ev_tip := "Compare ROE to peers in the same industry." |}.

Definition payout_eval (payout : float) : Evaluation :=
  {| ev_metric := "Payout Ratio";
     ev_value := if truthy payout then format_1f payout +:+ "%" else "N/A";
     ev_rule := "<60% is sustainable";
     ev_status := if (payout <? 60)%float then "SUSTAINABLE" else "HIGH";
     ev_score := if (0 <? payout)%float && (payout <? 60)%float then 10
                 else if (60 <=? payout)%float && (payout <? 80)%float then 5
                 else 0;
     ev_tip := "Very high payout limit growth and reinvestment." |}.

Definition pb_eval (pb : float) : Evaluation :=
  {| ev_metric := "P/B Ratio";
     ev_value := if truthy pb then format_2f pb else "N/A";
     ev_rule := "<1 suggests undervaluation";
     ev_status := if truthy pb && (pb <? 1)%float then "UNDERVALUED"
                  else "FAIR/OVER";
     ev_score := if truthy pb && (pb <? 1)%float then 10
                 else if truthy pb && (pb <? 2)%float then 7
                 else 3;
     ev_tip := "Better for asset-heavy industries." |}.

Definition fcf_eval (fcf : float) : Evaluation :=
  {| ev_metric := "Free Cash Flow";
     ev_value := if truthy fcf
                 then "$" +:+ format_2f (fcf / 1e9) +:+ "B"
                 else "N/A";
     ev_rule := "Should be positive and growing";
     ev_status := if truthy fcf && (0 <? fcf)%float then "POSITIVE"
                  else "NEGATIVE";
     ev_score := if truthy fcf && (0 <? fcf)%float then 10 else 0;
     ev_tip := "FCF is essential for dividends and debt repayment." |}.

Definition gv_eval (pe eps_growth : float) : Evaluation :=
  let is_growth := (25 <? pe)%float || (15 <? eps_growth)%float in
  {| ev_metric := "Category";
     ev_value := if is_growth then "Growth" else "Value";
     ev_rule := "Growth (High P/E) vs Value (Low P/E)";
     ev_status := "ANALYZED";
     ev_score := 10;
     ev_tip := "Value offers safety; Growth offers high reward." |}.

Definition div_eval : Evaluation :=
  {| ev_metric := "Diversification Advice";
     ev_value := "Review Weight";
     ev_rule := "Max 5% per stock";
     ev_status := "ADVICE";
     ev_score := 10;
     ev_tip := "Don't put more than 5% of your portfolio into a single stock."
  |}.

Definition ind_eval (sector : string) : Evaluation :=
  {| ev_metric := "Industry Context";
     ev_value := sector;
     ev_rule := "Compare within the same industry";
     ev_status := "CONTEXT";
     ev_score := 10;
     ev_tip := "Always compare metrics within the same industry." |}.

(** [sector] is what the read [ticker.info.get('sector', 'Unknown')] gave;
    the fields of [stock_data] hold numbers, as everywhere in this file. *)
Definition get_rules_of_thumb_evaluation (symbol : string)
    (stock_data : option StockData)
    (payout_ratio free_cash_flow : option float) (sector : string)
  : result RulesOfThumb :=
  analysis ←! analyze_stock symbol stock_data payout_ratio free_cash_flow;
  let pe := sa_pe_ratio analysis in
  let de := sa_debt_to_equity analysis in
  let cr := sa_current_ratio analysis in
  let rev_growth := (sa_revenue_growth analysis * 100)%float in
  let eps_growth := (sa_earnings_growth analysis * 100)%float in
  let roe := (sa_roe analysis * 100)%float in
  let payout := (sa_payout_ratio analysis * 100)%float in
  let pb := sa_pb_ratio analysis in
  let fcf := sa_free_cash_flow analysis in
  let evaluations :=
    [ pe_eval pe; de_eval de; cr_eval cr; rev_eval rev_growth;
      eps_eval eps_growth; roe_eval roe; payout_eval payout; pb_eval pb;
      fcf_eval fcf; gv_eval pe eps_growth; div_eval; ind_eval sector ] in
  let overall_score := foldr Z.add 0 (ev_score <$> evaluations) in
  let max_score := Z.of_nat (length evaluations) * 10 in
  ratio ←! py_truediv overall_score max_score;
  let percentage := (ratio * 100)%float in
  Ok {| rt_symbol := symbol;
        evaluations := evaluations;
        overall_score := overall_score;
        max_score := max_score;
        percentage := percentage;
        recommendation :=
          if (80 <=? percentage)%float then "STRONG_BUY"
          else if (60 <=? percentage)%float then "BUY"
          else if (40 <=? percentage)%float then "HOLD"
          else "SELL" |}.
End rules_of_thumb.

(** * Vocabulary of the statements, and example data

    What the properties below are stated with: the score of a record under a
    strategy, what it means for a rule or a criterion to hold, and a few
    concrete companies, strategies and criteria. *)

(** One block of [_generate_signals]: an [if] or an [if]/[elif] that appends
    a tag. *)
Definition append_if (c : bool) (a : string) (l : list string) : list string :=
  if c then l ++ [a] else l.

Definition append_elif (c d : bool) (a b : string) (l : list string)
  : list string :=
  if c then l ++ [a] else if d then l ++ [b] else l.

(** A loss-making company with every other figure healthy. *)
Definition loss_maker : StockData :=
  {| symbol := "LOSS"; price := 50; eps := -2; revenue := 1000;
     net_income := -40; total_assets := 2000; total_liabilities := 800;
     cash := 900; debt := 300; shares_outstanding := 20; market_cap := 1000;
     dividend_per_share := 0; book_value_per_share := 60;
     revenue_growth := 4; earnings_growth := -10; dividend_yield := 0;
     pe_ratio := None; pb_ratio := None; peg_ratio := None; roe := None;
     roa := None; debt_to_equity := None; current_ratio := None;
     quick_ratio := None; debt_to_assets := None;
     interest_coverage := None |}.

(** A company with no debt at all. *)
Definition debt_free : StockData :=
  {| symbol := "FREE"; price := 30; eps := 3; revenue := 500;
     net_income := 60; total_assets := 900; total_liabilities := 200;
     cash := 150; debt := 0; shares_outstanding := 20; market_cap := 600;
     dividend_per_share := 1; book_value_per_share := 35;
     revenue_growth := 6; earnings_growth := 7; dividend_yield := 3.3;
     pe_ratio := None; pb_ratio := None; peg_ratio := None; roe := None;
     roa := None; debt_to_equity := None; current_ratio := None;
     quick_ratio := None; debt_to_assets := None;
     interest_coverage := None |}.

(** Every integer from 0 to 100 converts to a float that is at least [0.0],
    and only 100 converts to a float that is at least [100.0]. *)
Definition score_float_table : bool :=
  forallb (λ z, (0 <=? float_of_Z z)%float
                && implb (100 <=? float_of_Z z)%float (z =? 100))
          (seqZ 0 101).

(** The score a built-in strategy gives a record. *)
Definition strategy_score (kind : ScreeningStrategy) (stock : StockData) : Z :=
  match strategies_get (Member kind) with
  | Some screening_func => (screening_func stock (analyze stock)).1
  | None => 0
  end.

Definition symbol_and_score (r : ScreeningResult Z) : string * Z :=
  (res_symbol r, score r).

Definition meets (threshold : float) (entry : string * Z) : Prop :=
  (threshold <=? float_of_Z entry.2)%float = true.

#[global] Instance meets_dec threshold entry : Decision (meets threshold entry).
Proof. unfold meets. apply _. Defined.

(** A rule counts when it returns a true value; a rule that returns a false
    value or raises does not. *)
Definition rule_holds (stock : StockData) (r : rule) : bool :=
  match r stock (analyze stock) with
  | Returns true => true
  | _ => false
  end.

(** The count of rules returning true. *)
Definition rules_matched (rules : list rule) (stock : StockData) : Z :=
  Z.of_nat (length (filter (λ r, rule_holds stock r = true) rules)).

(** (count of rules returning true / total rule count) × 100. *)
Definition fraction_score (rules : list rule) (stock : StockData) : float :=
  (float_of_Z (rules_matched rules stock)
   / float_of_Z (Z.of_nat (length rules)) * 100)%float.

Definition matched_tag (stock : StockData) (i : nat) (r : rule)
  : option string :=
  if rule_holds stock r then Some ("RULE_" +:+ pretty i) else None.

(** The line printed for the rule at position [i] when it raises. *)
Definition failure_line (stock : StockData) (i : nat) (r : rule)
  : option string :=
  match r stock (analyze stock) with
  | Throws e => Some ("Error evaluating rule " +:+ pretty i +:+ ": " +:+ e)
  | Returns _ => None
  end.

(** One line per raising rule, in rule order. *)
Definition rule_failures (rules : list rule) (stock : StockData)
  : list string :=
  omap id (imap (failure_line stock) rules).

Definition symbol_and_fraction (r : ScreeningResult float) : string * float :=
  (res_symbol r, score r).

Definition reaches (threshold : float) (entry : string * float) : Prop :=
  (threshold <=? entry.2)%float = true.

#[global] Instance reaches_dec threshold entry :
  Decision (reaches threshold entry).
Proof. unfold reaches. apply _. Defined.

Definition always_true : rule := λ _ _, Returns true.

Definition always_raises : rule := λ _ _, Throws "division by zero".

Definition two_of_three : CustomStrategy :=
  {| name := "two_of_three";
     rules := [always_true; always_raises; always_true];
     created_at := 0 |}.

Definition two_of_three_builder : string * StrategyBuilder :=
  create_strategy {| custom_strategies := ∅ |} "two_of_three"
    [always_true; always_raises; always_true] 0.

Definition no_rules_builder : string * StrategyBuilder :=
  create_strategy {| custom_strategies := ∅ |} "empty" [] 0.

Definition two_of_three_results : list (ScreeningResult float) :=
  match (screen_with_custom_strategy (λ i, Z.of_nat i) two_of_three_builder.2
           [debt_free; loss_maker] "custom_two_of_three_0" 50 []).2 with
  | Ok results => results
  | Raise _ => []
  end.

(** A value within the bounds that are present. *)
Definition within_bounds (x : float) (bounds : Bounds) : bool :=
  negb (match bmin bounds with Some lo => (x <? lo)%float | None => false end)
  && negb (match bmax bounds with Some hi => (hi <? x)%float | None => false end).

(** The same for an integer, compared with the bounds by its exact value. *)
Definition int_within_bounds (z : Z) (bounds : Bounds) : bool :=
  negb (match bmin bounds with Some lo => int_lt_float z lo | None => false end)
  && negb (match bmax bounds with Some hi => float_lt_int hi z | None => false end).

(** One criterion passes: the named metric is looked up in the computed
    metrics first, else in the same-named field of the record, and is within
    the bounds; a name found in neither place is skipped.  (A field that
    holds no number has nothing to be compared with a bound.) *)
Definition criterion_passes (stock : StockData) (criterion : string * Bounds)
  : bool :=
  match metrics (analyze stock) !! criterion.1 with
  | Some x => within_bounds x criterion.2
  | None =>
      match stock_fields stock !! criterion.1 with
      | Some (VFloat x) => within_bounds x criterion.2
      | Some (VInt z) => int_within_bounds z criterion.2
      | Some (VStr _) | Some VNone | Some VObject => true
      | None => true
      end
  end.

Definition passes_all (criteria : Criteria) (stock : StockData) : Prop :=
  forallb (criterion_passes stock) criteria = true.

#[global] Instance passes_all_dec criteria stock :
  Decision (passes_all criteria stock).
Proof. unfold passes_all. apply _. Defined.

(** No bound is put on an attribute that holds no number: the string field
    [symbol], and the attributes that are not fields. *)
Definition no_bound_on_non_number (has_other_attribute : string → bool)
    (criterion : string * Bounds) : Prop :=
  criterion.1 = "symbol" ∨ has_other_attribute criterion.1 = true →
  bmin criterion.2 = None ∧ bmax criterion.2 = None.

(** Some of the attributes a dataclass instance has besides its fields. *)
Definition object_attributes (name : string) : bool :=
  bool_decide
    (name ∈ ["__class__"; "__dataclass_fields__"; "__dict__"; "__doc__";
             "__eq__"; "__hash__"; "__init__"; "__module__"; "__repr__"]).

(** Two companies that differ in price only: P/E 15 and P/E 25. *)
Definition pe_fifteen : StockData :=
  {| symbol := "PE15"; price := 15; eps := 1; revenue := 1000;
     net_income := 100; total_assets := 2000; total_liabilities := 1000;
     cash := 500; debt := 300; shares_outstanding := 100; market_cap := 1500;
     dividend_per_share := 1; book_value_per_share := 10;
     revenue_growth := 12; earnings_growth := 8; dividend_yield := 2;
     pe_ratio := None; pb_ratio := None; peg_ratio := None; roe := None;
     roa := None; debt_to_equity := None; current_ratio := None;
     quick_ratio := None; debt_to_assets := None;
     interest_coverage := None |}.

Definition pe_twenty_five : StockData :=
  {| symbol := "PE25"; price := 25; eps := 1; revenue := 1000;
     net_income := 100; total_assets := 2000; total_liabilities := 1000;
     cash := 500; debt := 300; shares_outstanding := 100; market_cap := 2500;
     dividend_per_share := 1; book_value_per_share := 10;
     revenue_growth := 12; earnings_growth := 8; dividend_yield := 2;
     pe_ratio := None; pb_ratio := None; peg_ratio := None; roe := None;
     roa := None; debt_to_equity := None; current_ratio := None;
     quick_ratio := None; debt_to_assets := None;
     interest_coverage := None |}.

(** The P/E 15 company with [2^63] shares, an integer that no float
    conversion through a 63-bit word keeps. *)
Definition many_shares : StockData :=
  {| symbol := "MANY"; price := 15; eps := 1; revenue := 1000;
     net_income := 100; total_assets := 2000; total_liabilities := 1000;
     cash := 500; debt := 300; shares_outstanding := 9223372036854775808;
     market_cap := 1500;
     dividend_per_share := 1; book_value_per_share := 10;
     revenue_growth := 12; earnings_growth := 8; dividend_yield := 2;
     pe_ratio := None; pb_ratio := None; peg_ratio := None; roe := None;
     roa := None; debt_to_equity := None; current_ratio := None;
     quick_ratio := None; debt_to_assets := None;
     interest_coverage := None |}.

(** [{'pe_ratio': {'max': 20}}] *)
Definition pe_at_most_twenty : Criteria :=
  [("pe_ratio", {| bmin := None; bmax := Some 20%float |})].

(** [{'symbol': {'min': 0}}] *)
Definition symbol_at_least_zero : Criteria :=
  [("symbol", {| bmin := Some 0%float; bmax := None |})].

(** [{'pe_ratio': {'min': 5, 'max': 20}, 'price': {'max': 20},
      'shares_outstanding': {'min': 1, 'max': 1e19},
      'payout_ratio': {'max': 60}, 'symbol': {}, '__doc__': {}}]: a computed
    metric, a raw field, the integer field, a name found nowhere, and two
    attributes that hold no number, without a bound. *)
Definition mixed_criteria : Criteria :=
  [("pe_ratio", {| bmin := Some 5%float; bmax := Some 20%float |});
   ("price", {| bmin := None; bmax := Some 20%float |});
   ("shares_outstanding", {| bmin := Some 1%float; bmax := Some 1e19%float |});
   ("payout_ratio", {| bmin := None; bmax := Some 60%float |});
   ("symbol", {| bmin := None; bmax := None |});
   ("__doc__", {| bmin := None; bmax := None |})].

(** An analysis in which one metric has been replaced. *)
Definition with_metric (key : string) (value : float) (analysis : Analysis)
  : Analysis :=
  {| a_symbol := a_symbol analysis;
     metrics := <[key := value]> (metrics analysis);
     signals := signals analysis;
     risk_score := risk_score analysis;
     fundamental_strength := fundamental_strength analysis;
     valuation_score := valuation_score analysis;
     quality_score := quality_score analysis;
     growth_score := growth_score analysis;
     momentum_score := momentum_score analysis |}.

(** A company without liabilities: the denominator of its current ratio is
    zero. *)
Definition no_liabilities : StockData :=
  {| symbol := "NOLIAB"; price := 40; eps := 2; revenue := 1000;
     net_income := 100; total_assets := 2000; total_liabilities := 0;
     cash := 400; debt := 300; shares_outstanding := 50; market_cap := 2000;
     dividend_per_share := 0; book_value_per_share := 40;
     revenue_growth := 3; earnings_growth := 4; dividend_yield := 0;
     pe_ratio := None; pb_ratio := None; peg_ratio := None; roe := None;
     roa := None; debt_to_equity := None; current_ratio := None;
     quick_ratio := None; debt_to_assets := None;
     interest_coverage := None |}.

(** The keys of the metrics dictionary, in the order they are assigned. *)
Definition metric_names : list string :=
  ["pe_ratio"; "pb_ratio"; "peg_ratio"; "price_to_sales"; "roe"; "roa";
   "net_margin"; "gross_margin"; "operating_margin"; "roic";
   "asset_turnover"; "equity_multiplier"; "current_ratio"; "quick_ratio";
   "cash_ratio"; "debt_to_equity"; "debt_to_assets"; "equity_ratio";
   "interest_coverage"; "revenue_growth"; "earnings_growth";
   "dividend_yield"; "eps"; "book_value_per_share"; "dividend_per_share"].

(** Every tag [_generate_signals] can append, in the order of its blocks. *)
Definition signal_tags : list string :=
  ["UNDERVALUED_PE"; "OVERVALUED_PE"; "UNDERVALUED_BOOK"; "OVERVALUED_BOOK";
   "HIGH_ROE"; "HIGH_ROA"; "HIGH_MARGIN"; "HIGH_REVENUE_GROWTH";
   "HIGH_EARNINGS_GROWTH"; "HIGH_DIVIDEND_YIELD"; "PAYS_DIVIDEND";
   "STRONG_LIQUIDITY"; "WEAK_LIQUIDITY"; "LOW_DEBT"; "HIGH_DEBT"].

(** A company whose liabilities exceed its assets. *)
Definition negative_equity : StockData :=
  {| symbol := "NEGEQ"; price := 12; eps := 1; revenue := 900;
     net_income := 50; total_assets := 1000; total_liabilities := 1200;
     cash := 1500; debt := 700; shares_outstanding := 50; market_cap := 600;
     dividend_per_share := 0; book_value_per_share := -4;
     revenue_growth := 14; earnings_growth := 9; dividend_yield := 0;
     pe_ratio := None; pb_ratio := None; peg_ratio := None; roe := None;
     roa := None; debt_to_equity := None; current_ratio := None;
     quick_ratio := None; debt_to_assets := None;
     interest_coverage := None |}.

(** The highest score a built-in strategy can give. *)
Definition score_ceiling (kind : ScreeningStrategy) : Z :=
  match kind with
  | VALUE_INVESTING => 100
  | GROWTH_INVESTING => 95
  | DIVIDEND_INVESTING => 75
  | MOMENTUM_INVESTING => 70
  | QUALITY_INVESTING => 100
  | CONTRARIAN => 95
  end.

(** A cheap, profitable, fast-growing, liquid company paying a high
    dividend. *)
Definition star : StockData :=
  {| symbol := "STAR"; price := 7; eps := 1; revenue := 1000;
     net_income := 400; total_assets := 2000; total_liabilities := 500;
     cash := 1500; debt := 300; shares_outstanding := 100; market_cap := 700;
     dividend_per_share := 1; book_value_per_share := 10;
     revenue_growth := 35; earnings_growth := 35; dividend_yield := 6;
     pe_ratio := None; pb_ratio := None; peg_ratio := None; roe := None;
     roa := None; debt_to_equity := None; current_ratio := None;
     quick_ratio := None; debt_to_assets := None;
     interest_coverage := None |}.

(** Integers from 0 to 100 convert to floats in the same order. *)
Definition score_order_table : bool :=
  forallb (λ a, forallb (λ b, implb (a <=? b)
                                (float_of_Z a <=? float_of_Z b)%float)
                        (seqZ 0 101))
          (seqZ 0 101).

(** The builders that can exist: a new one, and what [create_strategy] makes
    of one. *)
Inductive built : StrategyBuilder → Prop :=
  | built_new : built {| custom_strategies := ∅ |}
  | built_create self name rules now :
      built self → built (create_strategy self name rules now).2.

Fixpoint has_underscore (s : string) : bool :=
  match s with
  | EmptyString => false
  | String c rest => Ascii.eqb c "_"%char || has_underscore rest
  end.

(** What follows the last underscore of a string. *)
Fixpoint after_last_underscore (s : string) : string :=
  match s with
  | EmptyString => EmptyString
  | String c rest =>
      if has_underscore rest then after_last_underscore rest
      else if Ascii.eqb c "_"%char then rest else s
  end.

(** The P/E of a record lies in the band of a P/E strategy. *)
Definition pe_in_band (pe_min pe_max : float) (stock : StockData) : Prop :=
  (pe_min <=? metrics (analyze stock) !!! "pe_ratio")%float
  && (metrics (analyze stock) !!! "pe_ratio" <=? pe_max)%float = true.

#[global] Instance pe_in_band_dec pe_min pe_max stock :
  Decision (pe_in_band pe_min pe_max stock).
Proof. unfold pe_in_band. apply _. Defined.

(** The two rules of the dividend screen. *)
Definition pays_yield (min_yield : float) (stock : StockData) : bool :=
  (min_yield <=? dividend_yield stock)%float.

Definition dividend_sustainable (stock : StockData) : bool :=
  (10 <=? metrics (analyze stock) !!! "roe")%float
  && (metrics (analyze stock) !!! "debt_to_equity" <? 1)%float.

(** The three rules of the quality screen. *)
Definition roe_reaches (min_roe : float) (stock : StockData) : bool :=
  (min_roe <=? metrics (analyze stock) !!! "roe")%float.

Definition debt_within (max_debt_to_equity : float) (stock : StockData)
  : bool :=
  (metrics (analyze stock) !!! "debt_to_equity" <=? max_debt_to_equity)%float.

Definition liquid (stock : StockData) : bool :=
  (1.5 <=? metrics (analyze stock) !!! "current_ratio")%float.

(** At least two of three. *)
Definition two_of (a b c : bool) : bool := a && b || a && c || b && c.

(** A builder with one strategy registered. *)
Definition one_strategy_builder : StrategyBuilder := two_of_three_builder.2.

(** The fields of the [ScreeningCriteria] dataclass: the criteria names the
    strategy classes are documented with. *)
Definition ScreeningCriteria_fields : list string :=
  ["pe_ratio"; "pb_ratio"; "roe"; "roa"; "debt_to_equity"; "current_ratio";
   "dividend_yield"; "revenue_growth"; "earnings_growth"; "payout_ratio";
   "free_cash_flow"].

(** The six strategy classes. *)
Definition strategy_classes : list (option Criteria → BaseStrategy) :=
  [ValueStrategy; GrowthStrategy; DividendStrategy; QualityStrategy;
   MomentumStrategy; GARPStrategy].

(** What the default criteria of [DividendStrategy] come to for a record:
    the yield as stored is not below 0.03, debt-to-equity not above 1, the
    current ratio not below 1. *)
Definition dividend_defaults_met (stock : StockData) : bool :=
  negb (dividend_yield stock <? 0.03)%float
  && negb (1 <? _calculate_debt_to_equity stock)%float
  && negb (_calculate_current_ratio stock <? 1)%float.

(** A criterion is resolved without raising when it names a computed metric,
    or a name that is neither a metric nor an attribute of the record. *)
Definition resolvable (other : string → bool) (criterion : string * Bounds)
  : Prop :=
  criterion.1 ∈ metric_names
  ∨ (criterion.1 ∈ ["payout_ratio"; "free_cash_flow"]
     ∧ other criterion.1 = false).

(** The recommendation read off the total score: for every total the twelve
    evaluations can give, the percentage reaches 80, 60 and 40 exactly when
    the total reaches 96, 72 and 48. *)
Definition recommendation_table : bool :=
  forallb (λ total,
             let percentage :=
               (float_of_Z total / float_of_Z 120 * 100)%float in
             bool_decide ((80 <=? percentage)%float = (96 <=? total))
             && bool_decide ((60 <=? percentage)%float = (72 <=? total))
             && bool_decide ((40 <=? percentage)%float = (48 <=? total)))
          (seqZ 33 88).

(** * Properties *)

(** ** Reading the metrics dictionary *)

Ltac metric_lookup := intros; reflexivity.

Lemma metrics_pe_ratio stock :
  calculate_all_metrics stock !!! "pe_ratio" = _calculate_pe_ratio stock.
Proof. metric_lookup. Qed.

Lemma metrics_pb_ratio stock :
  calculate_all_metrics stock !!! "pb_ratio" = _calculate_pb_ratio stock.
Proof. metric_lookup. Qed.

Lemma metrics_current_ratio stock :
  calculate_all_metrics stock !!! "current_ratio" = _calculate_current_ratio stock.
Proof. metric_lookup. Qed.

Lemma metrics_interest_coverage stock :
  calculate_all_metrics stock !!! "interest_coverage"
  = _calculate_interest_coverage stock.
Proof. metric_lookup. Qed.

(** ** Lists of signal tags built by conditional appends *)

Lemma generate_signals_blocks stock (metrics : gmap string float) :
  _generate_signals stock metrics
  = append_elif (metrics !!! "debt_to_equity" <? 0.5)%float
      (2 <? metrics !!! "debt_to_equity")%float "LOW_DEBT" "HIGH_DEBT"
    (append_elif (2 <? metrics !!! "current_ratio")%float
       (metrics !!! "current_ratio" <? 1)%float
       "STRONG_LIQUIDITY" "WEAK_LIQUIDITY"
    (append_elif (3 <? dividend_yield stock)%float
       (0 <? dividend_yield stock)%float "HIGH_DIVIDEND_YIELD" "PAYS_DIVIDEND"
    (append_if (20 <? earnings_growth stock)%float "HIGH_EARNINGS_GROWTH"
    (append_if (20 <? revenue_growth stock)%float "HIGH_REVENUE_GROWTH"
    (append_if (20 <? metrics !!! "net_margin")%float "HIGH_MARGIN"
    (append_if (10 <? metrics !!! "roa")%float "HIGH_ROA"
    (append_if (15 <? metrics !!! "roe")%float "HIGH_ROE"
    (append_elif (metrics !!! "pb_ratio" <? 1)%float
       (3 <? metrics !!! "pb_ratio")%float "UNDERVALUED_BOOK" "OVERVALUED_BOOK"
    (append_elif (metrics !!! "pe_ratio" <? 15)%float
       (30 <? metrics !!! "pe_ratio")%float "UNDERVALUED_PE" "OVERVALUED_PE"
       []))))))))).
Proof. reflexivity. Qed.

Lemma elem_of_append_if (x a : string) c l :
  x ∈ l → x ∈ append_if c a l.
Proof. intros Hx. destruct c; [apply elem_of_app; by left | done]. Qed.

Lemma elem_of_append_elif (x a b : string) c d l :
  x ∈ l → x ∈ append_elif c d a b l.
Proof.
  intros Hx. destruct c; [apply elem_of_app; by left |].
  by apply elem_of_append_if.
Qed.

Lemma not_elem_of_append (x a : string) (l : list string) :
  x ≠ a → x ∉ l → x ∉ l ++ [a].
Proof.
  intros Hne Hl. apply not_elem_of_app. split; [done |].
  by rewrite list_elem_of_singleton.
Qed.

Lemma not_elem_of_append_if (x a : string) c l :
  x ≠ a → x ∉ l → x ∉ append_if c a l.
Proof. intros Hne Hl. destruct c; [by apply not_elem_of_append | done]. Qed.

Lemma not_elem_of_append_elif (x a b : string) c d l :
  x ≠ a → x ≠ b → x ∉ l → x ∉ append_elif c d a b l.
Proof.
  intros Ha Hb Hl. destruct c; [by apply not_elem_of_append |].
  by apply not_elem_of_append_if.
Qed.

Lemma elem_of_append_elif_second (a b : string) l :
  b ∈ append_elif false true a b l.
Proof. apply elem_of_app. right. by apply list_elem_of_singleton. Qed.

Lemma elem_of_append_elif_first (a b : string) d l :
  a ∈ append_elif true d a b l.
Proof. apply elem_of_app. right. by apply list_elem_of_singleton. Qed.

(** A tag present after one block stays to the end; a tag that no other
    block appends is absent when its own block does not append it. *)
Ltac tag_present :=
  repeat first [ apply elem_of_append_elif_second
               | apply elem_of_append_elif_first
               | apply elem_of_append_elif
               | apply elem_of_append_if ].

Ltac tag_absent :=
  repeat first
    [ apply not_elem_of_append_elif; [discriminate | discriminate |]
    | apply not_elem_of_append_if; [discriminate |]
    | apply not_elem_of_append; [discriminate |] ];
  apply not_elem_of_nil.

(** Comparisons between [infinity] and a literal cut-off are evaluated. *)
Ltac eval_infinity :=
  repeat match goal with
  | |- context [PrimFloat.ltb infinity ?c] =>
      let b := eval vm_compute in (PrimFloat.ltb infinity c) in
      lazymatch b with
      | true => change (PrimFloat.ltb infinity c) with true
      | false => change (PrimFloat.ltb infinity c) with false
      end
  | |- context [PrimFloat.ltb ?c infinity] =>
      let b := eval vm_compute in (PrimFloat.ltb c infinity) in
      lazymatch b with
      | true => change (PrimFloat.ltb c infinity) with true
      | false => change (PrimFloat.ltb c infinity) with false
      end
  end.

Lemma infinite_pe_signals stock (metrics : gmap string float) :
  metrics !!! "pe_ratio" = infinity →
  ("UNDERVALUED_PE" ∉ _generate_signals stock metrics)
  ∧ ("OVERVALUED_PE" ∈ _generate_signals stock metrics).
Proof.
  intros Hpe. rewrite generate_signals_blocks, Hpe. eval_infinity.
  split; [tag_absent | tag_present].
Qed.

(** ** Sub-scores of the analysis *)

Lemma clamp_bounds (x : Z) : 0 ≤ Z.min 100 (Z.max 0 x) ≤ 100.
Proof. lia. Qed.

(** C1. For every record, [analyze] returns a risk score in [0,100] and
    valuation, quality, growth and momentum scores each in [0,100].  The
    record is arbitrary, so its fields and the metrics derived from them may
    be infinite; the same bounds hold when the scoring functions are given
    any metrics dictionary [M], whatever values it holds. *)
Theorem analyze_scores_in_range (stock : StockData) (M : gmap string float) :
  (0 ≤ risk_score (analyze stock) ≤ 100
   ∧ 0 ≤ valuation_score (analyze stock) ≤ 100
   ∧ 0 ≤ quality_score (analyze stock) ≤ 100
   ∧ 0 ≤ growth_score (analyze stock) ≤ 100
   ∧ 0 ≤ momentum_score (analyze stock) ≤ 100)
  ∧ (0 ≤ _calculate_risk_score stock M ≤ 100
     ∧ 0 ≤ _calculate_valuation_score M ≤ 100
     ∧ 0 ≤ _calculate_quality_score M ≤ 100
     ∧ 0 ≤ _calculate_growth_score stock M ≤ 100
     ∧ 0 ≤ _calculate_momentum_score stock ≤ 100).
Proof.
  unfold analyze; cbn [risk_score valuation_score quality_score growth_score
                       momentum_score].
  split; split_and!; apply clamp_bounds.
Qed.

(** ** Non-positive denominators *)

(** C6. For every record with [eps <= 0] the computed [pe_ratio] is
    [+infinity]; no [UNDERVALUED_PE] signal fires from it, and the
    [OVERVALUED_PE] signal does. *)
Theorem nonpositive_eps_pe_infinite (stock : StockData) :
  (eps stock <=? 0)%float = true →
  metrics (analyze stock) !!! "pe_ratio" = infinity
  ∧ ("UNDERVALUED_PE" ∉ signals (analyze stock))
  ∧ ("OVERVALUED_PE" ∈ signals (analyze stock)).
Proof.
  intros Heps.
  assert (Hpe : calculate_all_metrics stock !!! "pe_ratio" = infinity).
  { rewrite metrics_pe_ratio. unfold _calculate_pe_ratio. by rewrite Heps. }
  split; [exact Hpe |].
  exact (infinite_pe_signals stock (calculate_all_metrics stock) Hpe).
Qed.

Lemma nonpositive_eps_pe_infinite_witness :
  metrics (analyze loss_maker) !!! "pe_ratio" = infinity
  ∧ ("UNDERVALUED_PE" ∉ signals (analyze loss_maker))
  ∧ ("OVERVALUED_PE" ∈ signals (analyze loss_maker)).
Proof. apply (nonpositive_eps_pe_infinite loss_maker). reflexivity. Defined.

(** C7. For every record with [debt <= 0], and so for [debt = 0], the
    computed [interest_coverage] is [+infinity]. *)
Theorem nonpositive_debt_interest_coverage_infinite (stock : StockData) :
  (debt stock <=? 0)%float = true →
  calculate_all_metrics stock !!! "interest_coverage" = infinity.
Proof.
  intros Hdebt. rewrite metrics_interest_coverage.
  unfold _calculate_interest_coverage. by rewrite Hdebt.
Qed.

Lemma nonpositive_debt_interest_coverage_infinite_witness :
  debt debt_free = 0%float
  ∧ calculate_all_metrics debt_free !!! "interest_coverage" = infinity.
Proof.
  split; [reflexivity |].
  apply (nonpositive_debt_interest_coverage_infinite debt_free). reflexivity.
Defined.

(** ** Unknown strategy kinds *)

(** C8. [screen] raises the unknown-strategy [ValueError] for every strategy
    argument that is not one of the six registered members, whatever the
    records and the threshold, and returns a list for each of the six. *)
Theorem screen_unknown_strategy_raises (utcnow : nat → Z)
    (stocks : list StockData) (threshold : float) :
  (∀ rendering,
     screen utcnow stocks (Other rendering) threshold
     = Raise (ValueError ("Unknown strategy: " +:+ rendering)))
  ∧ (∀ kind, ∃ results,
       screen utcnow stocks (Member kind) threshold = Ok results).
Proof.
  split.
  - reflexivity.
  - intros kind. unfold screen. destruct kind; cbn; eauto.
Qed.

(** ** Integer scores against a float threshold *)

Lemma score_float_facts (z : Z) :
  0 ≤ z ≤ 100 →
  (0 <=? float_of_Z z)%float = true
  ∧ ((100 <=? float_of_Z z)%float = true → z = 100).
Proof.
  intros Hz.
  assert (Htable : score_float_table = true) by (vm_compute; reflexivity).
  unfold score_float_table in Htable.
  rewrite forallb_forall in Htable.
  specialize (Htable z). rewrite <- list_elem_of_In, elem_of_seqZ in Htable.
  specialize (Htable ltac:(lia)).
  apply andb_prop in Htable as [H0 H100]. split; [done |].
  intros Hge. rewrite Hge in H100. cbn in H100. lia.
Qed.

(** ** The six scorers stay within 0..100 *)

Ltac scorer_range :=
  intros; cbv beta delta
    [_screen_value _screen_growth _screen_dividend _screen_momentum
     _screen_quality _screen_contrarian] zeta;
  repeat case_match; simplify_eq/=; lia.

Lemma _screen_value_range stock analysis :
  0 ≤ (_screen_value stock analysis).1 ≤ 100.
Proof. scorer_range. Qed.

Lemma _screen_growth_range stock analysis :
  0 ≤ (_screen_growth stock analysis).1 ≤ 100.
Proof. scorer_range. Qed.

Lemma _screen_dividend_range stock analysis :
  0 ≤ (_screen_dividend stock analysis).1 ≤ 100.
Proof. scorer_range. Qed.

Lemma _screen_momentum_range stock analysis :
  0 ≤ (_screen_momentum stock analysis).1 ≤ 100.
Proof. scorer_range. Qed.

Lemma _screen_quality_range stock analysis :
  0 ≤ (_screen_quality stock analysis).1 ≤ 100.
Proof. scorer_range. Qed.

Lemma _screen_contrarian_range stock analysis :
  0 ≤ (_screen_contrarian stock analysis).1 ≤ 100.
Proof. scorer_range. Qed.

(** ** ScreeningEngine.screen: which records come back, and in what order *)

Lemma strategy_score_range kind stock : 0 ≤ strategy_score kind stock ≤ 100.
Proof.
  unfold strategy_score.
  destruct kind; cbn [strategies_get];
    auto using _screen_value_range, _screen_growth_range,
      _screen_dividend_range, _screen_momentum_range, _screen_quality_range,
      _screen_contrarian_range.
Qed.

Lemma insert_by_Permutation {A} (R : A → A → Prop)
    `{∀ a b, Decision (R a b)} (x : A) (l : list A) :
  insert_by R x l ≡ₚ x :: l.
Proof.
  induction l as [|y rest IH]; [done |]. cbn [insert_by].
  case_decide; [done |]. by rewrite IH, Permutation_swap.
Qed.

Lemma sorted_reverse_Permutation {A} (R : A → A → Prop)
    `{∀ a b, Decision (R a b)} (l : list A) :
  sorted_reverse R l ≡ₚ l.
Proof.
  induction l as [|x rest IH]; [done |].
  change (sorted_reverse R (x :: rest))
    with (insert_by R x (sorted_reverse R rest)).
  by rewrite insert_by_Permutation, IH.
Qed.

Lemma StronglySorted_insert_by {A} (R : A → A → Prop)
    `{∀ a b, Decision (R a b)} `{!Total R} `{!Transitive R}
    (x : A) (l : list A) :
  StronglySorted R l → StronglySorted R (insert_by R x l).
Proof.
  induction 1 as [|y rest Hsorted IH Hall]; cbn [insert_by].
  { repeat constructor. }
  case_decide as Hxy.
  - constructor; [by constructor |].
    constructor; [done |].
    eapply Forall_impl; [exact Hall |]. intros z Hyz. by transitivity y.
  - constructor; [done |].
    rewrite insert_by_Permutation. constructor; [|done].
    by destruct (total R x y).
Qed.

Lemma StronglySorted_sorted_reverse {A} (R : A → A → Prop)
    `{∀ a b, Decision (R a b)} `{!Total R} `{!Transitive R} (l : list A) :
  StronglySorted R (sorted_reverse R l).
Proof.
  induction l as [|x rest IH]; [constructor |].
  change (sorted_reverse R (x :: rest))
    with (insert_by R x (sorted_reverse R rest)).
  by apply StronglySorted_insert_by.
Qed.

#[global] Instance score_ge_total : Total score_ge.
Proof. intros a b. unfold score_ge. lia. Qed.

#[global] Instance score_ge_trans : Transitive score_ge.
Proof. intros a b c. unfold score_ge. lia. Qed.

Lemma filter_all {A} (P : A → Prop) `{∀ x, Decision (P x)} (l : list A) :
  Forall P l → filter P l = l.
Proof.
  induction 1 as [|x l Hx _ IH]; [done |].
  by rewrite filter_cons_True, IH.
Qed.

Section screen_loop_facts.
Variable utcnow : nat → Z.
Variable screening_func : scorer.
Variable which : strategy_arg.
Variable threshold : float.

Lemma screen_loop_entries i stocks :
  symbol_and_score <$> screen_loop utcnow screening_func which threshold i stocks
  = filter (meets threshold)
      ((λ stock, (symbol stock, (screening_func stock (analyze stock)).1))
         <$> stocks).
Proof.
  revert i. induction stocks as [|stock rest IH]; intros i; [done |].
  cbn [screen_loop fmap list_fmap]. rewrite filter_cons.
  destruct (screening_func stock (analyze stock)) as [sc sigs] eqn:Hf.
  cbn [fst snd]. case_decide as Hmeets; unfold meets in Hmeets; cbn in Hmeets.
  - rewrite Hmeets. cbn. by rewrite IH.
  - apply not_true_is_false in Hmeets. rewrite Hmeets. apply IH.
Qed.

Lemma screen_loop_results i stocks :
  Forall (λ r, strategy r = which
               ∧ (threshold <=? float_of_Z (score r))%float = true)
         (screen_loop utcnow screening_func which threshold i stocks).
Proof.
  revert i. induction stocks as [|stock rest IH]; intros i; [constructor |].
  cbn [screen_loop].
  destruct (screening_func stock (analyze stock)) as [sc sigs].
  destruct (threshold <=? float_of_Z sc)%float eqn:Hpass; [|apply IH].
  constructor; [done | apply IH].
Qed.
End screen_loop_facts.

(** C3. For every list of records, every built-in strategy and every
    threshold, [screen] returns the records whose strategy score is at least
    the threshold, each with its score and the strategy it was screened
    with, ordered by descending score.  With threshold 0 every input record
    is returned, and with threshold 100 every returned record has score
    exactly 100. *)
Theorem screen_filters_and_sorts (utcnow : nat → Z) (stocks : list StockData)
    (kind : ScreeningStrategy) :
  (∀ threshold : float, ∃ results,
     screen utcnow stocks (Member kind) threshold = Ok results
     ∧ StronglySorted score_ge results
     ∧ symbol_and_score <$> results
       ≡ₚ filter (meets threshold)
            ((λ stock, (symbol stock, strategy_score kind stock)) <$> stocks)
     ∧ Forall (λ r, strategy r = Member kind) results)
  ∧ (∃ results,
       screen utcnow stocks (Member kind) 0 = Ok results
       ∧ symbol_and_score <$> results
         ≡ₚ (λ stock, (symbol stock, strategy_score kind stock)) <$> stocks)
  ∧ (∃ results,
       screen utcnow stocks (Member kind) 100 = Ok results
       ∧ Forall (λ r, score r = 100) results).
Proof.
  assert (Hscreen : ∀ threshold, ∃ screening_func,
    strategies_get (Member kind) = Some screening_func
    ∧ (∀ stock, strategy_score kind stock
                = (screening_func stock (analyze stock)).1)
    ∧ screen utcnow stocks (Member kind) threshold
      = Ok (sorted_reverse score_ge
              (screen_loop utcnow screening_func (Member kind) threshold 0
                 stocks))).
  { intros threshold. unfold screen, strategy_score.
    destruct (strategies_get (Member kind)) as [f|] eqn:Hget;
      [eauto | by destruct kind]. }
  assert (Hgeneral : ∀ threshold : float, ∃ results,
     screen utcnow stocks (Member kind) threshold = Ok results
     ∧ StronglySorted score_ge results
     ∧ symbol_and_score <$> results
       ≡ₚ filter (meets threshold)
            ((λ stock, (symbol stock, strategy_score kind stock)) <$> stocks)
     ∧ Forall (λ r, strategy r = Member kind
                    ∧ (threshold <=? float_of_Z (score r))%float = true
                    ∧ 0 ≤ score r ≤ 100) results).
  { intros threshold. destruct (Hscreen threshold) as (f & Hget & Hscore & ->).
    eexists. split; [done |]. split; [apply StronglySorted_sorted_reverse; apply _ |].
    assert (Hentries : symbol_and_score
              <$> sorted_reverse score_ge
                    (screen_loop utcnow f (Member kind) threshold 0 stocks)
            ≡ₚ filter (meets threshold)
                 ((λ stock, (symbol stock, strategy_score kind stock))
                    <$> stocks)).
    { rewrite sorted_reverse_Permutation, screen_loop_entries.
      replace ((λ stock, (symbol stock, strategy_score kind stock)) <$> stocks)
        with ((λ stock, (symbol stock, (f stock (analyze stock)).1)) <$> stocks);
        [done |].
      clear -Hscore. induction stocks as [|stock rest IH]; [done |].
      cbn [fmap list_fmap]. by rewrite Hscore, IH. }
    split; [exact Hentries |].
    apply Forall_forall. intros r Hr.
    assert (Hloop := screen_loop_results utcnow f (Member kind) threshold 0 stocks).
    rewrite <- (sorted_reverse_Permutation score_ge) in Hloop.
    rewrite Forall_forall in Hloop. destruct (Hloop r Hr) as [Hs Hpass].
    split; [done |]. split; [done |].
    assert (Hin : symbol_and_score r
                  ∈ symbol_and_score
                      <$> sorted_reverse score_ge
                            (screen_loop utcnow f (Member kind) threshold 0 stocks))
      by (by apply list_elem_of_fmap_2).
    rewrite Hentries in Hin. apply list_elem_of_filter in Hin as [_ Hin].
    apply list_elem_of_fmap in Hin as (stock & Heq & _).
    unfold symbol_and_score in Heq. inversion Heq as [[Hsym Hsc]].
    rewrite Hsc. apply strategy_score_range. }
  split; [|split].
  - intros threshold. destruct (Hgeneral threshold) as (rs & ? & ? & ? & Hall).
    exists rs. repeat split; try done.
    eapply Forall_impl; [exact Hall | by intros r (? & _)].
  - destruct (Hgeneral 0%float) as (rs & ? & ? & Hperm & Hall).
    exists rs. split; [done |]. rewrite Hperm, filter_all; [done |].
    apply Forall_fmap, Forall_forall. intros stock _.
    apply score_float_facts, strategy_score_range.
  - destruct (Hgeneral 100%float) as (rs & ? & ? & _ & Hall).
    exists rs. split; [done |].
    eapply Forall_impl; [exact Hall |].
    intros r (_ & Hpass & Hrange). by apply score_float_facts.
Qed.

(** ** Custom strategies: the fraction of rules satisfied *)

Lemma eval_rules_spec stock rules :
  ∀ i match_count matching_signals out,
    eval_rules rules i stock (analyze stock) match_count matching_signals out
    = (match_count
       + Z.of_nat (length (filter (λ r, rule_holds stock r = true) rules)),
       matching_signals
       ++ omap id (imap (λ j, matched_tag stock (i + j)) rules),
       out ++ omap id (imap (λ j, failure_line stock (i + j)) rules)).
Proof.
  induction rules as [|r rest IH]; intros i mc sigs out.
  { cbn. by rewrite Z.add_0_r, !app_nil_r. }
  cbn [eval_rules]. rewrite filter_cons, !imap_cons.
  rewrite (imap_ext ((λ j, matched_tag stock (i + j)) ∘ S)
             (λ j, matched_tag stock (S i + j)))
    by (intros; cbn; f_equal; lia).
  rewrite (imap_ext ((λ j, failure_line stock (i + j)) ∘ S)
             (λ j, failure_line stock (S i + j)))
    by (intros; cbn; f_equal; lia).
  rewrite Nat.add_0_r. unfold matched_tag at 1, failure_line at 1.
  destruct (r stock (analyze stock)) as [[|]|e] eqn:Hr; rewrite IH.
  - assert (Hholds : rule_holds stock r = true)
      by (unfold rule_holds; by rewrite Hr).
    rewrite decide_True, Hholds by done. cbn.
    rewrite <- !app_assoc. do 2 f_equal. lia.
  - assert (Hholds : rule_holds stock r = false)
      by (unfold rule_holds; by rewrite Hr).
    rewrite decide_False, Hholds by (by rewrite Hholds). done.
  - assert (Hholds : rule_holds stock r = false)
      by (unfold rule_holds; by rewrite Hr).
    rewrite decide_False, Hholds by (by rewrite Hholds). cbn.
    by rewrite <- !app_assoc.
Qed.

Section custom_loop_facts.
Variable utcnow : nat → Z.
Variable rules : list rule.
Variable threshold : float.
Hypothesis rules_nonempty : rules ≠ [].

Lemma custom_loop_spec stocks :
  ∀ i out, ∃ results,
    custom_loop utcnow rules threshold i stocks out
    = (out ++ concat (rule_failures rules <$> stocks), Ok results)
    ∧ symbol_and_fraction <$> results
      = filter (reaches threshold)
          ((λ stock, (symbol stock, fraction_score rules stock)) <$> stocks).
Proof.
  induction stocks as [|stock rest IH]; intros i out.
  { exists []. cbn. by rewrite app_nil_r. }
  cbn [custom_loop]. rewrite eval_rules_spec. cbn [Nat.add].
  unfold py_truediv.
  destruct (Z.of_nat (length rules) =? 0) eqn:Hlen.
  { destruct rules_nonempty. apply nil_length_inv. lia. }
  destruct (IH (S i) (out ++ omap id (imap (λ j, failure_line stock j) rules)))
    as (results & -> & Hentries).
  cbn [bind fmap list_fmap concat]. rewrite filter_cons.
  fold (rules_matched rules stock). rewrite Z.add_0_l.
  fold (fraction_score rules stock).
  eexists. split.
  { unfold rule_failures. by rewrite <- app_assoc. }
  case_decide as Hreach; unfold reaches in Hreach; cbn [snd] in Hreach.
  - rewrite Hreach. cbn [fmap list_fmap]. by rewrite Hentries.
  - apply not_true_is_false in Hreach. by rewrite Hreach.
Qed.
End custom_loop_facts.

Lemma custom_loop_strategy utcnow rules threshold stocks :
  ∀ i out out' results,
    custom_loop utcnow rules threshold i stocks out = (out', Ok results) →
    Forall (λ r, strategy r = Member VALUE_INVESTING) results.
Proof.
  induction stocks as [|stock rest IH]; intros i out out' results Hloop.
  { cbn in Hloop. by simplify_eq. }
  cbn [custom_loop] in Hloop.
  destruct (eval_rules _ _ _ _ _ _ _) as [[mc sigs] out1].
  destruct (py_truediv _ _) as [q|e]; [|done].
  destruct (custom_loop utcnow rules threshold (S i) rest out1)
    as [out2 [rs|e]] eqn:Hrest; cbn in Hloop; [|done].
  apply IH in Hrest. simplify_eq. case_match; [|done].
  by constructor.
Qed.

(** C2. For a registered custom strategy with at least one rule,
    [screen_with_custom_strategy] returns normally; the records it returns
    are those whose score reaches the threshold, and the score of a record is
    (count of rules returning true / total rule count) × 100, a raising rule
    counting as not matched; one line is printed for each raising rule of
    each stock, and every rule of every stock is evaluated.  With three rules
    of which exactly two return true the score is the float 2/3 × 100, which
    lies between 66.66 and 66.67. *)
Theorem custom_strategy_fraction_score (utcnow : nat → Z)
    (self : StrategyBuilder) (strategy_id : string) (strat : CustomStrategy)
    (stocks : list StockData) (threshold : float) (out : list string) :
  custom_strategies self !! strategy_id = Some strat →
  rules strat ≠ [] →
  ∃ results,
    screen_with_custom_strategy utcnow self stocks strategy_id threshold out
    = (out ++ concat (rule_failures (rules strat) <$> stocks), Ok results)
    ∧ symbol_and_fraction <$> results
      ≡ₚ filter (reaches threshold)
           ((λ stock, (symbol stock, fraction_score (rules strat) stock))
              <$> stocks)
    ∧ (∀ stock,
         length (rules strat) = 3%nat →
         rules_matched (rules strat) stock = 2 →
         fraction_score (rules strat) stock = (2 / 3 * 100)%float
         ∧ (66.66 <? fraction_score (rules strat) stock)%float = true
         ∧ (fraction_score (rules strat) stock <? 66.67)%float = true).
Proof.
  intros Hlookup Hrules. unfold screen_with_custom_strategy. rewrite Hlookup.
  destruct (custom_loop_spec utcnow (rules strat) threshold Hrules stocks 0 out)
    as (results & -> & Hentries).
  exists (sorted_reverse score_ge_float results). split; [done |]. split.
  - by rewrite sorted_reverse_Permutation, Hentries.
  - intros stock Hlen Hmatched. unfold fraction_score.
    rewrite Hlen, Hmatched. by vm_compute.
Qed.

Lemma custom_strategy_fraction_score_witness :
  two_of_three_builder.1 = "custom_two_of_three_0"
  ∧ ∃ results,
      screen_with_custom_strategy (λ i, Z.of_nat i) two_of_three_builder.2
        [debt_free; loss_maker] "custom_two_of_three_0" 50 []
      = ([] ++ concat (rule_failures (rules two_of_three)
                         <$> [debt_free; loss_maker]),
         Ok results)
      ∧ symbol_and_fraction <$> results
        ≡ₚ filter (reaches 50)
             ((λ stock, (symbol stock, fraction_score (rules two_of_three) stock))
                <$> [debt_free; loss_maker])
      ∧ (∀ stock,
           length (rules two_of_three) = 3%nat →
           rules_matched (rules two_of_three) stock = 2 →
           fraction_score (rules two_of_three) stock = (2 / 3 * 100)%float
           ∧ (66.66 <? fraction_score (rules two_of_three) stock)%float = true
           ∧ (fraction_score (rules two_of_three) stock <? 66.67)%float = true).
Proof.
  split; [reflexivity |].
  apply (custom_strategy_fraction_score (λ i, Z.of_nat i)
           two_of_three_builder.2 "custom_two_of_three_0" two_of_three).
  - reflexivity.
  - discriminate.
Defined.

(** The run of the scenario itself: both stocks score 2/3 × 100, both are
    returned, and the raising rule leaves one line per stock. *)
Example two_of_three_run :
  let '(out, results) :=
    screen_with_custom_strategy (λ i, Z.of_nat i) two_of_three_builder.2
      [debt_free; loss_maker] "custom_two_of_three_0" 50 [] in
  out = ["Error evaluating rule 1: division by zero";
         "Error evaluating rule 1: division by zero"]
  ∧ (rs ←! results; Ok (symbol_and_fraction <$> rs))
    = Ok [("FREE", (2 / 3 * 100)%float); ("LOSS", (2 / 3 * 100)%float)]
  ∧ (rs ←! results; Ok (res_signals <$> rs))
    = Ok [["RULE_0"; "RULE_2"]; ["RULE_0"; "RULE_2"]].
Proof. vm_compute. done. Qed.

(** C9. A registered custom strategy with an empty rule list makes
    [screen_with_custom_strategy] raise [ZeroDivisionError] on every
    non-empty list of stocks. *)
Theorem empty_rules_zero_division (utcnow : nat → Z)
    (self : StrategyBuilder) (strategy_id : string) (strat : CustomStrategy)
    (stocks : list StockData) (threshold : float) (out : list string) :
  custom_strategies self !! strategy_id = Some strat →
  rules strat = [] →
  stocks ≠ [] →
  screen_with_custom_strategy utcnow self stocks strategy_id threshold out
  = (out, Raise ZeroDivisionError).
Proof.
  intros Hlookup Hrules Hstocks. unfold screen_with_custom_strategy.
  rewrite Hlookup, Hrules. destruct stocks as [|stock rest]; [done |].
  reflexivity.
Qed.

Lemma empty_rules_zero_division_witness :
  no_rules_builder.1 = "custom_empty_0"
  ∧ screen_with_custom_strategy (λ i, Z.of_nat i) no_rules_builder.2
      [debt_free] "custom_empty_0" 50 []
    = ([], Raise ZeroDivisionError).
Proof.
  split; [reflexivity |].
  apply (empty_rules_zero_division (λ i, Z.of_nat i) no_rules_builder.2
           "custom_empty_0"
           {| name := "empty"; rules := []; created_at := 0 |}).
  - reflexivity.
  - reflexivity.
  - discriminate.
Defined.

(** C10. Every result of [screen_with_custom_strategy] has its [strategy]
    field equal to [ScreeningStrategy.VALUE_INVESTING], whichever custom
    strategy was screened. *)
Theorem custom_results_tagged_value_investing (utcnow : nat → Z)
    (self : StrategyBuilder) (stocks : list StockData) (strategy_id : string)
    (threshold : float) (out out' : list string)
    (results : list (ScreeningResult float)) :
  screen_with_custom_strategy utcnow self stocks strategy_id threshold out
  = (out', Ok results) →
  Forall (λ r, strategy r = Member VALUE_INVESTING) results.
Proof.
  unfold screen_with_custom_strategy. intros Hrun.
  destruct (custom_strategies self !! strategy_id) as [strat|]; [|done].
  destruct (custom_loop utcnow (rules strat) threshold 0 stocks out)
    as [out1 [rs|e]] eqn:Hloop; cbn in Hrun; [|done].
  apply custom_loop_strategy in Hloop. simplify_eq.
  by rewrite sorted_reverse_Permutation.
Qed.

Lemma custom_results_tagged_value_investing_witness :
  length two_of_three_results = 2%nat
  ∧ Forall (λ r, strategy r = Member VALUE_INVESTING) two_of_three_results.
Proof.
  split; [reflexivity |].
  apply (custom_results_tagged_value_investing (λ i, Z.of_nat i)
           two_of_three_builder.2 [debt_free; loss_maker]
           "custom_two_of_three_0" 50 []
           ["Error evaluating rule 1: division by zero";
            "Error evaluating rule 1: division by zero"]).
  reflexivity.
Defined.

(** ** The criteria filter *)

Lemma metric_map_identity (metric : string) :
  default metric (metric_map !! metric) = metric.
Proof.
  destruct (metric_map !! metric) as [actual|] eqn:Hmap; [|done].
  apply elem_of_list_to_map_2 in Hmap. cbn.
  repeat (apply elem_of_cons in Hmap as [Hmap|Hmap]; [by simplify_eq |]).
  by apply elem_of_nil in Hmap.
Qed.

(** A field that the metrics dictionary does not shadow holds a number,
    unless it is [symbol]. *)
Lemma unshadowed_field stock (field : string) (value : pyval) :
  calculate_all_metrics stock !! field = None →
  stock_fields stock !! field = Some value →
  (∃ x, value = VFloat x) ∨ (∃ z, value = VInt z)
  ∨ (field = "symbol" ∧ ∃ s, value = VStr s).
Proof.
  intros Hmetrics Hfield. apply elem_of_list_to_map_2 in Hfield.
  repeat (apply elem_of_cons in Hfield as [Hfield|Hfield];
          [simplify_eq; first [discriminate Hmetrics | eauto 6] |]).
  by apply elem_of_nil in Hfield.
Qed.

Lemma check_criteria_spec other stock (criteria : Criteria) :
  Forall (no_bound_on_non_number other) criteria →
  check_criteria other stock (metrics (analyze stock)) criteria
  = Ok (forallb (criterion_passes stock) criteria).
Proof.
  induction 1 as [|[metric bounds] rest Hhead _ IH]; [done |].
  cbn [check_criteria forallb].
  unfold resolve, getattr_stock, criterion_passes at 1.
  rewrite metric_map_identity. cbn [fst snd].
  unfold no_bound_on_non_number in Hhead. cbn [fst snd] in Hhead.
  destruct (metrics (analyze stock) !! metric) as [x|] eqn:Hmetrics.
  { unfold within_bounds. cbn [py_lt py_gt].
    destruct (bmin bounds) as [lo|], (bmax bounds) as [hi|]; cbn;
      repeat case_match; cbn; done. }
  destruct (stock_fields stock !! metric) as [value|] eqn:Hfield.
  - destruct (unshadowed_field stock metric value Hmetrics Hfield)
      as [[x ->]|[[z ->]|[-> [s ->]]]].
    + unfold within_bounds. cbn [py_lt py_gt].
      destruct (bmin bounds) as [lo|], (bmax bounds) as [hi|]; cbn;
        repeat case_match; cbn; done.
    + unfold int_within_bounds. cbn [py_lt py_gt].
      destruct (bmin bounds) as [lo|], (bmax bounds) as [hi|];
        cbn [bind negb andb];
        repeat match goal with
               | |- context [int_lt_float ?z ?lo] =>
                   destruct (int_lt_float z lo); cbn [bind negb andb]
               | |- context [float_lt_int ?hi ?z] =>
                   destruct (float_lt_int hi z); cbn [bind negb andb]
               end; done.
    + destruct Hhead as [-> ->]; [by left |]. done.
  - destruct (other metric) eqn:Hother; [|done].
    destruct Hhead as [-> ->]; [by right |]. done.
Qed.

(** An integer is compared with a float bound by its exact value: [2^63] is
    not below 1, [2^53 + 1] is above [2^53], which as a float it would not
    be, and no integer is above or below a NaN. *)
Example integers_compared_exactly :
  py_lt (VInt (2 ^ 63)) 1 = Ok false
  ∧ py_gt (VInt (2 ^ 53 + 1)) 9007199254740992 = Ok true
  ∧ py_gt (VInt (2 ^ 53)) 9007199254740992 = Ok false
  ∧ py_lt (VInt (2 ^ 53 - 1)) 9007199254740992 = Ok true
  ∧ py_lt (VInt 2) 2.5 = Ok true
  ∧ py_gt (VInt 3) 2.5 = Ok true
  ∧ py_lt (VInt (-3)) (-2.5) = Ok true
  ∧ py_gt (VInt 100) 100 = Ok false
  ∧ py_lt (VInt 0) (-0) = Ok false
  ∧ py_lt (VInt (2 ^ 63)) infinity = Ok true
  ∧ py_gt (VInt (- 2 ^ 63)) neg_infinity = Ok true
  ∧ py_lt (VInt 1) nan = Ok false
  ∧ py_gt (VInt 1) nan = Ok false
  ∧ _apply_criteria object_attributes [many_shares]
      [("shares_outstanding", {| bmin := Some 1%float; bmax := None |})]
    = Ok [many_shares].
Proof. split_and!; reflexivity. Qed.

(** C4, as stated, fails: a criterion with a bound on [symbol] resolves to
    the record's string field, the comparison with the bound raises
    [TypeError], and no list is returned. *)
Lemma criteria_filter_symbol_counterexample :
  _apply_criteria object_attributes [pe_fifteen; pe_twenty_five]
    symbol_at_least_zero
  = Raise TypeError
  ∧ _apply_criteria object_attributes [pe_fifteen; pe_twenty_five]
      symbol_at_least_zero
    ≠ Ok (filter (passes_all symbol_at_least_zero)
            [pe_fifteen; pe_twenty_five]).
Proof. split; [reflexivity | discriminate]. Qed.

(** C4, amended.  When no criterion puts a bound on an attribute that holds
    no number (the string field [symbol], or an attribute that is not a
    field), the criteria filter returns, in input order, the records for
    which every criterion passes; a criterion is checked against the computed
    metric of that name, else against the record field of that name, and is
    skipped when there is neither.  With [{'pe_ratio': {'max': 20}}] over a
    P/E 15 and a P/E 25 stock only the former is kept. *)
Theorem criteria_filter_conjunctive (has_other_attribute : string → bool)
    (stocks : list StockData) (criteria : Criteria) :
  Forall (no_bound_on_non_number has_other_attribute) criteria →
  _apply_criteria has_other_attribute stocks criteria
  = Ok (filter (passes_all criteria) stocks)
  ∧ _apply_criteria has_other_attribute [pe_fifteen; pe_twenty_five]
      pe_at_most_twenty
    = Ok [pe_fifteen].
Proof.
  intros Hcriteria. split; [|reflexivity].
  induction stocks as [|stock rest IH]; [done |].
  cbn [_apply_criteria]. rewrite check_criteria_spec, IH by done.
  cbn [bind]. rewrite filter_cons.
  case_decide as Hpass; unfold passes_all in Hpass.
  - by rewrite Hpass.
  - apply not_true_is_false in Hpass. by rewrite Hpass.
Qed.

Lemma mixed_criteria_no_bound_on_non_number :
  Forall (no_bound_on_non_number object_attributes) mixed_criteria.
Proof.
  unfold mixed_criteria.
  repeat (apply Forall_cons_2;
          [ first [ by (intros _; split)
                  | intros [H|H]; [discriminate H | by vm_compute in H] ] |]).
  apply Forall_nil_2.
Defined.

Lemma criteria_filter_conjunctive_witness :
  filter (passes_all mixed_criteria) [pe_fifteen; pe_twenty_five; debt_free; many_shares]
  = [pe_fifteen; many_shares]
  ∧ _apply_criteria object_attributes
      [pe_fifteen; pe_twenty_five; debt_free; many_shares] mixed_criteria
    = Ok (filter (passes_all mixed_criteria)
            [pe_fifteen; pe_twenty_five; debt_free; many_shares])
  ∧ _apply_criteria object_attributes [pe_fifteen; pe_twenty_five]
      pe_at_most_twenty
    = Ok [pe_fifteen].
Proof.
  split; [reflexivity |].
  apply (criteria_filter_conjunctive object_attributes
           [pe_fifteen; pe_twenty_five; debt_free; many_shares] mixed_criteria).
  exact mixed_criteria_no_bound_on_non_number.
Defined.

(** ** Where the [+infinity] sentinel lands in the bands *)

Ltac read_metrics :=
  rewrite ?lookup_total_insert_eq;
  rewrite ?lookup_total_insert_ne by discriminate.

Ltac band_cases :=
  read_metrics; eval_infinity; cbv zeta iota;
  repeat case_match; try lia; simplify_eq/=; lia.

Section sentinel.
Variable stock : StockData.
Variable M : gmap string float.
Variable analysis : Analysis.
Variable x : float.

(** *** [pe_ratio] *)

Lemma valuation_pe_infinite_lowest :
  _calculate_valuation_score (<["pe_ratio" := infinity]> M)
  ≤ _calculate_valuation_score (<["pe_ratio" := x]> M).
Proof. cbv beta delta [_calculate_valuation_score]. band_cases. Qed.

Lemma signals_pe_infinite :
  ("OVERVALUED_PE" ∈ _generate_signals stock (<["pe_ratio" := infinity]> M))
  ∧ ("UNDERVALUED_PE" ∉ _generate_signals stock (<["pe_ratio" := infinity]> M)).
Proof.
  destruct (infinite_pe_signals stock (<["pe_ratio" := infinity]> M)); [|done].
  apply lookup_total_insert_eq.
Qed.

Lemma screen_value_pe_infinite_lowest :
  (_screen_value stock (with_metric "pe_ratio" infinity analysis)).1
  ≤ (_screen_value stock (with_metric "pe_ratio" x analysis)).1.
Proof.
  cbv beta delta [_screen_value with_metric]. cbn [metrics]. band_cases.
Qed.

Lemma screen_contrarian_pe_infinite_lowest :
  (_screen_contrarian stock (with_metric "pe_ratio" infinity analysis)).1
  ≤ (_screen_contrarian stock (with_metric "pe_ratio" x analysis)).1.
Proof.
  cbv beta delta [_screen_contrarian with_metric].
  cbn [metrics valuation_score]. band_cases.
Qed.

(** *** [pb_ratio] *)

Lemma valuation_pb_infinite_lowest :
  _calculate_valuation_score (<["pb_ratio" := infinity]> M)
  ≤ _calculate_valuation_score (<["pb_ratio" := x]> M).
Proof. cbv beta delta [_calculate_valuation_score]. band_cases. Qed.

Lemma signals_pb_infinite :
  ("OVERVALUED_BOOK" ∈ _generate_signals stock (<["pb_ratio" := infinity]> M))
  ∧ ("UNDERVALUED_BOOK"
     ∉ _generate_signals stock (<["pb_ratio" := infinity]> M)).
Proof.
  rewrite generate_signals_blocks. read_metrics. eval_infinity.
  split; [tag_present | tag_absent].
Qed.

Lemma screen_value_pb_infinite_lowest :
  (_screen_value stock (with_metric "pb_ratio" infinity analysis)).1
  ≤ (_screen_value stock (with_metric "pb_ratio" x analysis)).1.
Proof.
  cbv beta delta [_screen_value with_metric]. cbn [metrics]. band_cases.
Qed.

Lemma screen_contrarian_pb_infinite_lowest :
  (_screen_contrarian stock (with_metric "pb_ratio" infinity analysis)).1
  ≤ (_screen_contrarian stock (with_metric "pb_ratio" x analysis)).1.
Proof.
  cbv beta delta [_screen_contrarian with_metric].
  cbn [metrics valuation_score]. band_cases.
Qed.

(** *** [price_to_sales] *)

Lemma valuation_ps_infinite_lowest :
  _calculate_valuation_score (<["price_to_sales" := infinity]> M)
  ≤ _calculate_valuation_score (<["price_to_sales" := x]> M).
Proof. cbv beta delta [_calculate_valuation_score]. band_cases. Qed.

Lemma screen_value_ps_infinite_lowest :
  (_screen_value stock (with_metric "price_to_sales" infinity analysis)).1
  ≤ (_screen_value stock (with_metric "price_to_sales" x analysis)).1.
Proof.
  cbv beta delta [_screen_value with_metric]. cbn [metrics]. band_cases.
Qed.

(** *** [peg_ratio] *)

Lemma growth_peg_infinite_lowest :
  _calculate_growth_score stock (<["peg_ratio" := infinity]> M)
  ≤ _calculate_growth_score stock (<["peg_ratio" := x]> M).
Proof. cbv beta delta [_calculate_growth_score]. band_cases. Qed.

Lemma screen_growth_peg_infinite_lowest :
  (_screen_growth stock (with_metric "peg_ratio" infinity analysis)).1
  ≤ (_screen_growth stock (with_metric "peg_ratio" x analysis)).1.
Proof.
  cbv beta delta [_screen_growth with_metric]. cbn [metrics]. band_cases.
Qed.

(** *** [debt_to_equity] *)

Lemma quality_debt_infinite_lowest :
  _calculate_quality_score (<["debt_to_equity" := infinity]> M)
  ≤ _calculate_quality_score (<["debt_to_equity" := x]> M).
Proof. cbv beta delta [_calculate_quality_score]. band_cases. Qed.

Lemma risk_debt_infinite_highest :
  _calculate_risk_score stock (<["debt_to_equity" := x]> M)
  ≤ _calculate_risk_score stock (<["debt_to_equity" := infinity]> M).
Proof. cbv beta delta [_calculate_risk_score]. band_cases. Qed.

Lemma strength_debt_infinite_lowest :
  strength_score stock (<["debt_to_equity" := infinity]> M)
  ≤ strength_score stock (<["debt_to_equity" := x]> M).
Proof. cbv beta delta [strength_score]. band_cases. Qed.

Lemma signals_debt_infinite :
  ("HIGH_DEBT" ∈ _generate_signals stock (<["debt_to_equity" := infinity]> M))
  ∧ ("LOW_DEBT" ∉ _generate_signals stock (<["debt_to_equity" := infinity]> M)).
Proof.
  rewrite generate_signals_blocks. read_metrics. eval_infinity.
  split; [tag_present | tag_absent].
Qed.

Lemma screen_dividend_debt_infinite_lowest :
  (_screen_dividend stock (with_metric "debt_to_equity" infinity analysis)).1
  ≤ (_screen_dividend stock (with_metric "debt_to_equity" x analysis)).1.
Proof.
  cbv beta delta [_screen_dividend with_metric]. cbn [metrics]. band_cases.
Qed.

Lemma screen_quality_debt_infinite_lowest :
  (_screen_quality stock (with_metric "debt_to_equity" infinity analysis)).1
  ≤ (_screen_quality stock (with_metric "debt_to_equity" x analysis)).1.
Proof.
  cbv beta delta [_screen_quality with_metric].
  cbn [metrics quality_score]. band_cases.
Qed.

(** *** [current_ratio]: the sentinel is above every cut-off *)

Lemma quality_current_infinite_highest :
  _calculate_quality_score (<["current_ratio" := x]> M)
  ≤ _calculate_quality_score (<["current_ratio" := infinity]> M).
Proof. cbv beta delta [_calculate_quality_score]. band_cases. Qed.

Lemma risk_current_infinite_lowest :
  _calculate_risk_score stock (<["current_ratio" := infinity]> M)
  ≤ _calculate_risk_score stock (<["current_ratio" := x]> M).
Proof. cbv beta delta [_calculate_risk_score]. band_cases. Qed.

Lemma strength_current_infinite_highest :
  strength_score stock (<["current_ratio" := x]> M)
  ≤ strength_score stock (<["current_ratio" := infinity]> M).
Proof. cbv beta delta [strength_score]. band_cases. Qed.

Lemma signals_current_infinite :
  ("STRONG_LIQUIDITY"
   ∈ _generate_signals stock (<["current_ratio" := infinity]> M))
  ∧ ("WEAK_LIQUIDITY"
     ∉ _generate_signals stock (<["current_ratio" := infinity]> M)).
Proof.
  rewrite generate_signals_blocks. read_metrics. eval_infinity.
  split; [tag_present | tag_absent].
Qed.

Lemma screen_quality_current_infinite_highest :
  (_screen_quality stock (with_metric "current_ratio" x analysis)).1
  ≤ (_screen_quality stock (with_metric "current_ratio" infinity analysis)).1.
Proof.
  cbv beta delta [_screen_quality with_metric].
  cbn [metrics quality_score]. band_cases.
Qed.

(** *** [interest_coverage]: read by no band and no signal rule *)

Ltac unread := read_metrics; reflexivity.

Lemma interest_coverage_unread_by_analyzer :
  _generate_signals stock (<["interest_coverage" := x]> M)
  = _generate_signals stock M
  ∧ _calculate_risk_score stock (<["interest_coverage" := x]> M)
    = _calculate_risk_score stock M
  ∧ strength_score stock (<["interest_coverage" := x]> M)
    = strength_score stock M
  ∧ _calculate_valuation_score (<["interest_coverage" := x]> M)
    = _calculate_valuation_score M
  ∧ _calculate_quality_score (<["interest_coverage" := x]> M)
    = _calculate_quality_score M
  ∧ _calculate_growth_score stock (<["interest_coverage" := x]> M)
    = _calculate_growth_score stock M.
Proof.
  repeat split.
  - rewrite !generate_signals_blocks. unread.
  - cbv beta delta [_calculate_risk_score]. unread.
  - cbv beta delta [strength_score]. unread.
  - cbv beta delta [_calculate_valuation_score]. unread.
  - cbv beta delta [_calculate_quality_score]. unread.
  - cbv beta delta [_calculate_growth_score]. unread.
Qed.

Lemma interest_coverage_unread_by_scorers :
  Forall (λ screening_func : scorer,
            screening_func stock (with_metric "interest_coverage" x analysis)
            = screening_func stock analysis)
    [_screen_value; _screen_growth; _screen_dividend; _screen_momentum;
     _screen_quality; _screen_contrarian].
Proof.
  repeat (apply Forall_cons; split); [| | | | | | by apply Forall_nil].
  - cbv beta delta [_screen_value with_metric]. cbn [metrics]. unread.
  - cbv beta delta [_screen_growth with_metric]. cbn [metrics]. unread.
  - cbv beta delta [_screen_dividend with_metric]. cbn [metrics]. unread.
  - cbv beta delta [_screen_momentum with_metric]. cbn [momentum_score].
    reflexivity.
  - cbv beta delta [_screen_quality with_metric].
    cbn [metrics quality_score]. unread.
  - cbv beta delta [_screen_contrarian with_metric].
    cbn [metrics valuation_score]. unread.
Qed.
End sentinel.

(** C5, as stated, fails for [current_ratio]: with no liabilities the ratio
    is [+infinity], which is above the cut-off 2 and so gets the most
    favourable band: +10 quality points as for a ratio of 3, where the least
    favourable band (a ratio of 0.5) would take 20 away; no liquidity risk;
    and the [STRONG_LIQUIDITY] signal. *)
Lemma infinite_current_ratio_counterexample :
  (total_liabilities no_liabilities <=? 0)%float = true
  ∧ metrics (analyze no_liabilities) !!! "current_ratio" = infinity
  ∧ quality_score (analyze no_liabilities) = 80
  ∧ _calculate_quality_score
      (<["current_ratio" := 3%float]> (metrics (analyze no_liabilities))) = 80
  ∧ _calculate_quality_score
      (<["current_ratio" := 0.5%float]> (metrics (analyze no_liabilities))) = 50
  ∧ risk_score (analyze no_liabilities) = 10
  ∧ _calculate_risk_score no_liabilities
      (<["current_ratio" := 0.5%float]> (metrics (analyze no_liabilities))) = 35
  ∧ signals (analyze no_liabilities) = ["STRONG_LIQUIDITY"; "LOW_DEBT"]
  ∧ ¬ (quality_score (analyze no_liabilities)
       ≤ _calculate_quality_score
           (<["current_ratio" := 0.5%float]>
              (metrics (analyze no_liabilities)))).
Proof.
  repeat split; try (vm_compute; reflexivity).
  vm_compute. intros H. apply H. reflexivity.
Qed.

(** C5, amended.  In every score of the analyzer and of the six built-in
    scorers, and in the signal rules, that read it, a [+infinity] value of
    [pe_ratio], [pb_ratio], [price_to_sales], [peg_ratio] or [debt_to_equity]
    gets the least favourable band: no score is lower (no risk is higher)
    for any other value [x] of the metric, and the signals are
    [OVERVALUED_PE], [OVERVALUED_BOOK] and [HIGH_DEBT].  A [+infinity]
    [current_ratio] gets the most favourable band: no quality or strength
    score is higher, no risk lower, and the signal is [STRONG_LIQUIDITY].
    [interest_coverage] is read by no score and no signal rule.  Each
    comparison changes the one metric and keeps every other input of the
    function as it is. *)
Theorem infinity_sentinel_bands (stock : StockData) (M : gmap string float)
    (analysis : Analysis) (x : float) :
  (* pe_ratio *)
  (_calculate_valuation_score (<["pe_ratio" := infinity]> M)
   ≤ _calculate_valuation_score (<["pe_ratio" := x]> M)
   ∧ (_screen_value stock (with_metric "pe_ratio" infinity analysis)).1
     ≤ (_screen_value stock (with_metric "pe_ratio" x analysis)).1
   ∧ (_screen_contrarian stock (with_metric "pe_ratio" infinity analysis)).1
     ≤ (_screen_contrarian stock (with_metric "pe_ratio" x analysis)).1
   ∧ ("OVERVALUED_PE" ∈ _generate_signals stock (<["pe_ratio" := infinity]> M))
   ∧ ("UNDERVALUED_PE"
      ∉ _generate_signals stock (<["pe_ratio" := infinity]> M)))
  (* pb_ratio *)
  ∧ (_calculate_valuation_score (<["pb_ratio" := infinity]> M)
     ≤ _calculate_valuation_score (<["pb_ratio" := x]> M)
     ∧ (_screen_value stock (with_metric "pb_ratio" infinity analysis)).1
       ≤ (_screen_value stock (with_metric "pb_ratio" x analysis)).1
     ∧ (_screen_contrarian stock (with_metric "pb_ratio" infinity analysis)).1
       ≤ (_screen_contrarian stock (with_metric "pb_ratio" x analysis)).1
     ∧ ("OVERVALUED_BOOK"
        ∈ _generate_signals stock (<["pb_ratio" := infinity]> M))
     ∧ ("UNDERVALUED_BOOK"
        ∉ _generate_signals stock (<["pb_ratio" := infinity]> M)))
  (* price_to_sales *)
  ∧ (_calculate_valuation_score (<["price_to_sales" := infinity]> M)
     ≤ _calculate_valuation_score (<["price_to_sales" := x]> M)
     ∧ (_screen_value stock (with_metric "price_to_sales" infinity analysis)).1
       ≤ (_screen_value stock (with_metric "price_to_sales" x analysis)).1)
  (* peg_ratio *)
  ∧ (_calculate_growth_score stock (<["peg_ratio" := infinity]> M)
     ≤ _calculate_growth_score stock (<["peg_ratio" := x]> M)
     ∧ (_screen_growth stock (with_metric "peg_ratio" infinity analysis)).1
       ≤ (_screen_growth stock (with_metric "peg_ratio" x analysis)).1)
  (* debt_to_equity *)
  ∧ (_calculate_quality_score (<["debt_to_equity" := infinity]> M)
     ≤ _calculate_quality_score (<["debt_to_equity" := x]> M)
     ∧ _calculate_risk_score stock (<["debt_to_equity" := x]> M)
       ≤ _calculate_risk_score stock (<["debt_to_equity" := infinity]> M)
     ∧ strength_score stock (<["debt_to_equity" := infinity]> M)
       ≤ strength_score stock (<["debt_to_equity" := x]> M)
     ∧ (_screen_dividend stock
          (with_metric "debt_to_equity" infinity analysis)).1
       ≤ (_screen_dividend stock (with_metric "debt_to_equity" x analysis)).1
     ∧ (_screen_quality stock
          (with_metric "debt_to_equity" infinity analysis)).1
       ≤ (_screen_quality stock (with_metric "debt_to_equity" x analysis)).1
     ∧ ("HIGH_DEBT"
        ∈ _generate_signals stock (<["debt_to_equity" := infinity]> M))
     ∧ ("LOW_DEBT"
        ∉ _generate_signals stock (<["debt_to_equity" := infinity]> M)))
  (* current_ratio *)
  ∧ (_calculate_quality_score (<["current_ratio" := x]> M)
     ≤ _calculate_quality_score (<["current_ratio" := infinity]> M)
     ∧ _calculate_risk_score stock (<["current_ratio" := infinity]> M)
       ≤ _calculate_risk_score stock (<["current_ratio" := x]> M)
     ∧ strength_score stock (<["current_ratio" := x]> M)
       ≤ strength_score stock (<["current_ratio" := infinity]> M)
     ∧ (_screen_quality stock (with_metric "current_ratio" x analysis)).1
       ≤ (_screen_quality stock
            (with_metric "current_ratio" infinity analysis)).1
     ∧ ("STRONG_LIQUIDITY"
        ∈ _generate_signals stock (<["current_ratio" := infinity]> M))
     ∧ ("WEAK_LIQUIDITY"
        ∉ _generate_signals stock (<["current_ratio" := infinity]> M)))
  (* interest_coverage *)
  ∧ (_generate_signals stock (<["interest_coverage" := x]> M)
     = _generate_signals stock M
     ∧ _calculate_risk_score stock (<["interest_coverage" := x]> M)
       = _calculate_risk_score stock M
     ∧ strength_score stock (<["interest_coverage" := x]> M)
       = strength_score stock M
     ∧ _calculate_valuation_score (<["interest_coverage" := x]> M)
       = _calculate_valuation_score M
     ∧ _calculate_quality_score (<["interest_coverage" := x]> M)
       = _calculate_quality_score M
     ∧ _calculate_growth_score stock (<["interest_coverage" := x]> M)
       = _calculate_growth_score stock M
     ∧ Forall (λ screening_func : scorer,
                 screening_func stock
                   (with_metric "interest_coverage" x analysis)
                 = screening_func stock analysis)
         [_screen_value; _screen_growth; _screen_dividend; _screen_momentum;
          _screen_quality; _screen_contrarian]).
Proof.
  split_and!.
  - exact (valuation_pe_infinite_lowest M x).
  - exact (screen_value_pe_infinite_lowest stock analysis x).
  - exact (screen_contrarian_pe_infinite_lowest stock analysis x).
  - exact (proj1 (signals_pe_infinite stock M)).
  - exact (proj2 (signals_pe_infinite stock M)).
  - exact (valuation_pb_infinite_lowest M x).
  - exact (screen_value_pb_infinite_lowest stock analysis x).
  - exact (screen_contrarian_pb_infinite_lowest stock analysis x).
  - exact (proj1 (signals_pb_infinite stock M)).
  - exact (proj2 (signals_pb_infinite stock M)).
  - exact (valuation_ps_infinite_lowest M x).
  - exact (screen_value_ps_infinite_lowest stock analysis x).
  - exact (growth_peg_infinite_lowest stock M x).
  - exact (screen_growth_peg_infinite_lowest stock analysis x).
  - exact (quality_debt_infinite_lowest M x).
  - exact (risk_debt_infinite_highest stock M x).
  - exact (strength_debt_infinite_lowest stock M x).
  - exact (screen_dividend_debt_infinite_lowest stock analysis x).
  - exact (screen_quality_debt_infinite_lowest stock analysis x).
  - exact (proj1 (signals_debt_infinite stock M)).
  - exact (proj2 (signals_debt_infinite stock M)).
  - exact (quality_current_infinite_highest M x).
  - exact (risk_current_infinite_lowest stock M x).
  - exact (strength_current_infinite_highest stock M x).
  - exact (screen_quality_current_infinite_highest stock analysis x).
  - exact (proj1 (signals_current_infinite stock M)).
  - exact (proj2 (signals_current_infinite stock M)).
  - apply (interest_coverage_unread_by_analyzer stock M x).
  - apply (interest_coverage_unread_by_analyzer stock M x).
  - apply (interest_coverage_unread_by_analyzer stock M x).
  - apply (interest_coverage_unread_by_analyzer stock M x).
  - apply (interest_coverage_unread_by_analyzer stock M x).
  - apply (interest_coverage_unread_by_analyzer stock M x).
  - exact (interest_coverage_unread_by_scorers stock analysis x).
Qed.

(** ** Order of floats *)

Lemma SFleb_trans a b c :
  SFleb a b = true → SFleb b c = true → SFleb a c = true.
Proof.
  unfold SFleb, SFcompare.
  destruct a as [sa|sa| |sa ma ea], b as [sb|sb| |sb mb eb],
    c as [sc|sc| |sc mc ec];
    repeat match goal with s : bool |- _ => destruct s end;
    try (cbn; congruence).
  all: change (Pos.compare_cont Eq) with Pos.compare.
  all: destruct (Z.compare_spec ea eb), (Z.compare_spec eb ec),
         (Z.compare_spec ea ec); try lia; try (cbn; congruence); subst.
  all: destruct (Pos.compare_spec ma mb), (Pos.compare_spec mb mc),
         (Pos.compare_spec ma mc); try lia; cbn; congruence.
Qed.

Lemma float_leb_trans (a b c : float) :
  (a <=? b)%float = true → (b <=? c)%float = true → (a <=? c)%float = true.
Proof. rewrite !leb_spec. apply SFleb_trans. Qed.

Lemma SFltb_not_leb a b : SFltb a b = true → SFleb b a = false.
Proof.
  unfold SFleb, SFltb, SFcompare.
  destruct a as [sa|sa| |sa ma ea], b as [sb|sb| |sb mb eb];
    repeat match goal with s : bool |- _ => destruct s end;
    try (cbn; congruence).
  all: change (Pos.compare_cont Eq) with Pos.compare.
  all: rewrite (Z.compare_antisym ea eb), (Pos.compare_antisym ma mb).
  all: destruct (ea ?= eb), (ma ?= mb)%positive; cbn; congruence.
Qed.

Lemma float_ltb_not_leb (a b : float) :
  (a <? b)%float = true → (b <=? a)%float = false.
Proof. rewrite ltb_spec, leb_spec. apply SFltb_not_leb. Qed.

Lemma float_not_leb_not_eqb (a b : float) :
  (a <=? b)%float = false → (a =? b)%float = false.
Proof.
  rewrite leb_spec, FloatAxioms.eqb_spec. unfold SFleb, SFeqb.
  destruct (SFcompare _ _) as [[]|]; congruence.
Qed.

Lemma float_ltb_not_eqb (a b : float) :
  (a <? b)%float = true → (b =? a)%float = false.
Proof. intros H. by apply float_not_leb_not_eqb, float_ltb_not_leb. Qed.

(** ** The calculator never divides by zero *)

Lemma py_fdiv_guarded (a b : float) :
  (b <=? 0)%float = false → py_fdiv a b = Ok (a / b)%float.
Proof. intros H. unfold py_fdiv. by rewrite float_not_leb_not_eqb. Qed.

Lemma py_fdiv_positive (a b : float) :
  (0 <? b)%float = true → py_fdiv a b = Ok (a / b)%float.
Proof. intros H. unfold py_fdiv. by rewrite float_ltb_not_eqb. Qed.

Ltac guarded_division f g :=
  intros; unfold f, g;
  repeat match goal with
  | |- context [if ?c then _ else _] =>
      let H := fresh "Hguard" in destruct c eqn:H
  end;
  rewrite ?py_fdiv_guarded by done; rewrite ?py_fdiv_positive by done;
  reflexivity.

Section no_division_by_zero.
Variable stock : StockData.

Lemma pe_ratio_no_error :
  Raising._calculate_pe_ratio stock = Ok (_calculate_pe_ratio stock).
Proof. guarded_division Raising._calculate_pe_ratio _calculate_pe_ratio. Qed.

Lemma pb_ratio_no_error :
  Raising._calculate_pb_ratio stock = Ok (_calculate_pb_ratio stock).
Proof. guarded_division Raising._calculate_pb_ratio _calculate_pb_ratio. Qed.

Lemma peg_ratio_no_error :
  Raising._calculate_peg_ratio stock = Ok (_calculate_peg_ratio stock).
Proof.
  unfold Raising._calculate_peg_ratio, _calculate_peg_ratio.
  destruct (0 <? eps stock)%float eqn:Heps;
    [rewrite py_fdiv_positive by done|]; cbn [bind];
    (destruct (earnings_growth stock <=? 0)%float eqn:Hgrowth;
     [done | by rewrite py_fdiv_guarded]).
Qed.

Lemma price_to_sales_no_error :
  Raising._calculate_price_to_sales stock = Ok (_calculate_price_to_sales stock).
Proof.
  guarded_division Raising._calculate_price_to_sales _calculate_price_to_sales.
Qed.

Lemma roe_no_error : Raising._calculate_roe stock = Ok (_calculate_roe stock).
Proof. guarded_division Raising._calculate_roe _calculate_roe. Qed.

Lemma roa_no_error : Raising._calculate_roa stock = Ok (_calculate_roa stock).
Proof. guarded_division Raising._calculate_roa _calculate_roa. Qed.

Lemma net_margin_no_error :
  Raising._calculate_net_margin stock = Ok (_calculate_net_margin stock).
Proof. guarded_division Raising._calculate_net_margin _calculate_net_margin. Qed.

Lemma gross_margin_no_error :
  Raising._calculate_gross_margin stock = Ok (_calculate_gross_margin stock).
Proof.
  guarded_division Raising._calculate_gross_margin _calculate_gross_margin.
Qed.

Lemma operating_margin_no_error :
  Raising._calculate_operating_margin stock
  = Ok (_calculate_operating_margin stock).
Proof.
  guarded_division Raising._calculate_operating_margin
    _calculate_operating_margin.
Qed.

Lemma roic_no_error : Raising._calculate_roic stock = Ok (_calculate_roic stock).
Proof. guarded_division Raising._calculate_roic _calculate_roic. Qed.

Lemma asset_turnover_no_error :
  Raising._calculate_asset_turnover stock = Ok (_calculate_asset_turnover stock).
Proof.
  guarded_division Raising._calculate_asset_turnover _calculate_asset_turnover.
Qed.

Lemma equity_multiplier_no_error :
  Raising._calculate_equity_multiplier stock
  = Ok (_calculate_equity_multiplier stock).
Proof.
  guarded_division Raising._calculate_equity_multiplier
    _calculate_equity_multiplier.
Qed.

Lemma current_ratio_no_error :
  Raising._calculate_current_ratio stock = Ok (_calculate_current_ratio stock).
Proof.
  guarded_division Raising._calculate_current_ratio _calculate_current_ratio.
Qed.

Lemma quick_ratio_no_error :
  Raising._calculate_quick_ratio stock = Ok (_calculate_quick_ratio stock).
Proof.
  guarded_division Raising._calculate_quick_ratio _calculate_quick_ratio.
Qed.

Lemma cash_ratio_no_error :
  Raising._calculate_cash_ratio stock = Ok (_calculate_cash_ratio stock).
Proof. guarded_division Raising._calculate_cash_ratio _calculate_cash_ratio. Qed.

Lemma debt_to_equity_no_error :
  Raising._calculate_debt_to_equity stock = Ok (_calculate_debt_to_equity stock).
Proof.
  guarded_division Raising._calculate_debt_to_equity _calculate_debt_to_equity.
Qed.

Lemma debt_to_assets_no_error :
  Raising._calculate_debt_to_assets stock = Ok (_calculate_debt_to_assets stock).
Proof.
  guarded_division Raising._calculate_debt_to_assets _calculate_debt_to_assets.
Qed.

Lemma equity_ratio_no_error :
  Raising._calculate_equity_ratio stock = Ok (_calculate_equity_ratio stock).
Proof.
  guarded_division Raising._calculate_equity_ratio _calculate_equity_ratio.
Qed.

Lemma interest_coverage_no_error :
  Raising._calculate_interest_coverage stock
  = Ok (_calculate_interest_coverage stock).
Proof.
  guarded_division Raising._calculate_interest_coverage
    _calculate_interest_coverage.
Qed.
End no_division_by_zero.

(** X1. [calculate_all_metrics] never raises [ZeroDivisionError]: with
    Python's raising float division in place of IEEE division, every one of
    its divisions has a non-zero divisor, and the dictionary it returns is
    the one computed with IEEE division. *)
Theorem calculate_all_metrics_never_divides_by_zero (stock : StockData) :
  Raising.calculate_all_metrics stock = Ok (calculate_all_metrics stock).
Proof.
  unfold Raising.calculate_all_metrics.
  rewrite pe_ratio_no_error, pb_ratio_no_error, peg_ratio_no_error,
    price_to_sales_no_error, roe_no_error, roa_no_error, net_margin_no_error,
    gross_margin_no_error, operating_margin_no_error, roic_no_error,
    asset_turnover_no_error, equity_multiplier_no_error,
    current_ratio_no_error, quick_ratio_no_error, cash_ratio_no_error,
    debt_to_equity_no_error, debt_to_assets_no_error, equity_ratio_no_error,
    interest_coverage_no_error.
  reflexivity.
Qed.

(** ** The keys of the metrics dictionary *)

(** X2. The dictionary returned by [calculate_all_metrics] has the same
    twenty-five keys for every record, no assignment overwriting another;
    any other name is missing from it. *)
Theorem calculate_all_metrics_keys (stock : StockData) :
  dom (calculate_all_metrics stock) = list_to_set metric_names
  ∧ size (calculate_all_metrics stock) = 25%nat
  ∧ ∀ name, name ∉ metric_names → calculate_all_metrics stock !! name = None.
Proof.
  assert (Hdom : dom (calculate_all_metrics stock) = list_to_set metric_names).
  { unfold calculate_all_metrics. cbv zeta.
    rewrite !dom_insert_L, dom_empty_L. unfold metric_names. cbn.
    set_solver. }
  split; [exact Hdom |]. split.
  - rewrite <- size_dom, Hdom. reflexivity.
  - intros name Hname. apply not_elem_of_dom. rewrite Hdom.
    by rewrite elem_of_list_to_set.
Qed.

(** ** The list of signals *)

Lemma sublist_append_if c a l k :
  l `sublist_of` k → append_if c a l `sublist_of` k ++ [a].
Proof.
  intros Hl. destruct c; cbn.
  - apply sublist_app; [done |]. apply sublist_skip, sublist_nil_l.
  - by apply sublist_inserts_r.
Qed.

Lemma sublist_append_elif c d a b l k :
  l `sublist_of` k → append_elif c d a b l `sublist_of` k ++ [a; b].
Proof.
  intros Hl. destruct c; cbn.
  - apply sublist_app; [done |]. apply sublist_skip, sublist_nil_l.
  - destruct d.
    + apply sublist_app; [done |].
      apply sublist_cons, sublist_skip, sublist_nil_l.
    + by apply sublist_inserts_r.
Qed.

Lemma length_append_if c a l : (length (append_if c a l) ≤ S (length l))%nat.
Proof. destruct c; cbn; rewrite ?length_app; cbn; lia. Qed.

Lemma length_append_elif c d a b l :
  (length (append_elif c d a b l) ≤ S (length l))%nat.
Proof. destruct c, d; cbn; rewrite ?length_app; cbn; lia. Qed.

(** X3. The signals of a record are a selection, in order, of the fifteen
    tags: no tag occurs twice, and there are at most ten of them, one per
    rule block. *)
Theorem signals_selection (stock : StockData) (M : gmap string float) :
  _generate_signals stock M `sublist_of` signal_tags
  ∧ NoDup (_generate_signals stock M)
  ∧ (length (_generate_signals stock M) ≤ 10)%nat.
Proof.
  assert (Hsub : _generate_signals stock M `sublist_of` signal_tags).
  { rewrite generate_signals_blocks.
    change signal_tags with
      (((((((((([] ++ ["UNDERVALUED_PE"; "OVERVALUED_PE"])
               ++ ["UNDERVALUED_BOOK"; "OVERVALUED_BOOK"])
              ++ ["HIGH_ROE"]) ++ ["HIGH_ROA"]) ++ ["HIGH_MARGIN"])
           ++ ["HIGH_REVENUE_GROWTH"]) ++ ["HIGH_EARNINGS_GROWTH"])
         ++ ["HIGH_DIVIDEND_YIELD"; "PAYS_DIVIDEND"])
        ++ ["STRONG_LIQUIDITY"; "WEAK_LIQUIDITY"])
       ++ ["LOW_DEBT"; "HIGH_DEBT"]).
    repeat first [ apply sublist_append_elif | apply sublist_append_if ].
    constructor. }
  split; [exact Hsub |]. split.
  - eapply sublist_NoDup; [|exact Hsub].
    apply (bool_decide_unpack _). by vm_compute.
  - rewrite generate_signals_blocks.
    repeat first
      [ etrans; [apply length_append_elif | apply le_n_S]
      | etrans; [apply length_append_if | apply le_n_S] ].
    cbn. lia.
Qed.

Lemma elem_of_append_if_iff (x a : string) c l :
  x ∈ append_if c a l ↔ x ∈ l ∨ (c = true ∧ x = a).
Proof.
  destruct c; cbn; rewrite ?elem_of_app, ?list_elem_of_singleton;
    intuition congruence.
Qed.

Lemma elem_of_append_elif_iff (x a b : string) c d l :
  x ∈ append_elif c d a b l
  ↔ x ∈ l ∨ (c = true ∧ x = a) ∨ (c = false ∧ d = true ∧ x = b).
Proof.
  destruct c, d; cbn; rewrite ?elem_of_app, ?list_elem_of_singleton;
    intuition congruence.
Qed.

Lemma elem_of_append_if_other (x a : string) c l :
  x ≠ a → x ∈ append_if c a l ↔ x ∈ l.
Proof. rewrite elem_of_append_if_iff. intuition congruence. Qed.

Lemma elem_of_append_elif_other (x a b : string) c d l :
  x ≠ a → x ≠ b → x ∈ append_elif c d a b l ↔ x ∈ l.
Proof. rewrite elem_of_append_elif_iff. intuition congruence. Qed.

Ltac signal_rule :=
  rewrite generate_signals_blocks;
  repeat first [ rewrite elem_of_append_elif_other by discriminate
               | rewrite elem_of_append_if_other by discriminate
               | rewrite elem_of_append_elif_iff
               | rewrite elem_of_append_if_iff ];
  rewrite elem_of_nil; intuition (discriminate || congruence).

(** X4. Which signal fires when: each of the fifteen tags is in the list
    exactly when the test of its rule holds, and for the second tag of an
    [if]/[elif] pair also the first test fails. *)
Theorem signal_rules (stock : StockData) (M : gmap string float) :
  let S := _generate_signals stock M in
  ("UNDERVALUED_PE" ∈ S ↔ (M !!! "pe_ratio" <? 15)%float = true)
  ∧ ("OVERVALUED_PE" ∈ S
     ↔ (M !!! "pe_ratio" <? 15)%float = false
       ∧ (30 <? M !!! "pe_ratio")%float = true)
  ∧ ("UNDERVALUED_BOOK" ∈ S ↔ (M !!! "pb_ratio" <? 1)%float = true)
  ∧ ("OVERVALUED_BOOK" ∈ S
     ↔ (M !!! "pb_ratio" <? 1)%float = false
       ∧ (3 <? M !!! "pb_ratio")%float = true)
  ∧ ("HIGH_ROE" ∈ S ↔ (15 <? M !!! "roe")%float = true)
  ∧ ("HIGH_ROA" ∈ S ↔ (10 <? M !!! "roa")%float = true)
  ∧ ("HIGH_MARGIN" ∈ S ↔ (20 <? M !!! "net_margin")%float = true)
  ∧ ("HIGH_REVENUE_GROWTH" ∈ S ↔ (20 <? revenue_growth stock)%float = true)
  ∧ ("HIGH_EARNINGS_GROWTH" ∈ S ↔ (20 <? earnings_growth stock)%float = true)
  ∧ ("HIGH_DIVIDEND_YIELD" ∈ S ↔ (3 <? dividend_yield stock)%float = true)
  ∧ ("PAYS_DIVIDEND" ∈ S
     ↔ (3 <? dividend_yield stock)%float = false
       ∧ (0 <? dividend_yield stock)%float = true)
  ∧ ("STRONG_LIQUIDITY" ∈ S ↔ (2 <? M !!! "current_ratio")%float = true)
  ∧ ("WEAK_LIQUIDITY" ∈ S
     ↔ (2 <? M !!! "current_ratio")%float = false
       ∧ (M !!! "current_ratio" <? 1)%float = true)
  ∧ ("LOW_DEBT" ∈ S ↔ (M !!! "debt_to_equity" <? 0.5)%float = true)
  ∧ ("HIGH_DEBT" ∈ S
     ↔ (M !!! "debt_to_equity" <? 0.5)%float = false
       ∧ (2 <? M !!! "debt_to_equity")%float = true).
Proof. cbv zeta. split_and!; signal_rule. Qed.

(** ** Ranges the analyzer scores really take *)

Ltac score_cases f :=
  intros; cbv beta delta [f] zeta; repeat case_match; lia.

Lemma risk_score_at_most_85 stock (M : gmap string float) :
  0 ≤ _calculate_risk_score stock M ≤ 85.
Proof. score_cases _calculate_risk_score. Qed.

Lemma valuation_score_at_least_20 (M : gmap string float) :
  20 ≤ _calculate_valuation_score M ≤ 100.
Proof. score_cases _calculate_valuation_score. Qed.

Lemma quality_score_at_least_15 (M : gmap string float) :
  15 ≤ _calculate_quality_score M ≤ 100.
Proof. score_cases _calculate_quality_score. Qed.

Lemma momentum_score_values stock :
  _calculate_momentum_score stock = 50
  ∨ _calculate_momentum_score stock = 75
  ∨ _calculate_momentum_score stock = 100.
Proof. score_cases _calculate_momentum_score. Qed.

Lemma strength_score_range stock (M : gmap string float) :
  0 ≤ strength_score stock M ≤ 100.
Proof. score_cases strength_score. Qed.

(** X5. The ranges the sub-scores really take: the risk score never
    exceeds 85, so its cap at 100 is never reached; the valuation score is
    never below 20 and the quality score never below 15, so their floor at 0
    is never reached; the momentum score is 50, 75 or 100. *)
Theorem analyzer_score_ranges (stock : StockData) (M : gmap string float) :
  0 ≤ _calculate_risk_score stock M ≤ 85
  ∧ 20 ≤ _calculate_valuation_score M ≤ 100
  ∧ 15 ≤ _calculate_quality_score M ≤ 100
  ∧ (_calculate_momentum_score stock = 50
     ∨ _calculate_momentum_score stock = 75
     ∨ _calculate_momentum_score stock = 100).
Proof.
  split_and!;
    first [ apply risk_score_at_most_85 | apply valuation_score_at_least_20
          | apply quality_score_at_least_15 | apply momentum_score_values ].
Qed.

(** ** Companies without equity *)

(** Comparisons between two float literals are evaluated. *)
Ltac eval_float_tests :=
  repeat match goal with
  | |- context [PrimFloat.ltb ?a ?b] =>
      let t := eval vm_compute in (PrimFloat.ltb a b) in
      lazymatch t with
      | true => change (PrimFloat.ltb a b) with true
      | false => change (PrimFloat.ltb a b) with false
      end
  end.

Lemma metrics_roe stock :
  calculate_all_metrics stock !!! "roe" = _calculate_roe stock.
Proof. reflexivity. Qed.

Lemma metrics_debt_to_equity stock :
  calculate_all_metrics stock !!! "debt_to_equity"
  = _calculate_debt_to_equity stock.
Proof. reflexivity. Qed.

Lemma metrics_equity_multiplier stock :
  calculate_all_metrics stock !!! "equity_multiplier"
  = _calculate_equity_multiplier stock.
Proof. reflexivity. Qed.

Section no_equity.
Variable stock : StockData.
Variable M : gmap string float.
Hypothesis roe_zero : M !!! "roe" = 0%float.
Hypothesis debt_to_equity_infinite : M !!! "debt_to_equity" = infinity.

Lemma no_equity_risk : 45 ≤ _calculate_risk_score stock M.
Proof.
  cbv beta delta [_calculate_risk_score].
  rewrite roe_zero, debt_to_equity_infinite. eval_float_tests.
  cbv zeta iota. repeat case_match; lia.
Qed.

Lemma no_equity_quality : _calculate_quality_score M ≤ 75.
Proof.
  cbv beta delta [_calculate_quality_score].
  rewrite roe_zero, debt_to_equity_infinite. eval_float_tests.
  cbv zeta iota. repeat case_match; lia.
Qed.

Lemma no_equity_strength_score : strength_score stock M ≤ 50.
Proof.
  cbv beta delta [strength_score] zeta.
  rewrite roe_zero, debt_to_equity_infinite. eval_float_tests.
  cbv iota. repeat case_match; lia.
Qed.

Lemma no_equity_strength :
  _assess_fundamental_strength stock M ∈ ["MODERATE"; "WEAK"; "VERY_WEAK"].
Proof.
  pose proof no_equity_strength_score as Hle.
  unfold _assess_fundamental_strength. cbv zeta.
  destruct (Z.leb_spec 80 (strength_score stock M)); [lia |].
  destruct (Z.leb_spec 60 (strength_score stock M)); [lia |].
  repeat case_match; set_solver.
Qed.

Lemma no_equity_signals :
  ("HIGH_DEBT" ∈ _generate_signals stock M)
  ∧ ("LOW_DEBT" ∉ _generate_signals stock M)
  ∧ ("HIGH_ROE" ∉ _generate_signals stock M).
Proof.
  rewrite generate_signals_blocks, roe_zero, debt_to_equity_infinite.
  eval_float_tests. split_and!; [tag_present | tag_absent | tag_absent].
Qed.
End no_equity.

(** X6. A company whose assets do not exceed its liabilities gets ROE 0,
    an infinite debt-to-equity ratio and equity multiplier 0; its risk score
    is at least 45, its quality score at most 75, its fundamental strength
    at best MODERATE, and it carries the HIGH_DEBT signal and never LOW_DEBT
    or HIGH_ROE. *)
Theorem no_equity_analysis (stock : StockData) :
  (total_assets stock - total_liabilities stock <=? 0)%float = true →
  metrics (analyze stock) !!! "roe" = 0%float
  ∧ metrics (analyze stock) !!! "debt_to_equity" = infinity
  ∧ metrics (analyze stock) !!! "equity_multiplier" = 0%float
  ∧ 45 ≤ risk_score (analyze stock)
  ∧ quality_score (analyze stock) ≤ 75
  ∧ fundamental_strength (analyze stock) ∈ ["MODERATE"; "WEAK"; "VERY_WEAK"]
  ∧ ("HIGH_DEBT" ∈ signals (analyze stock))
  ∧ ("LOW_DEBT" ∉ signals (analyze stock))
  ∧ ("HIGH_ROE" ∉ signals (analyze stock)).
Proof.
  intros Hequity.
  assert (Hroe : calculate_all_metrics stock !!! "roe" = 0%float).
  { rewrite metrics_roe. unfold _calculate_roe. by rewrite Hequity. }
  assert (Hde : calculate_all_metrics stock !!! "debt_to_equity" = infinity).
  { rewrite metrics_debt_to_equity. unfold _calculate_debt_to_equity.
    by rewrite Hequity. }
  assert (Hem : calculate_all_metrics stock !!! "equity_multiplier" = 0%float).
  { rewrite metrics_equity_multiplier. unfold _calculate_equity_multiplier.
    by rewrite Hequity. }
  unfold analyze.
  cbn [metrics risk_score quality_score fundamental_strength signals].
  split_and!; [done | done | done | ..].
  - by apply no_equity_risk.
  - by apply no_equity_quality.
  - by apply no_equity_strength.
  - by apply no_equity_signals.
  - by apply no_equity_signals.
  - by apply no_equity_signals.
Qed.

Lemma no_equity_analysis_witness :
  metrics (analyze negative_equity) !!! "roe" = 0%float
  ∧ metrics (analyze negative_equity) !!! "debt_to_equity" = infinity
  ∧ metrics (analyze negative_equity) !!! "equity_multiplier" = 0%float
  ∧ 45 ≤ risk_score (analyze negative_equity)
  ∧ quality_score (analyze negative_equity) ≤ 75
  ∧ fundamental_strength (analyze negative_equity)
    ∈ ["MODERATE"; "WEAK"; "VERY_WEAK"]
  ∧ ("HIGH_DEBT" ∈ signals (analyze negative_equity))
  ∧ ("LOW_DEBT" ∉ signals (analyze negative_equity))
  ∧ ("HIGH_ROE" ∉ signals (analyze negative_equity)).
Proof. apply (no_equity_analysis negative_equity). reflexivity. Defined.

(** ** The highest score of each built-in strategy *)

Lemma float_of_Z_mono (a b : Z) :
  0 ≤ a → a ≤ b → b ≤ 100 → (float_of_Z a <=? float_of_Z b)%float = true.
Proof.
  intros Ha Hab Hb.
  assert (Htable : score_order_table = true) by (vm_compute; reflexivity).
  unfold score_order_table in Htable. rewrite forallb_forall in Htable.
  specialize (Htable a). rewrite <- list_elem_of_In, elem_of_seqZ in Htable.
  specialize (Htable ltac:(lia)). rewrite forallb_forall in Htable.
  specialize (Htable b). rewrite <- list_elem_of_In, elem_of_seqZ in Htable.
  specialize (Htable ltac:(lia)).
  replace (a <=? b) with true in Htable by (symmetry; lia). exact Htable.
Qed.

Lemma above_ceiling_fails (score ceiling : Z) (threshold : float) :
  0 ≤ score → score ≤ ceiling → ceiling ≤ 100 →
  (float_of_Z ceiling <? threshold)%float = true →
  (threshold <=? float_of_Z score)%float = false.
Proof.
  intros H0 Hle H100 Habove.
  destruct (threshold <=? float_of_Z score)%float eqn:Hpass; [|done].
  apply float_ltb_not_leb in Habove. rewrite <- Habove. symmetry.
  eapply float_leb_trans; [exact Hpass |]. by apply float_of_Z_mono.
Qed.

Ltac scorer_ceiling :=
  intros; cbv beta delta
    [_screen_value _screen_growth _screen_dividend _screen_momentum
     _screen_quality _screen_contrarian] zeta;
  repeat case_match; try lia; simplify_eq/=; lia.

Lemma _screen_growth_ceiling stock analysis :
  (_screen_growth stock analysis).1 ≤ 95.
Proof. scorer_ceiling. Qed.

Lemma _screen_dividend_ceiling stock analysis :
  (_screen_dividend stock analysis).1 ≤ 75.
Proof. scorer_ceiling. Qed.

Lemma _screen_momentum_ceiling stock analysis :
  (_screen_momentum stock analysis).1 ≤ 70.
Proof. scorer_ceiling. Qed.

Lemma _screen_contrarian_ceiling stock analysis :
  (_screen_contrarian stock analysis).1 ≤ 95.
Proof. scorer_ceiling. Qed.

Lemma strategy_score_ceiling kind stock :
  0 ≤ strategy_score kind stock ≤ score_ceiling kind.
Proof.
  split; [apply strategy_score_range |].
  unfold strategy_score, score_ceiling.
  destruct kind; cbn [strategies_get];
    auto using _screen_growth_ceiling, _screen_dividend_ceiling,
      _screen_momentum_ceiling, _screen_contrarian_ceiling.
  - apply _screen_value_range.
  - apply _screen_quality_range.
Qed.

Lemma screen_loop_none utcnow screening_func which threshold stocks :
  (∀ stock,
     (threshold <=? float_of_Z (screening_func stock (analyze stock)).1)%float
     = false) →
  ∀ i, screen_loop utcnow screening_func which threshold i stocks = [].
Proof.
  intros Hfail. induction stocks as [|stock rest IH]; intros i; [done |].
  cbn [screen_loop]. specialize (Hfail stock).
  destruct (screening_func stock (analyze stock)) as [sc sigs].
  cbn [fst] in Hfail. rewrite Hfail. apply IH.
Qed.

(** X7. No record scores more than 95 under the growth and contrarian
    strategies, 75 under the dividend strategy and 70 under the momentum
    strategy (100 under value and quality), and these ceilings are attained;
    so [screen] with a threshold above the ceiling of the strategy returns
    the empty list, whatever the records. *)
Theorem screen_above_ceiling_is_empty (utcnow : nat → Z)
    (stocks : list StockData) (kind : ScreeningStrategy) (threshold : float) :
  (float_of_Z (score_ceiling kind) <? threshold)%float = true →
  (∀ stock, strategy_score kind stock ≤ score_ceiling kind)
  ∧ strategy_score kind star = score_ceiling kind
  ∧ screen utcnow stocks (Member kind) threshold = Ok [].
Proof.
  intros Habove. split; [apply strategy_score_ceiling |].
  split; [by destruct kind; vm_compute |].
  unfold screen.
  destruct (strategies_get (Member kind)) as [f|] eqn:Hget;
    [|by destruct kind].
  rewrite screen_loop_none; [done |].
  intros stock. pose proof (strategy_score_ceiling kind stock) as [H0 Hle].
  unfold strategy_score in H0, Hle. rewrite Hget in H0, Hle.
  eapply above_ceiling_fails; [exact H0 | exact Hle | by destruct kind | done].
Qed.

Lemma screen_above_ceiling_is_empty_witness :
  (∀ stock, strategy_score MOMENTUM_INVESTING stock
            ≤ score_ceiling MOMENTUM_INVESTING)
  ∧ strategy_score MOMENTUM_INVESTING star = score_ceiling MOMENTUM_INVESTING
  ∧ screen (λ i, Z.of_nat i) [star; debt_free; loss_maker]
      (Member MOMENTUM_INVESTING) 70.5
    = Ok [].
Proof.
  apply (screen_above_ceiling_is_empty (λ i, Z.of_nat i)
           [star; debt_free; loss_maker] MOMENTUM_INVESTING 70.5).
  reflexivity.
Defined.

(** ** Raising the threshold *)

Lemma filter_meets_submseteq (low high : float) (entries : list (string * Z)) :
  (∀ entry, meets high entry → meets low entry) →
  filter (meets high) entries ⊆+ filter (meets low) entries.
Proof.
  intros Himpl. induction entries as [|entry rest IH]; [done |].
  rewrite !filter_cons.
  destruct (decide (meets high entry)) as [Hh|Hh].
  - rewrite decide_True by auto. by apply submseteq_skip.
  - destruct (decide (meets low entry)); [by apply submseteq_cons | done].
Qed.

(** X8. Raising the threshold never adds a result: for thresholds
    [low <= high] and a built-in strategy, the records returned under
    [high], with their scores, are among those returned under [low]. *)
Theorem screen_threshold_monotone (utcnow utcnow' : nat → Z)
    (stocks : list StockData) (kind : ScreeningStrategy) (low high : float) :
  (low <=? high)%float = true →
  ∃ results_low results_high,
    screen utcnow stocks (Member kind) low = Ok results_low
    ∧ screen utcnow' stocks (Member kind) high = Ok results_high
    ∧ symbol_and_score <$> results_high ⊆+ symbol_and_score <$> results_low.
Proof.
  intros Hle. unfold screen.
  destruct (strategies_get (Member kind)) as [f|] eqn:Hget;
    [|by destruct kind].
  eexists _, _. split; [done |]. split; [done |].
  rewrite !sorted_reverse_Permutation, !screen_loop_entries.
  apply filter_meets_submseteq. unfold meets. intros entry Hhigh.
  by eapply float_leb_trans.
Qed.

Lemma screen_threshold_monotone_witness :
  ∃ results_low results_high,
    screen (λ i, Z.of_nat i) [star; debt_free; loss_maker]
      (Member VALUE_INVESTING) 30 = Ok results_low
    ∧ screen (λ i, Z.of_nat i) [star; debt_free; loss_maker]
        (Member VALUE_INVESTING) 60 = Ok results_high
    ∧ symbol_and_score <$> results_high ⊆+ symbol_and_score <$> results_low.
Proof.
  apply (screen_threshold_monotone (λ i, Z.of_nat i) (λ i, Z.of_nat i)
           [star; debt_free; loss_maker] VALUE_INVESTING 30 60).
  reflexivity.
Defined.

(** ** [batch_screen] *)

#[global] Instance value_inj : Inj (=) (=) value.
Proof. intros [] [] H; by try discriminate H. Qed.

#[global] Instance ScreeningStrategy_eq_dec : EqDecision ScreeningStrategy.
Proof. solve_decision. Defined.

Lemma screen_member utcnow stocks kind threshold :
  ∃ screened, screen utcnow stocks (Member kind) threshold = Ok screened.
Proof. unfold screen. destruct kind; cbn; eauto. Qed.

Lemma batch_loop_members utcnow stocks threshold
    (kinds : list ScreeningStrategy) :
  ∀ j (results : gmap string (list (ScreeningResult Z))),
  ∃ results',
    batch_loop utcnow stocks threshold j (Member <$> kinds) results
    = Ok results'
    ∧ (∀ kind, kind ∉ kinds → results' !! value kind = results !! value kind)
    ∧ dom results' = dom results ∪ list_to_set (value <$> kinds)
    ∧ Forall (λ kind, ∃ i screened,
                kinds !! i = Some kind
                ∧ results' !! value kind = Some screened
                ∧ screen (utcnow (j + i)%nat) stocks (Member kind) threshold
                  = Ok screened) kinds.
Proof.
  induction kinds as [|kind rest IH]; intros j results.
  { exists results. cbn. split_and!; [done | done | set_solver | done]. }
  cbn [fmap list_fmap batch_loop].
  destruct (screen_member (utcnow j) stocks kind threshold) as [screened Hs].
  rewrite Hs. cbn [bind].
  destruct (IH (S j) (<[value kind := screened]> results))
    as (results' & -> & Hkeep & Hdom & Hall).
  exists results'. split_and!; [done | | | ].
  - intros other Hother. apply not_elem_of_cons in Hother as [Hne Hother].
    rewrite Hkeep by done. apply lookup_insert_ne. by intros ?%(inj value).
  - rewrite Hdom, dom_insert_L. set_solver.
  - constructor.
    + destruct (decide (kind ∈ rest)) as [Hin|Hout].
      * rewrite Forall_forall in Hall.
        destruct (Hall kind Hin) as (i & sc & Hi & Hlookup & Hscreen).
        exists (S i), sc. split_and!; [done | done |].
        by replace (j + S i)%nat with (S j + i)%nat by lia.
      * exists 0%nat, screened. split_and!; [done | |].
        -- rewrite Hkeep by done. apply lookup_insert_eq.
        -- by rewrite Nat.add_0_r.
    + eapply Forall_impl; [exact Hall |].
      intros other (i & sc & Hi & Hlookup & Hscreen).
      exists (S i), sc. split_and!; [done | done |].
      by replace (j + S i)%nat with (S j + i)%nat by lia.
Qed.

Lemma batch_loop_unknown utcnow stocks threshold
    (kinds : list ScreeningStrategy) rendering rest :
  ∀ j results,
    batch_loop utcnow stocks threshold j
      ((Member <$> kinds) ++ Other rendering :: rest) results
    = Raise (ValueError ("Unknown strategy: " +:+ rendering)).
Proof.
  induction kinds as [|kind kinds IH]; intros j results; [done |].
  cbn [fmap list_fmap app batch_loop].
  destruct (screen_member (utcnow j) stocks kind threshold) as [screened Hs].
  rewrite Hs. cbn [bind]. apply IH.
Qed.

(** X9. [batch_screen] over enumeration members returns a dictionary whose
    keys are the [value]s of the listed strategies and whose entry for each
    listed strategy is what [screen] returns for it (for a strategy listed
    twice, one of its runs); if the list holds anything that is no member,
    the call raises the unknown-strategy [ValueError] of the first such
    entry and returns no dictionary. *)
Theorem batch_screen_entries (utcnow : nat → nat → Z)
    (stocks : list StockData) (kinds : list ScreeningStrategy)
    (threshold : float) (rendering : string) (rest : list strategy_arg) :
  (∃ results,
     batch_screen utcnow stocks (Member <$> kinds) threshold = Ok results
     ∧ dom results = list_to_set (value <$> kinds)
     ∧ Forall (λ kind, ∃ j screened,
                 kinds !! j = Some kind
                 ∧ results !! value kind = Some screened
                 ∧ screen (utcnow j) stocks (Member kind) threshold
                   = Ok screened) kinds)
  ∧ batch_screen utcnow stocks
      ((Member <$> kinds) ++ Other rendering :: rest) threshold
    = Raise (ValueError ("Unknown strategy: " +:+ rendering)).
Proof.
  split; [|apply batch_loop_unknown].
  destruct (batch_loop_members utcnow stocks threshold kinds 0 ∅)
    as (results & Hrun & _ & Hdom & Hall).
  exists results. split_and!; [done | | done].
  rewrite Hdom, dom_empty_L. set_solver.
Qed.

(** ** The registry of custom strategies *)

Lemma has_underscore_app (a b : string) :
  has_underscore (a +:+ b) = has_underscore a || has_underscore b.
Proof.
  induction a as [|c a IH]; [done |]. simpl. rewrite IH. by rewrite orb_assoc.
Qed.

Lemma after_last_underscore_app (a d : string) :
  has_underscore d = false → after_last_underscore (a +:+ "_" +:+ d) = d.
Proof.
  intros Hd. induction a as [|c a IH].
  - change ("" +:+ "_" +:+ d) with (String "_" d).
    cbn [after_last_underscore]. by rewrite Hd.
  - change (String c a +:+ "_" +:+ d) with (String c (a +:+ "_" +:+ d)).
    cbn [after_last_underscore].
    rewrite has_underscore_app. simpl. rewrite orb_true_r. exact IH.
Qed.

Lemma pretty_N_go_no_underscore (x : N) (s : string) :
  has_underscore s = false → has_underscore (pretty_N_go x s) = false.
Proof.
  revert s. induction (N.lt_wf_0 x) as [x _ IH]; intros s Hs.
  assert (x = 0 ∨ 0 < x)%N as [->|Hpos] by lia; [done |].
  rewrite pretty_N_go_step by done. apply IH; [by apply N.div_lt |].
  simpl. rewrite Hs, orb_false_r. unfold pretty_N_char.
  by repeat case_match.
Qed.

Lemma pretty_nat_no_underscore (n : nat) : has_underscore (pretty n) = false.
Proof.
  unfold pretty, pretty_nat, pretty, pretty_N. case_decide; [done |].
  by apply pretty_N_go_no_underscore.
Qed.

Lemma strategy_id_number (name name' : string) (n n' : nat) :
  "custom_" +:+ name +:+ "_" +:+ pretty n
  = "custom_" +:+ name' +:+ "_" +:+ pretty n' →
  n = n'.
Proof.
  intros Heq.
  assert (Htail : after_last_underscore
                    (("custom_" +:+ name) +:+ "_" +:+ pretty n)
                  = after_last_underscore
                      (("custom_" +:+ name') +:+ "_" +:+ pretty n')).
  { f_equal. exact Heq. }
  rewrite !after_last_underscore_app in Htail
    by apply pretty_nat_no_underscore.
  by apply (inj pretty).
Qed.

(** Every registered id ends in the number of entries the registry had when
    the id was made. *)
Lemma built_ids self :
  built self →
  ∀ strategy_id, is_Some (custom_strategies self !! strategy_id) →
    ∃ name n, (n < size (custom_strategies self))%nat
              ∧ strategy_id = "custom_" +:+ name +:+ "_" +:+ pretty n.
Proof.
  induction 1 as [|self name rules now Hbuilt IH]; intros key Hkey.
  { cbn in Hkey. rewrite lookup_empty in Hkey. by destruct Hkey. }
  cbn [create_strategy snd custom_strategies] in *.
  set (fresh := "custom_" +:+ name +:+ "_"
                +:+ pretty (size (custom_strategies self))) in *.
  assert (Hfresh : custom_strategies self !! fresh = None).
  { destruct (custom_strategies self !! fresh) eqn:Hlookup; [|done].
    destruct (IH fresh) as (name' & n & Hn & Heq); [by eexists |].
    apply strategy_id_number in Heq. lia. }
  rewrite map_size_insert_None by done.
  destruct (decide (key = fresh)) as [->|Hne].
  - exists name, (size (custom_strategies self)). split; [lia | done].
  - rewrite lookup_insert_ne in Hkey by done.
    destruct (IH key Hkey) as (name' & n & Hn & ->).
    exists name', n. split; [lia | done].
Qed.

(** X10. On a builder made by [create_strategy] calls alone, the id that
    [create_strategy] returns is new: it was unknown before the call,
    afterwards [get_strategy_info] answers it with the strategy just
    registered, every id registered earlier still answers with its own
    strategy, and the registry has one entry more. *)
Theorem create_strategy_registers (self : StrategyBuilder) (name : string)
    (rules : list rule) (now : Z) :
  built self →
  get_strategy_info self (create_strategy self name rules now).1
  = Raise (ValueError ("Unknown strategy ID: "
                       +:+ (create_strategy self name rules now).1))
  ∧ get_strategy_info (create_strategy self name rules now).2
      (create_strategy self name rules now).1
    = Ok {| name := name; rules := rules; created_at := now |}
  ∧ (∀ strategy_id strategy,
       get_strategy_info self strategy_id = Ok strategy →
       get_strategy_info (create_strategy self name rules now).2 strategy_id
       = Ok strategy)
  ∧ size (custom_strategies (create_strategy self name rules now).2)
    = S (size (custom_strategies self)).
Proof.
  intros Hbuilt. cbn [create_strategy fst snd custom_strategies].
  set (fresh := "custom_" +:+ name +:+ "_"
                +:+ pretty (size (custom_strategies self))).
  assert (Hfresh : custom_strategies self !! fresh = None).
  { destruct (custom_strategies self !! fresh) eqn:Hlookup; [|done].
    destruct (built_ids self Hbuilt fresh) as (name' & n & Hn & Heq);
      [by eexists |].
    apply strategy_id_number in Heq. lia. }
  unfold get_strategy_info. cbn [custom_strategies]. split_and!.
  - by rewrite Hfresh.
  - by rewrite lookup_insert_eq.
  - intros key strategy Hkey.
    destruct (custom_strategies self !! key) eqn:Hlookup; [|done].
    rewrite lookup_insert_ne; [by rewrite Hlookup |].
    intros <-. by rewrite Hfresh in Hlookup.
  - by apply map_size_insert_None.
Qed.

Lemma create_strategy_registers_witness :
  get_strategy_info one_strategy_builder
    (create_strategy one_strategy_builder "second" [always_true] 7).1
  = Raise (ValueError "Unknown strategy ID: custom_second_1")
  ∧ get_strategy_info
      (create_strategy one_strategy_builder "second" [always_true] 7).2
      (create_strategy one_strategy_builder "second" [always_true] 7).1
    = Ok {| name := "second"; rules := [always_true]; created_at := 7 |}
  ∧ (∀ strategy_id strategy,
       get_strategy_info one_strategy_builder strategy_id = Ok strategy →
       get_strategy_info
         (create_strategy one_strategy_builder "second" [always_true] 7).2
         strategy_id
       = Ok strategy)
  ∧ size (custom_strategies
            (create_strategy one_strategy_builder "second" [always_true] 7).2)
    = S (size (custom_strategies one_strategy_builder)).
Proof.
  apply (create_strategy_registers one_strategy_builder "second"
           [always_true] 7).
  apply built_create, built_new.
Defined.

(** ** Screening with a strategy that has just been registered *)

Lemma concat_nil_fmap {A B} (f : A → list B) (l : list A) :
  (∀ x, f x = []) → concat (f <$> l) = [].
Proof.
  intros Hf. induction l as [|x l IH]; [done |].
  cbn. by rewrite Hf, IH.
Qed.

Lemma filter_entries {A B} (f : A → B) (Q : B → Prop) (P : A → Prop)
    `{∀ y, Decision (Q y)} `{∀ x, Decision (P x)} (l : list A) :
  (∀ x, Q (f x) ↔ P x) → filter Q (f <$> l) = f <$> filter P l.
Proof.
  intros Hiff. induction l as [|x l IH]; [done |].
  cbn [fmap list_fmap]. rewrite !filter_cons.
  destruct (decide (P x)) as [Hp|Hp].
  - rewrite decide_True by (by apply Hiff). cbn. by rewrite IH.
  - rewrite decide_False by (by rewrite Hiff). exact IH.
Qed.

Lemma screen_registered (utcnow : nat → Z) (self : StrategyBuilder)
    (name : string) (rs : list rule) (now : Z) (stocks : list StockData)
    (threshold : float) (out : list string)
    (P : StockData → Prop) `{∀ stock, Decision (P stock)} :
  rs ≠ [] →
  (∀ stock, rule_failures rs stock = []) →
  (∀ stock, reaches threshold (symbol stock, fraction_score rs stock)
            ↔ P stock) →
  ∃ results,
    screen_with_custom_strategy utcnow (create_strategy self name rs now).2
      stocks (create_strategy self name rs now).1 threshold out
    = (out, Ok results)
    ∧ symbol_and_fraction <$> results
      ≡ₚ (λ stock, (symbol stock, fraction_score rs stock)) <$> filter P stocks.
Proof.
  intros Hrs Hquiet Hiff. unfold screen_with_custom_strategy.
  cbn [create_strategy fst snd custom_strategies].
  rewrite lookup_insert_eq. cbn [rules].
  destruct (custom_loop_spec utcnow rs threshold Hrs stocks 0 out)
    as (results & -> & Hentries).
  exists (sorted_reverse score_ge_float results).
  rewrite concat_nil_fmap, app_nil_r by done. split; [done |].
  rewrite sorted_reverse_Permutation, Hentries.
  by rewrite (filter_entries _ _ P).
Qed.

Lemma results_symbols (results : list (ScreeningResult float))
    (rs : list rule) (kept : list StockData) :
  symbol_and_fraction <$> results
  ≡ₚ (λ stock, (symbol stock, fraction_score rs stock)) <$> kept →
  res_symbol <$> results ≡ₚ symbol <$> kept.
Proof.
  intros Hperm.
  assert (Hfst : fst <$> (symbol_and_fraction <$> results)
                 ≡ₚ fst <$> ((λ stock, (symbol stock, fraction_score rs stock))
                               <$> kept)) by (by rewrite Hperm).
  by rewrite <- !list_fmap_compose in Hfst.
Qed.

Lemma results_scores (results : list (ScreeningResult float))
    (rs : list rule) (kept : list StockData) (Q : float → Prop) :
  symbol_and_fraction <$> results
  ≡ₚ (λ stock, (symbol stock, fraction_score rs stock)) <$> kept →
  Forall (λ stock, Q (fraction_score rs stock)) kept →
  Forall (λ r, Q (score r)) results.
Proof.
  intros Hperm Hkept.
  assert (Hsnd : snd <$> (symbol_and_fraction <$> results)
                 ≡ₚ snd <$> ((λ stock, (symbol stock, fraction_score rs stock))
                               <$> kept)) by (by rewrite Hperm).
  rewrite <- !list_fmap_compose in Hsnd.
  apply (Forall_fmap score Q). rewrite Hsnd. by apply Forall_fmap.
Qed.

Lemma rules_matched_cons (r : rule) (rs : list rule) (stock : StockData) :
  rules_matched (r :: rs) stock
  = (if rule_holds stock r then 1 else 0) + rules_matched rs stock.
Proof.
  unfold rules_matched. rewrite filter_cons.
  destruct (rule_holds stock r); [rewrite decide_True by done
                                 | rewrite decide_False by done]; cbn; lia.
Qed.

Lemma rule_holds_returns (r : rule) (stock : StockData) (b : bool) :
  r stock (analyze stock) = Returns b → rule_holds stock r = b.
Proof. intros Hr. unfold rule_holds. rewrite Hr. by destruct b. Qed.

Lemma float_lt_infinity_not_ge (x : float) :
  (x <? infinity)%float = true → (infinity <=? x)%float = false.
Proof. apply float_ltb_not_leb. Qed.

(** X11. Screening with a P/E strategy right after [create_pe_based_strategy]
    made it, with a threshold above 0 and at most 100 (the default 50 is
    one), returns the records whose computed P/E lies in the band, each with
    score 100, and prints nothing; a record with [eps <= 0] is never among
    them when the upper end of the band is finite. *)
Theorem pe_strategy_screening (str : float → string) (utcnow : nat → Z)
    (self : StrategyBuilder) (pe_min pe_max : float) (now : Z)
    (stocks : list StockData) (threshold : float) (out : list string) :
  (0 <? threshold)%float = true →
  (threshold <=? 100)%float = true →
  (∃ results,
     screen_with_custom_strategy utcnow
       (create_pe_based_strategy str self pe_min pe_max now).2 stocks
       (create_pe_based_strategy str self pe_min pe_max now).1 threshold out
     = (out, Ok results)
     ∧ res_symbol <$> results
       ≡ₚ symbol <$> filter (pe_in_band pe_min pe_max) stocks
     ∧ Forall (λ r, score r = 100%float) results)
  ∧ (∀ stock,
       (eps stock <=? 0)%float = true → (pe_max <? infinity)%float = true →
       ¬ pe_in_band pe_min pe_max stock).
Proof.
  intros Hpositive Hatmost. split.
  - assert (Hscore : ∀ stock,
      (pe_in_band pe_min pe_max stock →
       fraction_score [pe_rule pe_min pe_max] stock = 100%float)
      ∧ (¬ pe_in_band pe_min pe_max stock →
         fraction_score [pe_rule pe_min pe_max] stock = 0%float)).
    { intros stock. unfold fraction_score. rewrite rules_matched_cons.
      unfold pe_in_band.
      rewrite (rule_holds_returns (pe_rule pe_min pe_max) stock
                 ((pe_min <=? metrics (analyze stock) !!! "pe_ratio")%float
                  && (metrics (analyze stock) !!! "pe_ratio" <=? pe_max)%float))
        by reflexivity.
      split; intros Hband;
        [|apply not_true_is_false in Hband]; rewrite Hband; by vm_compute. }
    unfold create_pe_based_strategy.
    destruct (screen_registered utcnow self
                ("pe_" +:+ str pe_min +:+ "_" +:+ str pe_max)
                [pe_rule pe_min pe_max] now stocks threshold out
                (pe_in_band pe_min pe_max))
      as (results & Hrun & Hperm); [done | done | |].
    { intros stock. unfold reaches. cbn [snd].
      destruct (Hscore stock) as [Hin Hout].
      destruct (decide (pe_in_band pe_min pe_max stock)) as [Hband|Hband].
      - by rewrite Hin.
      - rewrite Hout by done.
        by rewrite (float_ltb_not_leb _ _ Hpositive). }
    exists results. split; [done |]. split.
    + by eapply results_symbols.
    + eapply (results_scores _ _ _ (λ x, x = 100%float)); [exact Hperm |].
      apply Forall_forall. intros stock Hin.
      apply list_elem_of_filter in Hin as [Hband _].
      by apply Hscore.
  - intros stock Heps Hfinite. unfold pe_in_band.
    assert (Hpe : metrics (analyze stock) !!! "pe_ratio" = infinity).
    { change (_calculate_pe_ratio stock = infinity).
      unfold _calculate_pe_ratio. by rewrite Heps. }
    rewrite Hpe, (float_ltb_not_leb _ _ Hfinite), andb_false_r. done.
Qed.

Lemma pe_strategy_screening_witness :
  (∃ results,
     screen_with_custom_strategy (λ i, Z.of_nat i)
       (create_pe_based_strategy (λ _, "10") one_strategy_builder 5 12 0).2
       [star; debt_free; loss_maker]
       (create_pe_based_strategy (λ _, "10") one_strategy_builder 5 12 0).1
       50 []
     = ([], Ok results)
     ∧ res_symbol <$> results
       ≡ₚ symbol <$> filter (pe_in_band 5 12) [star; debt_free; loss_maker]
     ∧ Forall (λ r, score r = 100%float) results)
  ∧ (∀ stock,
       (eps stock <=? 0)%float = true → (12 <? infinity)%float = true →
       ¬ pe_in_band 5 12 stock).
Proof.
  apply (pe_strategy_screening (λ _, "10") (λ i, Z.of_nat i)
           one_strategy_builder 5 12 0 [star; debt_free; loss_maker] 50 []);
    reflexivity.
Defined.

Lemma reaches_above (t c v : float) :
  (t <=? c)%float = true → (c <=? v)%float = true → (t <=? v)%float = true.
Proof. apply float_leb_trans. Qed.

Lemma reaches_below (t c v : float) :
  (c <? t)%float = true → (v <=? c)%float = true → (t <=? v)%float = false.
Proof.
  intros Hlt Hle. destruct (t <=? v)%float eqn:Hreach; [|done].
  rewrite <- (float_ltb_not_leb _ _ Hlt). symmetry.
  by eapply float_leb_trans.
Qed.

(** The score of a record under rules that return booleans. *)
Ltac boolean_rules_score :=
  unfold fraction_score; rewrite ?rules_matched_cons;
  change (rules_matched [] _) with 0.

(** X12. Screening with the dividend screen right after
    [create_dividend_screen_strategy] made it prints nothing and gives each
    record score 0, 50 or 100.  With a threshold above 0 and at most 50 (the
    default) it returns the records that satisfy the yield rule or the
    sustainability rule, one of the two being enough; with a threshold above
    50 and at most 100 it returns those that satisfy both. *)
Theorem dividend_screen_thresholds (utcnow : nat → Z) (self : StrategyBuilder)
    (min_yield : float) (now : Z) (stocks : list StockData)
    (low high : float) (out : list string) :
  (0 <? low)%float = true → (low <=? 50)%float = true →
  (50 <? high)%float = true → (high <=? 100)%float = true →
  (∃ results,
     screen_with_custom_strategy utcnow
       (create_dividend_screen_strategy self min_yield now).2 stocks
       (create_dividend_screen_strategy self min_yield now).1 low out
     = (out, Ok results)
     ∧ res_symbol <$> results
       ≡ₚ symbol
            <$> filter (λ stock, pays_yield min_yield stock
                                 || dividend_sustainable stock = true) stocks
     ∧ Forall (λ r, score r = 50%float ∨ score r = 100%float) results)
  ∧ (∃ results,
       screen_with_custom_strategy utcnow
         (create_dividend_screen_strategy self min_yield now).2 stocks
         (create_dividend_screen_strategy self min_yield now).1 high out
       = (out, Ok results)
       ∧ res_symbol <$> results
         ≡ₚ symbol
              <$> filter (λ stock, pays_yield min_yield stock
                                   && dividend_sustainable stock = true) stocks
       ∧ Forall (λ r, score r = 100%float) results).
Proof.
  intros Hlow0 Hlow50 Hhigh50 Hhigh100.
  set (rs := [yield_rule min_yield; sustainability_rule]).
  assert (Hscore : ∀ stock,
    fraction_score rs stock
    = match pays_yield min_yield stock, dividend_sustainable stock with
      | true, true => 100%float
      | false, false => 0%float
      | _, _ => 50%float
      end).
  { intros stock. subst rs. boolean_rules_score.
    rewrite (rule_holds_returns (yield_rule min_yield) stock
               (pays_yield min_yield stock)) by reflexivity.
    rewrite (rule_holds_returns sustainability_rule stock
               (dividend_sustainable stock)) by reflexivity.
    destruct (pays_yield _ _), (dividend_sustainable _); by vm_compute. }
  unfold create_dividend_screen_strategy. fold rs. split.
  - destruct (screen_registered utcnow self "dividend_screen" rs now stocks
                low out
                (λ stock, pays_yield min_yield stock
                          || dividend_sustainable stock = true))
      as (results & Hrun & Hperm); [done | done | |].
    { intros stock. unfold reaches. cbn [snd]. rewrite Hscore.
      destruct (pays_yield _ _), (dividend_sustainable _); cbn;
        split; try done.
      - intros _. by apply (reaches_above low 50).
      - intros Hreach. by rewrite (float_ltb_not_leb _ _ Hlow0) in Hreach. }
    exists results. split; [done |]. split; [by eapply results_symbols |].
    eapply (results_scores _ _ _ (λ x, x = 50%float ∨ x = 100%float));
      [exact Hperm |].
    apply Forall_forall. intros stock Hin.
    apply list_elem_of_filter in Hin as [Hrule _]. rewrite Hscore.
    destruct (pays_yield _ _), (dividend_sustainable _); auto. done.
  - destruct (screen_registered utcnow self "dividend_screen" rs now stocks
                high out
                (λ stock, pays_yield min_yield stock
                          && dividend_sustainable stock = true))
      as (results & Hrun & Hperm); [done | done | |].
    { intros stock. unfold reaches. cbn [snd]. rewrite Hscore.
      destruct (pays_yield _ _), (dividend_sustainable _); cbn;
        split; try done; intros Hreach.
      - by rewrite (float_ltb_not_leb _ _ Hhigh50) in Hreach.
      - by rewrite (float_ltb_not_leb _ _ Hhigh50) in Hreach.
      - by rewrite (reaches_below high 50 0) in Hreach. }
    exists results. split; [done |]. split; [by eapply results_symbols |].
    eapply (results_scores _ _ _ (λ x, x = 100%float)); [exact Hperm |].
    apply Forall_forall. intros stock Hin.
    apply list_elem_of_filter in Hin as [Hrule _]. rewrite Hscore.
    by destruct (pays_yield _ _), (dividend_sustainable _).
Qed.

Lemma dividend_screen_thresholds_witness :
  (∃ results,
     screen_with_custom_strategy (λ i, Z.of_nat i)
       (create_dividend_screen_strategy one_strategy_builder 3 0).2
       [star; debt_free; loss_maker]
       (create_dividend_screen_strategy one_strategy_builder 3 0).1 50 []
     = ([], Ok results)
     ∧ res_symbol <$> results
       ≡ₚ symbol
            <$> filter (λ stock, pays_yield 3 stock
                                 || dividend_sustainable stock = true)
                  [star; debt_free; loss_maker]
     ∧ Forall (λ r, score r = 50%float ∨ score r = 100%float) results)
  ∧ (∃ results,
       screen_with_custom_strategy (λ i, Z.of_nat i)
         (create_dividend_screen_strategy one_strategy_builder 3 0).2
         [star; debt_free; loss_maker]
         (create_dividend_screen_strategy one_strategy_builder 3 0).1 75 []
       = ([], Ok results)
       ∧ res_symbol <$> results
         ≡ₚ symbol
              <$> filter (λ stock, pays_yield 3 stock
                                   && dividend_sustainable stock = true)
                    [star; debt_free; loss_maker]
       ∧ Forall (λ r, score r = 100%float) results).
Proof.
  apply (dividend_screen_thresholds (λ i, Z.of_nat i) one_strategy_builder 3 0
           [star; debt_free; loss_maker] 50 75 []); reflexivity.
Defined.

(** X13. Screening with the quality screen right after
    [create_quality_screen_strategy] made it prints nothing; with a
    threshold above a third and at most two thirds of 100 (the default 50 is
    one) it returns the records that satisfy at least two of its three rules
    (ROE, debt-to-equity, current ratio of 1.5), whichever two. *)
Theorem quality_screen_two_of_three (utcnow : nat → Z) (self : StrategyBuilder)
    (min_roe max_debt_to_equity : float) (now : Z) (stocks : list StockData)
    (threshold : float) (out : list string) :
  (1 / 3 * 100 <? threshold)%float = true →
  (threshold <=? 2 / 3 * 100)%float = true →
  ∃ results,
    screen_with_custom_strategy utcnow
      (create_quality_screen_strategy self min_roe max_debt_to_equity now).2
      stocks
      (create_quality_screen_strategy self min_roe max_debt_to_equity now).1
      threshold out
    = (out, Ok results)
    ∧ res_symbol <$> results
      ≡ₚ symbol
           <$> filter (λ stock,
                         two_of (roe_reaches min_roe stock)
                           (debt_within max_debt_to_equity stock)
                           (liquid stock) = true) stocks.
Proof.
  intros Hlow Hhigh.
  set (rs := [roe_rule min_roe; debt_rule max_debt_to_equity; liquidity_rule]).
  unfold create_quality_screen_strategy. fold rs.
  destruct (screen_registered utcnow self "quality_screen" rs now stocks
              threshold out
              (λ stock, two_of (roe_reaches min_roe stock)
                          (debt_within max_debt_to_equity stock)
                          (liquid stock) = true))
    as (results & Hrun & Hperm); [done | done | |].
  { intros stock. unfold reaches. cbn [snd]. subst rs. boolean_rules_score.
    rewrite (rule_holds_returns (roe_rule min_roe) stock
               (roe_reaches min_roe stock)) by reflexivity.
    rewrite (rule_holds_returns (debt_rule max_debt_to_equity) stock
               (debt_within max_debt_to_equity stock)) by reflexivity.
    rewrite (rule_holds_returns liquidity_rule stock (liquid stock))
      by reflexivity.
    destruct (roe_reaches _ _), (debt_within _ _), (liquid _); cbn [two_of andb orb];
      split; try done; intros Hreach;
      first [ by apply (reaches_above threshold (2 / 3 * 100))
            | by rewrite (reaches_below threshold (1 / 3 * 100)) in Hreach ]. }
  exists results. split; [done |]. by eapply results_symbols.
Qed.

Lemma quality_screen_two_of_three_witness :
  ∃ results,
    screen_with_custom_strategy (λ i, Z.of_nat i)
      (create_quality_screen_strategy one_strategy_builder 15 1 0).2
      [star; debt_free; loss_maker]
      (create_quality_screen_strategy one_strategy_builder 15 1 0).1 50 []
    = ([], Ok results)
    ∧ res_symbol <$> results
      ≡ₚ symbol
           <$> filter (λ stock,
                         two_of (roe_reaches 15 stock) (debt_within 1 stock)
                           (liquid stock) = true)
                 [star; debt_free; loss_maker].
Proof.
  apply (quality_screen_two_of_three (λ i, Z.of_nat i) one_strategy_builder
           15 1 0 [star; debt_free; loss_maker] 50 []); reflexivity.
Defined.

(** ** Strategy classes and the criteria filter *)

Lemma dict_setitem_keys {V} (d : list (string * V)) key v (k : string) :
  k ∈ (dict_setitem d key v).*1 → k = key ∨ k ∈ d.*1.
Proof.
  induction d as [|[k' old] rest IH]; cbn.
  - intros Hin. apply list_elem_of_singleton in Hin. by left.
  - case_decide as Hkey; cbn; intros Hin;
      apply elem_of_cons in Hin as [->|Hin].
    + right. by left.
    + right. by right.
    + right. by left.
    + destruct (IH Hin) as [->|Hrest]; [by left | right; by right].
Qed.

Lemma dict_update_keys {V} (other d : list (string * V)) (k : string) :
  k ∈ (dict_update d other).*1 → k ∈ d.*1 ∨ k ∈ other.*1.
Proof.
  revert d. induction other as [|[key v] rest IH]; intros d; cbn.
  - by left.
  - intros Hin. destruct (IH _ Hin) as [Hd|Hrest]; [|right; by right].
    destruct (dict_setitem_keys _ _ _ _ Hd) as [->|Hd'];
      [right; by left | by left].
Qed.

Lemma computed_metric stock (key : string) :
  key ∈ metric_names → is_Some (metrics (analyze stock) !! key).
Proof.
  intros Hin. unfold metric_names in Hin.
  repeat (apply elem_of_cons in Hin as [->|Hin]; [by eexists |]).
  by apply elem_of_nil in Hin.
Qed.

Lemma check_criteria_resolvable other stock (criteria : Criteria) :
  Forall (resolvable other) criteria →
  check_criteria other stock (metrics (analyze stock)) criteria
  = Ok (forallb (criterion_passes stock) criteria).
Proof.
  induction 1 as [|[metric bounds] rest Hhead _ IH]; [done |].
  cbn [check_criteria forallb].
  unfold resolve, getattr_stock, criterion_passes at 1.
  rewrite metric_map_identity. cbn [fst snd].
  destruct Hhead as [Hmetric|[Hname Hother]]; cbn [fst] in *.
  - destruct (computed_metric stock metric Hmetric) as [x ->].
    unfold within_bounds. cbn [py_lt py_gt].
    destruct (bmin bounds) as [lo|], (bmax bounds) as [hi|]; cbn;
      repeat case_match; cbn; done.
  - rewrite Hother.
    apply elem_of_cons in Hname as [->|Hname];
      [|apply list_elem_of_singleton in Hname as ->]; exact IH.
Qed.

Lemma apply_criteria_resolvable other stocks (criteria : Criteria) :
  Forall (resolvable other) criteria →
  _apply_criteria other stocks criteria
  = Ok (filter (passes_all criteria) stocks).
Proof.
  intros Hcriteria.
  induction stocks as [|stock rest IH]; [done |].
  cbn [_apply_criteria]. rewrite check_criteria_resolvable, IH by done.
  cbn [bind]. rewrite filter_cons.
  case_decide as Hpass; unfold passes_all in Hpass.
  - by rewrite Hpass.
  - apply not_true_is_false in Hpass. by rewrite Hpass.
Qed.

Lemma screen_stocks_resolvable other stocks strategy
    (criteria : option Criteria) :
  Forall (resolvable other) (bs_criteria strategy) →
  screen_stocks other stocks (Some strategy) criteria
  = Ok (screen_row <$> filter (passes_all (bs_criteria strategy)) stocks).
Proof.
  intros Hcriteria. unfold screen_stocks.
  destruct stocks as [|stock rest]; [done |].
  destruct (bs_criteria strategy) as [|criterion more] eqn:Hdict.
  - cbn [bind]. rewrite filter_all; [done |].
    apply Forall_true. intros stock'. reflexivity.
  - by rewrite apply_criteria_resolvable.
Qed.

Lemma BaseStrategy_init_criteria name (criteria : Criteria) description :
  bs_criteria (BaseStrategy_init name (Some criteria) description) = criteria.
Proof. by destruct criteria. Qed.

Lemma update_defaults_keys (defaults : Criteria) overrides (k : string) :
  k ∈ (update_defaults defaults overrides).*1 →
  k ∈ defaults.*1 ∨ ∃ given, overrides = Some given ∧ k ∈ given.*1.
Proof.
  unfold update_defaults. intros Hin.
  destruct overrides as [[|item more]|]; [by left | | by left].
  apply dict_update_keys in Hin as [Hd|Ho]; [by left |].
  right. by eexists.
Qed.

Ltac class_keys Hin :=
  cbv zeta in Hin; rewrite BaseStrategy_init_criteria in Hin;
  apply update_defaults_keys in Hin as [Hin|Hin]; [| by auto];
  cbn in Hin;
  repeat (apply elem_of_cons in Hin as [->|Hin];
          [first [ by right; left
                 | left; by apply (bool_decide_unpack _) ] |]);
  by apply elem_of_nil in Hin.

Lemma strategy_class_keys class (overrides : option Criteria) (k : string) :
  class ∈ strategy_classes →
  k ∈ (bs_criteria (class overrides)).*1 →
  k ∈ metric_names ∨ k = "payout_ratio"
  ∨ ∃ given, overrides = Some given ∧ k ∈ given.*1.
Proof.
  intros Hclass Hin. unfold strategy_classes in Hclass.
  apply elem_of_cons in Hclass as [->|Hclass];
    [unfold ValueStrategy in Hin; class_keys Hin |].
  apply elem_of_cons in Hclass as [->|Hclass];
    [unfold GrowthStrategy in Hin; class_keys Hin |].
  apply elem_of_cons in Hclass as [->|Hclass];
    [unfold DividendStrategy in Hin; class_keys Hin |].
  apply elem_of_cons in Hclass as [->|Hclass];
    [unfold QualityStrategy in Hin; class_keys Hin |].
  apply elem_of_cons in Hclass as [->|Hclass];
    [unfold MomentumStrategy in Hin; class_keys Hin |].
  apply elem_of_cons in Hclass as [->|Hclass];
    [unfold GARPStrategy in Hin; class_keys Hin |].
  by apply elem_of_nil in Hclass.
Qed.

(** X14. Which rows [screen_stocks] returns for records whose fields hold
    the numbers [StockData] declares, when it is given an object of one of
    the six strategy classes, made with defaults or with overriding criteria
    whose names are fields of [ScreeningCriteria]: its own [criteria]
    argument is ignored, and there is one row, in input order, per stock
    that passes every criterion of the strategy.  Every such criterion
    names a computed metric, or one of [payout_ratio] and [free_cash_flow],
    which [StockData] has no attribute for and which are skipped. *)
Theorem screen_stocks_with_strategy_class (has_other_attribute : string → bool)
    (class : option Criteria → BaseStrategy) (overrides : option Criteria)
    (stocks : list StockData) (criteria : option Criteria) :
  has_other_attribute "payout_ratio" = false →
  has_other_attribute "free_cash_flow" = false →
  class ∈ strategy_classes →
  (∀ given, overrides = Some given →
            Forall (λ item, item.1 ∈ ScreeningCriteria_fields) given) →
  screen_stocks has_other_attribute stocks (Some (class overrides)) criteria
  = Ok (screen_row
          <$> filter (passes_all (bs_criteria (class overrides))) stocks).
Proof.
  intros Hpayout Hcash Hclass Hnames. apply screen_stocks_resolvable.
  apply Forall_forall. intros [k bounds] Hin.
  assert (Hk : k ∈ (bs_criteria (class overrides)).*1).
  { apply list_elem_of_fmap. by exists (k, bounds). }
  unfold resolvable. cbn [fst].
  apply strategy_class_keys in Hk as [Hk|[->|(given & -> & Hk)]];
    [by left | | | done].
  - right. split; [by left | done].
  - specialize (Hnames given eq_refl).
    apply list_elem_of_fmap in Hk as ([k' bounds'] & -> & Hk).
    rewrite Forall_forall in Hnames. apply Hnames in Hk. cbn [fst] in *.
    unfold ScreeningCriteria_fields in Hk.
    do 9 (apply elem_of_cons in Hk as [->|Hk];
          [left; by apply (bool_decide_unpack _) |]).
    apply elem_of_cons in Hk as [->|Hk]; [right; split; [by left | done] |].
    apply list_elem_of_singleton in Hk as ->.
    right. split; [by right; left | done].
Qed.

Lemma screen_stocks_with_strategy_class_witness :
  screen_stocks object_attributes [star; debt_free; loss_maker]
    (Some (GrowthStrategy
             (Some [("pe_ratio", {| bmin := Some 5%float; bmax := None |});
                    ("payout_ratio",
                     {| bmin := None; bmax := Some 0.5%float |})])))
    (Some symbol_at_least_zero)
  = Ok (screen_row
          <$> filter
                (passes_all
                   (bs_criteria
                      (GrowthStrategy
                         (Some [("pe_ratio",
                                 {| bmin := Some 5%float; bmax := None |});
                                ("payout_ratio",
                                 {| bmin := None;
                                    bmax := Some 0.5%float |})]))))
                [star; debt_free; loss_maker]).
Proof.
  apply (screen_stocks_with_strategy_class object_attributes GrowthStrategy
           (Some [("pe_ratio", {| bmin := Some 5%float; bmax := None |});
                  ("payout_ratio",
                   {| bmin := None; bmax := Some 0.5%float |})])
           [star; debt_free; loss_maker] (Some symbol_at_least_zero)).
  - reflexivity.
  - reflexivity.
  - unfold strategy_classes. apply elem_of_cons. right.
    apply elem_of_cons. by left.
  - intros given Hgiven. injection Hgiven as <-.
    apply Forall_cons. split; [by apply (bool_decide_unpack _) |].
    apply Forall_cons. split; [by apply (bool_decide_unpack _) |].
    apply Forall_nil_2.
Defined.

(** X15. With a [DividendStrategy] made with its defaults, [screen_stocks]
    returns the rows of exactly the stocks whose dividend yield, as stored
    in the record, is not below 0.03, whose debt-to-equity is not above 1
    and whose current ratio is not below 1.  The default limit of 0.70 on
    the payout ratio rejects nothing, for no such metric or attribute
    exists. *)
Theorem dividend_strategy_defaults (has_other_attribute : string → bool)
    (stocks : list StockData) (criteria : option Criteria) :
  has_other_attribute "payout_ratio" = false →
  screen_stocks has_other_attribute stocks (Some (DividendStrategy None))
    criteria
  = Ok (screen_row
          <$> filter (λ stock, dividend_defaults_met stock = true) stocks).
Proof.
  intros Hpayout. rewrite screen_stocks_resolvable.
  - do 2 f_equal. apply list_filter_iff. intros stock.
    unfold passes_all, dividend_defaults_met.
    change (bs_criteria (DividendStrategy None)) with
      [ ("dividend_yield", {| bmin := Some 0.03%float; bmax := None |});
        ("payout_ratio", {| bmin := None; bmax := Some 0.70%float |});
        ("debt_to_equity", {| bmin := None; bmax := Some 1.0%float |});
        ("current_ratio", {| bmin := Some 1.0%float; bmax := None |}) ].
    cbn [forallb]. unfold criterion_passes. cbn [fst snd].
    change (metrics (analyze stock) !! "dividend_yield")
      with (Some (dividend_yield stock)).
    change (metrics (analyze stock) !! "payout_ratio") with (@None float).
    change (metrics (analyze stock) !! "debt_to_equity")
      with (Some (_calculate_debt_to_equity stock)).
    change (metrics (analyze stock) !! "current_ratio")
      with (Some (_calculate_current_ratio stock)).
    change (stock_fields stock !! "payout_ratio") with (@None pyval).
    unfold within_bounds. cbn [bmin bmax negb andb].
    by rewrite !andb_true_r, andb_assoc.
  - cbn. repeat (apply Forall_cons; split);
      [ left; by apply (bool_decide_unpack _)
      | right; split; [by left | done]
      | left; by apply (bool_decide_unpack _)
      | left; by apply (bool_decide_unpack _)
      | apply Forall_nil_2 ].
Qed.

Lemma dividend_strategy_defaults_witness :
  screen_stocks object_attributes [star; debt_free; loss_maker]
    (Some (DividendStrategy None)) None
  = Ok (screen_row
          <$> filter (λ stock, dividend_defaults_met stock = true)
                [star; debt_free; loss_maker]).
Proof.
  apply (dividend_strategy_defaults object_attributes
           [star; debt_free; loss_maker] None).
  reflexivity.
Defined.

(** ** The rules of thumb *)

Lemma zero_over_positive (a b : float) :
  (a =? 0)%float = true → (0 <? b)%float = true → (a / b =? 0)%float = true.
Proof.
  rewrite !FloatAxioms.eqb_spec, ltb_spec, div_spec.
  change (Prim2SF 0) with (S754_zero false).
  destruct (Prim2SF a) as [sa|sa| |sa ma ea], (Prim2SF b) as [sb|sb| |sb mb eb];
    repeat match goal with s : bool |- _ => destruct s end;
    cbn; congruence.
Qed.

Lemma debt_free_debt_to_equity stock :
  (debt stock =? 0)%float = true →
  (0 <? total_assets stock - total_liabilities stock)%float = true →
  truthy (_calculate_debt_to_equity stock) = false.
Proof.
  intros Hdebt Hequity. unfold truthy, _calculate_debt_to_equity. cbv zeta.
  rewrite (float_ltb_not_leb _ _ Hequity).
  by rewrite zero_over_positive.
Qed.

Section rules_of_thumb_facts.
Variable format_2f : float → string.
Variable format_1f : float → string.

Ltac score_range f :=
  intros; unfold f; cbn [ev_score]; cbv zeta; repeat case_match; lia.

Lemma pe_eval_score pe : 0 ≤ ev_score (pe_eval format_2f pe) ≤ 10.
Proof. score_range pe_eval. Qed.

Lemma de_eval_score de : 0 ≤ ev_score (de_eval format_2f de) ≤ 10.
Proof. score_range de_eval. Qed.

Lemma cr_eval_score cr : 0 ≤ ev_score (cr_eval format_2f cr) ≤ 10.
Proof. score_range cr_eval. Qed.

Lemma rev_eval_score x : 0 ≤ ev_score (rev_eval format_1f x) ≤ 10.
Proof. score_range rev_eval. Qed.

Lemma eps_eval_score x : 0 ≤ ev_score (eps_eval format_1f x) ≤ 10.
Proof. score_range eps_eval. Qed.

Lemma roe_eval_score x : 0 ≤ ev_score (roe_eval format_1f x) ≤ 10.
Proof. score_range roe_eval. Qed.

Lemma payout_eval_score x : 0 ≤ ev_score (payout_eval format_1f x) ≤ 10.
Proof. score_range payout_eval. Qed.

Lemma pb_eval_score pb : 3 ≤ ev_score (pb_eval format_2f pb) ≤ 10.
Proof. score_range pb_eval. Qed.

Lemma fcf_eval_score fcf : 0 ≤ ev_score (fcf_eval format_2f fcf) ≤ 10.
Proof. score_range fcf_eval. Qed.

Lemma recommendation_by_total (total : Z) :
  33 ≤ total ≤ 120 →
  let percentage := (float_of_Z total / float_of_Z 120 * 100)%float in
  (80 <=? percentage)%float = (96 <=? total)
  ∧ (60 <=? percentage)%float = (72 <=? total)
  ∧ (40 <=? percentage)%float = (48 <=? total).
Proof.
  intros Hrange.
  assert (Htable : recommendation_table = true) by (by vm_compute).
  unfold recommendation_table in Htable.
  rewrite forallb_forall in Htable.
  specialize (Htable total). rewrite <- list_elem_of_In, elem_of_seqZ in Htable.
  specialize (Htable ltac:(lia)). cbv zeta in Htable.
  rewrite !andb_true_iff, !bool_decide_eq_true in Htable.
  cbv zeta. by destruct Htable as [[H80 H60] H40].
Qed.
End rules_of_thumb_facts.

(** X16. What the rules-of-thumb evaluation holds for a fetched record whose
    fields hold numbers, once the provider has given the sector: twelve
    evaluations, a maximum score of 120 and a total between 33 and 120,
    since three evaluations always score 10 and the P/B evaluation at least
    3.  The recommendation is STRONG_BUY from a total of 96, BUY from 72,
    HOLD from 48 and SELL below 48. *)
Theorem rules_of_thumb_recommendation (format_2f format_1f : float → string)
    (symbol : string) (stock_data : StockData)
    (payout_ratio free_cash_flow : option float) (sector : string) :
  ∃ r,
    get_rules_of_thumb_evaluation format_2f format_1f symbol (Some stock_data)
      payout_ratio free_cash_flow sector
    = Ok r
    ∧ length (evaluations r) = 12%nat
    ∧ max_score r = 120
    ∧ 33 ≤ overall_score r ≤ 120
    ∧ (recommendation r = "STRONG_BUY" ↔ 96 ≤ overall_score r)
    ∧ (recommendation r = "BUY" ↔ 72 ≤ overall_score r < 96)
    ∧ (recommendation r = "HOLD" ↔ 48 ≤ overall_score r < 72)
    ∧ (recommendation r = "SELL" ↔ overall_score r < 48).
Proof.
  unfold get_rules_of_thumb_evaluation, analyze_stock. cbn [bind].
  cbv zeta.
  cbn [sa_pe_ratio sa_pb_ratio sa_roe sa_revenue_growth sa_earnings_growth
       sa_current_ratio sa_debt_to_equity sa_payout_ratio sa_free_cash_flow].
  match goal with
  | |- context [py_truediv ?sum _] => set (total := sum)
  end.
  change (Z.of_nat (length _) * 10) with 120.
  assert (Hrange : 33 ≤ total ≤ 120).
  { subst total. cbn [fmap list_fmap foldr].
    pose proof (pe_eval_score format_2f
                  (metrics (analyze stock_data) !!! "pe_ratio")).
    pose proof (de_eval_score format_2f
                  (metrics (analyze stock_data) !!! "debt_to_equity")).
    pose proof (cr_eval_score format_2f
                  (metrics (analyze stock_data) !!! "current_ratio")).
    pose proof (rev_eval_score format_1f
                  (revenue_growth stock_data / 100 * 100)%float).
    pose proof (eps_eval_score format_1f
                  (earnings_growth stock_data / 100 * 100)%float).
    pose proof (roe_eval_score format_1f
                  (metrics (analyze stock_data) !!! "roe" / 100 * 100)%float).
    pose proof (payout_eval_score format_1f
                  (get_or_0 payout_ratio * 100)%float).
    pose proof (pb_eval_score format_2f
                  (metrics (analyze stock_data) !!! "pb_ratio")).
    pose proof (fcf_eval_score format_2f (get_or_0 free_cash_flow)).
    cbn [ev_score gv_eval div_eval ind_eval]. lia. }
  clearbody total. unfold py_truediv. change (120 =? 0) with false.
  cbn [bind]. eexists. split; [reflexivity |].
  cbn [evaluations max_score overall_score recommendation].
  destruct (recommendation_by_total total Hrange) as (H80 & H60 & H40).
  cbv zeta in H80, H60, H40. rewrite H80, H60, H40.
  split; [done |]. split; [done |]. split; [done |].
  destruct (96 <=? total) eqn:H96; [apply Z.leb_le in H96|apply Z.leb_gt in H96];
  (destruct (72 <=? total) eqn:H72; [apply Z.leb_le in H72|apply Z.leb_gt in H72]);
  (destruct (48 <=? total) eqn:H48; [apply Z.leb_le in H48|apply Z.leb_gt in H48]);
  repeat split; intros; try done; try lia.
Qed.

Lemma rules_of_thumb_total (format_2f format_1f : float → string)
    (symbol : string) (stock_data : StockData)
    (payout_ratio free_cash_flow : option float) (sector : string) :
  ∃ r,
    get_rules_of_thumb_evaluation format_2f format_1f symbol (Some stock_data)
      payout_ratio free_cash_flow sector
    = Ok r
    ∧ evaluations r !! 1%nat
      = Some (de_eval format_2f (_calculate_debt_to_equity stock_data)).
Proof.
  unfold get_rules_of_thumb_evaluation, analyze_stock. cbn [bind].
  cbv zeta. unfold py_truediv.
  change (Z.of_nat (length _) * 10 =? 0) with false.
  cbn [bind]. eexists. split; reflexivity.
Qed.

(** X17. A company without debt and with positive equity has a
    debt-to-equity of zero, which the rules of thumb take for a missing
    value: its debt-to-equity evaluation, the second of the twelve, has
    status HIGH and score 0. *)
Theorem debt_free_rated_high_debt (format_2f format_1f : float → string)
    (symbol : string) (stock_data : StockData)
    (payout_ratio free_cash_flow : option float) (sector : string) :
  (debt stock_data =? 0)%float = true →
  (0 <? total_assets stock_data - total_liabilities stock_data)%float = true →
  ∃ r evaluation,
    get_rules_of_thumb_evaluation format_2f format_1f symbol (Some stock_data)
      payout_ratio free_cash_flow sector
    = Ok r
    ∧ evaluations r !! 1%nat = Some evaluation
    ∧ ev_metric evaluation = "Debt-to-Equity"
    ∧ ev_status evaluation = "HIGH"
    ∧ ev_score evaluation = 0.
Proof.
  intros Hdebt Hequity.
  destruct (rules_of_thumb_total format_2f format_1f symbol stock_data
              payout_ratio free_cash_flow sector) as (r & Hrun & Hevals).
  exists r, (de_eval format_2f (_calculate_debt_to_equity stock_data)).
  split; [done |]. split; [by rewrite Hevals |].
  unfold de_eval. cbn [ev_metric ev_status ev_score].
  by rewrite debt_free_debt_to_equity.
Qed.

Lemma debt_free_rated_high_debt_witness :
  ∃ r evaluation,
    get_rules_of_thumb_evaluation (λ _, "0.00") (λ _, "0.0") "FREE"
      (Some debt_free) None None "Unknown"
    = Ok r
    ∧ evaluations r !! 1%nat = Some evaluation
    ∧ ev_metric evaluation = "Debt-to-Equity"
    ∧ ev_status evaluation = "HIGH"
    ∧ ev_score evaluation = 0.
Proof.
  apply (debt_free_rated_high_debt (λ _, "0.00") (λ _, "0.0") "FREE"
           debt_free None None "Unknown"); reflexivity.
Defined.
